(** * redis-gli: the application state machine of gui.go

    A shallow embedding of [gui.go]: the key-binding registry, the focus ring,
    the global input dispatcher, the command panel with its lock, the search
    panel and the key-selected handler, followed by the properties proved
    about them.

    Conventions.
    - Widgets are Go pointers compared by identity; each is allocated once by
      the constructor, so a widget handle is a constructor of [Primitive].
    - Go [int] values (indices, lengths) are [Z]; they are bounded by slice
      lengths here, so no wrap-around occurs.
    - Go strings are byte strings: [string], with [String.length] for [len].
    - A runtime panic is [None].
    - Sending on [gli.outputChan] appends to the list of messages sent; the
      loop of [Start] that drains the channel into the output list and the
      ticker that refreshes the server information are not modelled.
    - The store client is an argument of every handler: its answers are those
      of the server at that moment.  [redisCalls] records the operations
      issued to it, in order.
    - A closure handed to a widget as a callback is a value of [Callback];
      the closure handed to [QueueUpdateDraw] by the command panel is the
      command text in [queuedUpdates].
    - Widget borders, colours, sizes on screen and alignment are not
      modelled. *)

From Stdlib Require Import ZArith List String Ascii Bool Lia Permutation.
From Stdlib Require Import DecimalString.
Import ListNotations.
Open Scope Z_scope.
Open Scope string_scope.
Open Scope list_scope.

(** String concatenation, Go's [+] on strings and the joints of a format. *)
Infix "+++" := String.append (right associativity, at level 60).

(** ** Fallible results: Go's [(value, err)] pairs *)

Inductive result (A : Type) : Type :=
| Ok (a : A)
| Err (e : string).
Arguments Ok {A} a.
Arguments Err {A} e.

(** ** tcell keys *)

(** [tcell.Key] is an [int16]; the constants are those of tcell's key.go. *)
Definition Key := Z.

Module tcell.
Definition KeyCtrlA : Key := 1.
Definition KeyCtrlF : Key := 6.
Definition KeyTab : Key := 9.
Definition KeyCtrlK : Key := 11.
Definition KeyEnter : Key := 13.
Definition KeyCtrlN : Key := 14.
Definition KeyCtrlO : Key := 15.
Definition KeyCtrlQ : Key := 17.
Definition KeyCtrlR : Key := 18.
Definition KeyCtrlS : Key := 19.
Definition KeyCtrlY : Key := 25.
Definition KeyEsc : Key := 27.
Definition KeyF1 : Key := 279.
Definition KeyF2 : Key := 280.
Definition KeyF3 : Key := 281.
Definition KeyF4 : Key := 282.
Definition KeyF5 : Key := 283.
Definition KeyF6 : Key := 284.
Definition KeyF7 : Key := 285.
Definition KeyF9 : Key := 287.

(** The colours used; [ColorZero] is the zero value of [tcell.Color], the
    colour of a message built without one. *)
Inductive Color := ColorZero | ColorRed | ColorGreen | ColorOrange.

(** [tcell.KeyNames], restricted to the keys bound by this program. *)
Definition KeyNames (k : Key) : string :=
  if Z.eqb k KeyCtrlA then "Ctrl-A" else if Z.eqb k KeyCtrlF then "Ctrl-F"
  else if Z.eqb k KeyTab then "Tab" else if Z.eqb k KeyCtrlK then "Ctrl-K"
  else if Z.eqb k KeyEnter then "Enter" else if Z.eqb k KeyCtrlN then "Ctrl-N"
  else if Z.eqb k KeyCtrlO then "Ctrl-O" else if Z.eqb k KeyCtrlQ then "Ctrl-Q"
  else if Z.eqb k KeyCtrlR then "Ctrl-R" else if Z.eqb k KeyCtrlS then "Ctrl-S"
  else if Z.eqb k KeyCtrlY then "Ctrl-Y" else if Z.eqb k KeyEsc then "Esc"
  else if Z.eqb k KeyF1 then "F1" else if Z.eqb k KeyF2 then "F2"
  else if Z.eqb k KeyF3 then "F3" else if Z.eqb k KeyF4 then "F4"
  else if Z.eqb k KeyF5 then "F5" else if Z.eqb k KeyF6 then "F6"
  else if Z.eqb k KeyF7 then "F7" else if Z.eqb k KeyF9 then "F9"
  else "".
End tcell.

(** ** The key-binding registry *)

(** [type KeyBindings map[string][]tcell.Key].  A Go map has no iteration
    order: a value of this type lists the entries in the order in which one
    [range] visits them, and every permutation of [keyBindings] is a possible
    order (see [iteration_order]). *)
Definition KeyBindings := list (string * list Key).

Definition keyBindings : KeyBindings :=
  [ ("search",           [tcell.KeyF2; tcell.KeyCtrlS]);
    ("keys",             [tcell.KeyF3; tcell.KeyCtrlK]);
    ("key_list_value",   [tcell.KeyF6; tcell.KeyCtrlY]);
    ("key_string_value", [tcell.KeyF7; tcell.KeyCtrlA]);
    ("key_hash",         [tcell.KeyF6; tcell.KeyCtrlY]);
    ("output",           [tcell.KeyF9; tcell.KeyCtrlO]);
    ("command",          [tcell.KeyF1; tcell.KeyCtrlN]);
    ("command_focus",    [tcell.KeyF4; tcell.KeyCtrlF]);
    ("command_result",   [tcell.KeyF5; tcell.KeyCtrlR]);
    ("quit",             [tcell.KeyEsc; tcell.KeyCtrlQ]);
    ("switch_focus",     [tcell.KeyTab]) ].

(** The orders in which [range keyBindings] may visit the map. *)
Definition iteration_order (kb : KeyBindings) : Prop :=
  Permutation keyBindings kb.

(** The inner loop of [SearchKey]: [for _, b := range bind]. *)
Fixpoint bindHas (bind : list Key) (k : Key) : bool :=
  match bind with
  | [] => false
  | b :: rest => if Z.eqb b k then true else bindHas rest k
  end.

(** [func (kb KeyBindings) SearchKey(k tcell.Key) string] *)
Fixpoint SearchKey (kb : KeyBindings) (k : Key) : string :=
  match kb with
  | [] => ""
  | (name, bind) :: rest => if bindHas bind k then name else SearchKey rest k
  end.

(** [func (kb KeyBindings) KeyID(key string) string] *)
Definition KeyID (kb : KeyBindings) (key : string) : string := key.

(** [func (kb KeyBindings) Keys(key string) []tcell.Key]: [kb[key]], the nil
    slice for an absent key. *)
Fixpoint Keys (kb : KeyBindings) (key : string) : list Key :=
  match kb with
  | [] => []
  | (name, bind) :: rest => if String.eqb name key then bind else Keys rest key
  end.

(** [strings.Join] *)
Fixpoint Join (l : list string) (sep : string) : string :=
  match l with
  | [] => ""
  | [x] => x
  | x :: rest => x +++ sep +++ Join rest sep
  end.

(** [func (kb KeyBindings) Name(key string) string] *)
Definition Name (kb : KeyBindings) (key : string) : string :=
  Join (map tcell.KeyNames (Keys kb key)) ", ".

(** ** Formatting: the [fmt.Sprintf] verbs used *)

(** [%d] *)
Definition fmt_d (n : Z) : string := NilZero.string_of_int (Z.to_int n).

Fixpoint spaces (n : nat) : string :=
  match n with
  | O => ""
  | S n' => String " " (spaces n')
  end.

(** [%3d]: right-aligned in a field of width 3, wider numbers untouched. *)
Definition fmt_3d (n : Z) : string :=
  let s := fmt_d n in spaces (3 - String.length s) +++ s.

(** [func (gli *RedisGli) keyItemsFormat(index int, key string) string]:
    [fmt.Sprintf("%3d | %s", index+1, key)] *)
Definition keyItemsFormat (index : Z) (key : string) : string :=
  fmt_3d (index + 1) +++ " | " +++ key.

(** The row format of the detail views:
    [fmt.Sprintf(" %3d | %s", i+1, v)] *)
Definition viewRowFormat (i : Z) (v : string) : string :=
  " " +++ fmt_3d (i + 1) +++ " | " +++ v.

(** [for i, v := range l]: the elements with their indices. *)
Fixpoint enumerate_from {A : Type} (i : Z) (l : list A) : list (Z * A) :=
  match l with
  | [] => []
  | x :: rest => (i, x) :: enumerate_from (i + 1) rest
  end.

Definition enumerate {A : Type} (l : list A) : list (Z * A) :=
  enumerate_from 0 l.

(** ** Widgets *)

(** The widgets the constructor allocates, by identity. *)
Inductive Primitive :=
| MetaPanel | MainPanel | OutputPanel | KeyItemsPanel | SummaryPanel
| SearchPanel | WelcomeScreen | HelpPanel | HelpMessagePanel
| HelpServerInfoPanel | CommandPanel | CommandFormPanel | CommandResultPanel
| LeftPanel | RightPanel | Layout
| MainStringView | MainHashView | MainListView
| AlertModal.

Definition Primitive_eqb (a b : Primitive) : bool :=
  match a, b with
  | MetaPanel, MetaPanel | MainPanel, MainPanel | OutputPanel, OutputPanel
  | KeyItemsPanel, KeyItemsPanel | SummaryPanel, SummaryPanel
  | SearchPanel, SearchPanel | WelcomeScreen, WelcomeScreen
  | HelpPanel, HelpPanel | HelpMessagePanel, HelpMessagePanel
  | HelpServerInfoPanel, HelpServerInfoPanel | CommandPanel, CommandPanel
  | CommandFormPanel, CommandFormPanel
  | CommandResultPanel, CommandResultPanel | LeftPanel, LeftPanel
  | RightPanel, RightPanel | Layout, Layout
  | MainStringView, MainStringView | MainHashView, MainHashView
  | MainListView, MainListView | AlertModal, AlertModal => true
  | _, _ => false
  end.

(** The closures installed as callbacks of list items. *)
Inductive Callback :=
| OnKeySelected (index : Z) (key : string)  (* [gli.itemSelectedHandler(i, k)] *)
| OnHashField (key k : string).             (* the closure of a hash row *)

Module tview.

Record TextView := { Text : string; Title : string }.

Definition SetText (t : string) (v : TextView) : TextView :=
  {| Text := t; Title := Title v |}.
Definition SetTitle (t : string) (v : TextView) : TextView :=
  {| Text := Text v; Title := t |}.
Definition TextView_Clear (v : TextView) : TextView := SetText "" v.

Record listItem :=
  { MainText : string; SecondaryText : string; Selected : option Callback }.

Record List := { Items : list listItem; showSecondaryText : bool }.

Definition NewList : List := {| Items := []; showSecondaryText := true |}.
Definition ShowSecondaryText (b : bool) (l : List) : List :=
  {| Items := Items l; showSecondaryText := b |}.
Definition List_Clear (l : List) : List :=
  {| Items := []; showSecondaryText := showSecondaryText l |}.
Definition List_AddItem (main secondary : string) (sel : option Callback)
    (l : List) : List :=
  {| Items := Items l ++ [ {| MainText := main; SecondaryText := secondary;
                              Selected := sel |} ];
     showSecondaryText := showSecondaryText l |}.

Record flexItem := { Item : Primitive; FixedSize : Z; Proportion : Z }.
Definition Flex := list flexItem.

Definition AddItem (p : Primitive) (fixedSize proportion : Z) (f : Flex)
    : Flex :=
  f ++ [ {| Item := p; FixedSize := fixedSize; Proportion := proportion |} ].
Definition RemoveItem (p : Primitive) (f : Flex) : Flex :=
  filter (fun it => negb (Primitive_eqb (Item it) p)) f.

Record page :=
  { PageName : string; PageItem : Primitive; Resize : bool; Visible : bool }.
Definition Pages := list page.

Fixpoint RemovePage (name : string) (ps : Pages) : Pages :=
  match ps with
  | [] => []
  | pg :: rest =>
      if String.eqb (PageName pg) name then rest
      else pg :: RemovePage name rest
  end.
Definition AddPage (name : string) (item : Primitive) (resize visible : bool)
    (ps : Pages) : Pages :=
  RemovePage name ps
    ++ [ {| PageName := name; PageItem := item; Resize := resize;
            Visible := visible |} ].
Definition HidePage (name : string) (ps : Pages) : Pages :=
  map (fun pg => if String.eqb (PageName pg) name
                 then {| PageName := PageName pg; PageItem := PageItem pg;
                         Resize := Resize pg; Visible := false |}
                 else pg) ps.

End tview.

(** ** The store client *)

Module Redis.

(** [redis.Z]: a member of a sorted set and its score, each as [%v]
    prints it. *)
Record Z_ := { Member : string; Score : string }.

(** The operations of [RedisClient] the program calls, with [RedisExecute]
    and [RedisServerInfo] (functions of the client defined in other files
    of the package).  An [error] is its message; a duration is its
    [String()] text; the result of a command is its [%v] text. *)
Record Client := {
  ServerInfo : string * option string;
  Execute : string -> result string;
  Scan : Z -> string -> Z -> result (list string * Z);
  Keys : string -> result (list string);
  Type_ : string -> result string;
  TTL : string -> result string;
  Get : string -> result string;
  LRange : string -> Z -> Z -> result (list string);
  SMembers : string -> result (list string);
  ZRangeWithScores : string -> Z -> Z -> result (list Z_);
  HKeys : string -> result (list string);
  HGet : string -> string -> result string }.

(** The operations issued to the store. *)
Inductive Call :=
| CallServerInfo
| CallExecute (cmdText : string)
| CallScan (cursor : Z) (pattern : string) (count : Z)
| CallKeys (pattern : string)
| CallType (key : string)
| CallTTL (key : string)
| CallGet (key : string)
| CallLRange (key : string) (start stop : Z)
| CallSMembers (key : string)
| CallZRangeWithScores (key : string) (start stop : Z)
| CallHKeys (key : string)
| CallHGet (key field : string).

End Redis.

(** ** The application state *)

Record primitiveKey := { Primitive_ : Primitive; Key_ : string }.

Record OutputMessage := { Color : tcell.Color; Message : string }.

(** [type RedisGli struct], with the variables its closures capture. *)
Record RedisGli := {
  metaPanel : tview.TextView;
  mainPanel : tview.Flex;
  keyItemsPanel : tview.List;
  summaryPanel : tview.TextView;
  searchPanel : string;  (* the text of the input field *)
  helpServerInfoPanel : tview.TextView;
  commandFormPanel : string;  (* the text of the input field *)
  commandResultPanel : tview.TextView;
  commandMode : bool;
  rightPanel : tview.Flex;
  pages : tview.Pages;
  focus : option Primitive;  (* the target of the last [app.SetFocus] *)
  stopped : bool;  (* [app.Stop] was called *)
  outputChan : list OutputMessage;  (* the messages sent, oldest first *)
  redisCalls : list Redis.Call;  (* the store operations issued, oldest first *)
  maxKeyLimit : Z;
  version : string;
  gitCommit : string;
  focusPrimitives : list primitiveKey;
  currentFocusIndex : Z;
  configDebug : bool;  (* [config.Debug] *)
  locked : bool;  (* [var locked bool] of [createCommandPanel] *)
  queuedUpdates : list string;  (* command executions handed to [QueueUpdateDraw] *)
  mainStringView : tview.TextView;  (* the three views of [createKeySelectedHandler] *)
  mainHashView : tview.List;
  mainListView : tview.List }.

(** Field assignments. *)
Definition set_metaPanel (v : tview.TextView) (gli : RedisGli) : RedisGli :=
  {| metaPanel := v; mainPanel := mainPanel gli;
     keyItemsPanel := keyItemsPanel gli;
     summaryPanel := summaryPanel gli; searchPanel := searchPanel gli;
     helpServerInfoPanel := helpServerInfoPanel gli;
     commandFormPanel := commandFormPanel gli;
     commandResultPanel := commandResultPanel gli;
     commandMode := commandMode gli; rightPanel := rightPanel gli;
     pages := pages gli; focus := focus gli; stopped := stopped gli;
     outputChan := outputChan gli; redisCalls := redisCalls gli;
     maxKeyLimit := maxKeyLimit gli; version := version gli;
     gitCommit := gitCommit gli;
     focusPrimitives := focusPrimitives gli;
     currentFocusIndex := currentFocusIndex gli;
     configDebug := configDebug gli; locked := locked gli;
     queuedUpdates := queuedUpdates gli;
     mainStringView := mainStringView gli;
     mainHashView := mainHashView gli; mainListView := mainListView gli |}.
Definition set_mainPanel (v : tview.Flex) (gli : RedisGli) : RedisGli :=
  {| metaPanel := metaPanel gli; mainPanel := v;
     keyItemsPanel := keyItemsPanel gli;
     summaryPanel := summaryPanel gli; searchPanel := searchPanel gli;
     helpServerInfoPanel := helpServerInfoPanel gli;
     commandFormPanel := commandFormPanel gli;
     commandResultPanel := commandResultPanel gli;
     commandMode := commandMode gli; rightPanel := rightPanel gli;
     pages := pages gli; focus := focus gli; stopped := stopped gli;
     outputChan := outputChan gli; redisCalls := redisCalls gli;
     maxKeyLimit := maxKeyLimit gli; version := version gli;
     gitCommit := gitCommit gli;
     focusPrimitives := focusPrimitives gli;
     currentFocusIndex := currentFocusIndex gli;
     configDebug := configDebug gli; locked := locked gli;
     queuedUpdates := queuedUpdates gli;
     mainStringView := mainStringView gli;
     mainHashView := mainHashView gli; mainListView := mainListView gli |}.
Definition set_keyItemsPanel (v : tview.List) (gli : RedisGli) : RedisGli :=
  {| metaPanel := metaPanel gli; mainPanel := mainPanel gli;
     keyItemsPanel := v; summaryPanel := summaryPanel gli;
     searchPanel := searchPanel gli;
     helpServerInfoPanel := helpServerInfoPanel gli;
     commandFormPanel := commandFormPanel gli;
     commandResultPanel := commandResultPanel gli;
     commandMode := commandMode gli; rightPanel := rightPanel gli;
     pages := pages gli; focus := focus gli; stopped := stopped gli;
     outputChan := outputChan gli; redisCalls := redisCalls gli;
     maxKeyLimit := maxKeyLimit gli; version := version gli;
     gitCommit := gitCommit gli;
     focusPrimitives := focusPrimitives gli;
     currentFocusIndex := currentFocusIndex gli;
     configDebug := configDebug gli; locked := locked gli;
     queuedUpdates := queuedUpdates gli;
     mainStringView := mainStringView gli;
     mainHashView := mainHashView gli; mainListView := mainListView gli |}.
Definition set_summaryPanel (v : tview.TextView) (gli : RedisGli) : RedisGli :=
  {| metaPanel := metaPanel gli; mainPanel := mainPanel gli;
     keyItemsPanel := keyItemsPanel gli; summaryPanel := v;
     searchPanel := searchPanel gli;
     helpServerInfoPanel := helpServerInfoPanel gli;
     commandFormPanel := commandFormPanel gli;
     commandResultPanel := commandResultPanel gli;
     commandMode := commandMode gli; rightPanel := rightPanel gli;
     pages := pages gli; focus := focus gli; stopped := stopped gli;
     outputChan := outputChan gli; redisCalls := redisCalls gli;
     maxKeyLimit := maxKeyLimit gli; version := version gli;
     gitCommit := gitCommit gli;
     focusPrimitives := focusPrimitives gli;
     currentFocusIndex := currentFocusIndex gli;
     configDebug := configDebug gli; locked := locked gli;
     queuedUpdates := queuedUpdates gli;
     mainStringView := mainStringView gli;
     mainHashView := mainHashView gli; mainListView := mainListView gli |}.
Definition set_searchPanel (v : string) (gli : RedisGli) : RedisGli :=
  {| metaPanel := metaPanel gli; mainPanel := mainPanel gli;
     keyItemsPanel := keyItemsPanel gli;
     summaryPanel := summaryPanel gli; searchPanel := v;
     helpServerInfoPanel := helpServerInfoPanel gli;
     commandFormPanel := commandFormPanel gli;
     commandResultPanel := commandResultPanel gli;
     commandMode := commandMode gli; rightPanel := rightPanel gli;
     pages := pages gli; focus := focus gli; stopped := stopped gli;
     outputChan := outputChan gli; redisCalls := redisCalls gli;
     maxKeyLimit := maxKeyLimit gli; version := version gli;
     gitCommit := gitCommit gli;
     focusPrimitives := focusPrimitives gli;
     currentFocusIndex := currentFocusIndex gli;
     configDebug := configDebug gli; locked := locked gli;
     queuedUpdates := queuedUpdates gli;
     mainStringView := mainStringView gli;
     mainHashView := mainHashView gli; mainListView := mainListView gli |}.
Definition set_helpServerInfoPanel (v : tview.TextView) (gli : RedisGli) : RedisGli :=
  {| metaPanel := metaPanel gli; mainPanel := mainPanel gli;
     keyItemsPanel := keyItemsPanel gli;
     summaryPanel := summaryPanel gli; searchPanel := searchPanel gli;
     helpServerInfoPanel := v;
     commandFormPanel := commandFormPanel gli;
     commandResultPanel := commandResultPanel gli;
     commandMode := commandMode gli; rightPanel := rightPanel gli;
     pages := pages gli; focus := focus gli; stopped := stopped gli;
     outputChan := outputChan gli; redisCalls := redisCalls gli;
     maxKeyLimit := maxKeyLimit gli; version := version gli;
     gitCommit := gitCommit gli;
     focusPrimitives := focusPrimitives gli;
     currentFocusIndex := currentFocusIndex gli;
     configDebug := configDebug gli; locked := locked gli;
     queuedUpdates := queuedUpdates gli;
     mainStringView := mainStringView gli;
     mainHashView := mainHashView gli; mainListView := mainListView gli |}.
Definition set_commandFormPanel (v : string) (gli : RedisGli) : RedisGli :=
  {| metaPanel := metaPanel gli; mainPanel := mainPanel gli;
     keyItemsPanel := keyItemsPanel gli;
     summaryPanel := summaryPanel gli; searchPanel := searchPanel gli;
     helpServerInfoPanel := helpServerInfoPanel gli;
     commandFormPanel := v;
     commandResultPanel := commandResultPanel gli;
     commandMode := commandMode gli; rightPanel := rightPanel gli;
     pages := pages gli; focus := focus gli; stopped := stopped gli;
     outputChan := outputChan gli; redisCalls := redisCalls gli;
     maxKeyLimit := maxKeyLimit gli; version := version gli;
     gitCommit := gitCommit gli;
     focusPrimitives := focusPrimitives gli;
     currentFocusIndex := currentFocusIndex gli;
     configDebug := configDebug gli; locked := locked gli;
     queuedUpdates := queuedUpdates gli;
     mainStringView := mainStringView gli;
     mainHashView := mainHashView gli; mainListView := mainListView gli |}.
Definition set_commandResultPanel (v : tview.TextView) (gli : RedisGli) : RedisGli :=
  {| metaPanel := metaPanel gli; mainPanel := mainPanel gli;
     keyItemsPanel := keyItemsPanel gli;
     summaryPanel := summaryPanel gli; searchPanel := searchPanel gli;
     helpServerInfoPanel := helpServerInfoPanel gli;
     commandFormPanel := commandFormPanel gli; commandResultPanel := v;
     commandMode := commandMode gli; rightPanel := rightPanel gli;
     pages := pages gli; focus := focus gli; stopped := stopped gli;
     outputChan := outputChan gli; redisCalls := redisCalls gli;
     maxKeyLimit := maxKeyLimit gli; version := version gli;
     gitCommit := gitCommit gli;
     focusPrimitives := focusPrimitives gli;
     currentFocusIndex := currentFocusIndex gli;
     configDebug := configDebug gli; locked := locked gli;
     queuedUpdates := queuedUpdates gli;
     mainStringView := mainStringView gli;
     mainHashView := mainHashView gli; mainListView := mainListView gli |}.
Definition set_commandMode (v : bool) (gli : RedisGli) : RedisGli :=
  {| metaPanel := metaPanel gli; mainPanel := mainPanel gli;
     keyItemsPanel := keyItemsPanel gli;
     summaryPanel := summaryPanel gli; searchPanel := searchPanel gli;
     helpServerInfoPanel := helpServerInfoPanel gli;
     commandFormPanel := commandFormPanel gli;
     commandResultPanel := commandResultPanel gli; commandMode := v;
     rightPanel := rightPanel gli; pages := pages gli;
     focus := focus gli; stopped := stopped gli;
     outputChan := outputChan gli; redisCalls := redisCalls gli;
     maxKeyLimit := maxKeyLimit gli; version := version gli;
     gitCommit := gitCommit gli;
     focusPrimitives := focusPrimitives gli;
     currentFocusIndex := currentFocusIndex gli;
     configDebug := configDebug gli; locked := locked gli;
     queuedUpdates := queuedUpdates gli;
     mainStringView := mainStringView gli;
     mainHashView := mainHashView gli; mainListView := mainListView gli |}.
Definition set_rightPanel (v : tview.Flex) (gli : RedisGli) : RedisGli :=
  {| metaPanel := metaPanel gli; mainPanel := mainPanel gli;
     keyItemsPanel := keyItemsPanel gli;
     summaryPanel := summaryPanel gli; searchPanel := searchPanel gli;
     helpServerInfoPanel := helpServerInfoPanel gli;
     commandFormPanel := commandFormPanel gli;
     commandResultPanel := commandResultPanel gli;
     commandMode := commandMode gli; rightPanel := v;
     pages := pages gli; focus := focus gli; stopped := stopped gli;
     outputChan := outputChan gli; redisCalls := redisCalls gli;
     maxKeyLimit := maxKeyLimit gli; version := version gli;
     gitCommit := gitCommit gli;
     focusPrimitives := focusPrimitives gli;
     currentFocusIndex := currentFocusIndex gli;
     configDebug := configDebug gli; locked := locked gli;
     queuedUpdates := queuedUpdates gli;
     mainStringView := mainStringView gli;
     mainHashView := mainHashView gli; mainListView := mainListView gli |}.
Definition set_pages (v : tview.Pages) (gli : RedisGli) : RedisGli :=
  {| metaPanel := metaPanel gli; mainPanel := mainPanel gli;
     keyItemsPanel := keyItemsPanel gli;
     summaryPanel := summaryPanel gli; searchPanel := searchPanel gli;
     helpServerInfoPanel := helpServerInfoPanel gli;
     commandFormPanel := commandFormPanel gli;
     commandResultPanel := commandResultPanel gli;
     commandMode := commandMode gli; rightPanel := rightPanel gli;
     pages := v; focus := focus gli; stopped := stopped gli;
     outputChan := outputChan gli; redisCalls := redisCalls gli;
     maxKeyLimit := maxKeyLimit gli; version := version gli;
     gitCommit := gitCommit gli;
     focusPrimitives := focusPrimitives gli;
     currentFocusIndex := currentFocusIndex gli;
     configDebug := configDebug gli; locked := locked gli;
     queuedUpdates := queuedUpdates gli;
     mainStringView := mainStringView gli;
     mainHashView := mainHashView gli; mainListView := mainListView gli |}.
Definition set_focus (v : option Primitive) (gli : RedisGli) : RedisGli :=
  {| metaPanel := metaPanel gli; mainPanel := mainPanel gli;
     keyItemsPanel := keyItemsPanel gli;
     summaryPanel := summaryPanel gli; searchPanel := searchPanel gli;
     helpServerInfoPanel := helpServerInfoPanel gli;
     commandFormPanel := commandFormPanel gli;
     commandResultPanel := commandResultPanel gli;
     commandMode := commandMode gli; rightPanel := rightPanel gli;
     pages := pages gli; focus := v; stopped := stopped gli;
     outputChan := outputChan gli; redisCalls := redisCalls gli;
     maxKeyLimit := maxKeyLimit gli; version := version gli;
     gitCommit := gitCommit gli;
     focusPrimitives := focusPrimitives gli;
     currentFocusIndex := currentFocusIndex gli;
     configDebug := configDebug gli; locked := locked gli;
     queuedUpdates := queuedUpdates gli;
     mainStringView := mainStringView gli;
     mainHashView := mainHashView gli; mainListView := mainListView gli |}.
Definition set_stopped (v : bool) (gli : RedisGli) : RedisGli :=
  {| metaPanel := metaPanel gli; mainPanel := mainPanel gli;
     keyItemsPanel := keyItemsPanel gli;
     summaryPanel := summaryPanel gli; searchPanel := searchPanel gli;
     helpServerInfoPanel := helpServerInfoPanel gli;
     commandFormPanel := commandFormPanel gli;
     commandResultPanel := commandResultPanel gli;
     commandMode := commandMode gli; rightPanel := rightPanel gli;
     pages := pages gli; focus := focus gli; stopped := v;
     outputChan := outputChan gli; redisCalls := redisCalls gli;
     maxKeyLimit := maxKeyLimit gli; version := version gli;
     gitCommit := gitCommit gli;
     focusPrimitives := focusPrimitives gli;
     currentFocusIndex := currentFocusIndex gli;
     configDebug := configDebug gli; locked := locked gli;
     queuedUpdates := queuedUpdates gli;
     mainStringView := mainStringView gli;
     mainHashView := mainHashView gli; mainListView := mainListView gli |}.
Definition set_outputChan (v : list OutputMessage) (gli : RedisGli) : RedisGli :=
  {| metaPanel := metaPanel gli; mainPanel := mainPanel gli;
     keyItemsPanel := keyItemsPanel gli;
     summaryPanel := summaryPanel gli; searchPanel := searchPanel gli;
     helpServerInfoPanel := helpServerInfoPanel gli;
     commandFormPanel := commandFormPanel gli;
     commandResultPanel := commandResultPanel gli;
     commandMode := commandMode gli; rightPanel := rightPanel gli;
     pages := pages gli; focus := focus gli; stopped := stopped gli;
     outputChan := v; redisCalls := redisCalls gli;
     maxKeyLimit := maxKeyLimit gli; version := version gli;
     gitCommit := gitCommit gli;
     focusPrimitives := focusPrimitives gli;
     currentFocusIndex := currentFocusIndex gli;
     configDebug := configDebug gli; locked := locked gli;
     queuedUpdates := queuedUpdates gli;
     mainStringView := mainStringView gli;
     mainHashView := mainHashView gli; mainListView := mainListView gli |}.
Definition set_redisCalls (v : list Redis.Call) (gli : RedisGli) : RedisGli :=
  {| metaPanel := metaPanel gli; mainPanel := mainPanel gli;
     keyItemsPanel := keyItemsPanel gli;
     summaryPanel := summaryPanel gli; searchPanel := searchPanel gli;
     helpServerInfoPanel := helpServerInfoPanel gli;
     commandFormPanel := commandFormPanel gli;
     commandResultPanel := commandResultPanel gli;
     commandMode := commandMode gli; rightPanel := rightPanel gli;
     pages := pages gli; focus := focus gli; stopped := stopped gli;
     outputChan := outputChan gli; redisCalls := v;
     maxKeyLimit := maxKeyLimit gli; version := version gli;
     gitCommit := gitCommit gli;
     focusPrimitives := focusPrimitives gli;
     currentFocusIndex := currentFocusIndex gli;
     configDebug := configDebug gli; locked := locked gli;
     queuedUpdates := queuedUpdates gli;
     mainStringView := mainStringView gli;
     mainHashView := mainHashView gli; mainListView := mainListView gli |}.
Definition set_focusPrimitives (v : list primitiveKey) (gli : RedisGli) : RedisGli :=
  {| metaPanel := metaPanel gli; mainPanel := mainPanel gli;
     keyItemsPanel := keyItemsPanel gli;
     summaryPanel := summaryPanel gli; searchPanel := searchPanel gli;
     helpServerInfoPanel := helpServerInfoPanel gli;
     commandFormPanel := commandFormPanel gli;
     commandResultPanel := commandResultPanel gli;
     commandMode := commandMode gli; rightPanel := rightPanel gli;
     pages := pages gli; focus := focus gli; stopped := stopped gli;
     outputChan := outputChan gli; redisCalls := redisCalls gli;
     maxKeyLimit := maxKeyLimit gli; version := version gli;
     gitCommit := gitCommit gli; focusPrimitives := v;
     currentFocusIndex := currentFocusIndex gli;
     configDebug := configDebug gli; locked := locked gli;
     queuedUpdates := queuedUpdates gli;
     mainStringView := mainStringView gli;
     mainHashView := mainHashView gli; mainListView := mainListView gli |}.
Definition set_currentFocusIndex (v : Z) (gli : RedisGli) : RedisGli :=
  {| metaPanel := metaPanel gli; mainPanel := mainPanel gli;
     keyItemsPanel := keyItemsPanel gli;
     summaryPanel := summaryPanel gli; searchPanel := searchPanel gli;
     helpServerInfoPanel := helpServerInfoPanel gli;
     commandFormPanel := commandFormPanel gli;
     commandResultPanel := commandResultPanel gli;
     commandMode := commandMode gli; rightPanel := rightPanel gli;
     pages := pages gli; focus := focus gli; stopped := stopped gli;
     outputChan := outputChan gli; redisCalls := redisCalls gli;
     maxKeyLimit := maxKeyLimit gli; version := version gli;
     gitCommit := gitCommit gli;
     focusPrimitives := focusPrimitives gli; currentFocusIndex := v;
     configDebug := configDebug gli; locked := locked gli;
     queuedUpdates := queuedUpdates gli;
     mainStringView := mainStringView gli;
     mainHashView := mainHashView gli; mainListView := mainListView gli |}.
Definition set_locked (v : bool) (gli : RedisGli) : RedisGli :=
  {| metaPanel := metaPanel gli; mainPanel := mainPanel gli;
     keyItemsPanel := keyItemsPanel gli;
     summaryPanel := summaryPanel gli; searchPanel := searchPanel gli;
     helpServerInfoPanel := helpServerInfoPanel gli;
     commandFormPanel := commandFormPanel gli;
     commandResultPanel := commandResultPanel gli;
     commandMode := commandMode gli; rightPanel := rightPanel gli;
     pages := pages gli; focus := focus gli; stopped := stopped gli;
     outputChan := outputChan gli; redisCalls := redisCalls gli;
     maxKeyLimit := maxKeyLimit gli; version := version gli;
     gitCommit := gitCommit gli;
     focusPrimitives := focusPrimitives gli;
     currentFocusIndex := currentFocusIndex gli;
     configDebug := configDebug gli; locked := v;
     queuedUpdates := queuedUpdates gli;
     mainStringView := mainStringView gli;
     mainHashView := mainHashView gli; mainListView := mainListView gli |}.
Definition set_queuedUpdates (v : list string) (gli : RedisGli) : RedisGli :=
  {| metaPanel := metaPanel gli; mainPanel := mainPanel gli;
     keyItemsPanel := keyItemsPanel gli;
     summaryPanel := summaryPanel gli; searchPanel := searchPanel gli;
     helpServerInfoPanel := helpServerInfoPanel gli;
     commandFormPanel := commandFormPanel gli;
     commandResultPanel := commandResultPanel gli;
     commandMode := commandMode gli; rightPanel := rightPanel gli;
     pages := pages gli; focus := focus gli; stopped := stopped gli;
     outputChan := outputChan gli; redisCalls := redisCalls gli;
     maxKeyLimit := maxKeyLimit gli; version := version gli;
     gitCommit := gitCommit gli;
     focusPrimitives := focusPrimitives gli;
     currentFocusIndex := currentFocusIndex gli;
     configDebug := configDebug gli; locked := locked gli;
     queuedUpdates := v; mainStringView := mainStringView gli;
     mainHashView := mainHashView gli; mainListView := mainListView gli |}.
Definition set_mainStringView (v : tview.TextView) (gli : RedisGli) : RedisGli :=
  {| metaPanel := metaPanel gli; mainPanel := mainPanel gli;
     keyItemsPanel := keyItemsPanel gli;
     summaryPanel := summaryPanel gli; searchPanel := searchPanel gli;
     helpServerInfoPanel := helpServerInfoPanel gli;
     commandFormPanel := commandFormPanel gli;
     commandResultPanel := commandResultPanel gli;
     commandMode := commandMode gli; rightPanel := rightPanel gli;
     pages := pages gli; focus := focus gli; stopped := stopped gli;
     outputChan := outputChan gli; redisCalls := redisCalls gli;
     maxKeyLimit := maxKeyLimit gli; version := version gli;
     gitCommit := gitCommit gli;
     focusPrimitives := focusPrimitives gli;
     currentFocusIndex := currentFocusIndex gli;
     configDebug := configDebug gli; locked := locked gli;
     queuedUpdates := queuedUpdates gli; mainStringView := v;
     mainHashView := mainHashView gli; mainListView := mainListView gli |}.
Definition set_mainHashView (v : tview.List) (gli : RedisGli) : RedisGli :=
  {| metaPanel := metaPanel gli; mainPanel := mainPanel gli;
     keyItemsPanel := keyItemsPanel gli;
     summaryPanel := summaryPanel gli; searchPanel := searchPanel gli;
     helpServerInfoPanel := helpServerInfoPanel gli;
     commandFormPanel := commandFormPanel gli;
     commandResultPanel := commandResultPanel gli;
     commandMode := commandMode gli; rightPanel := rightPanel gli;
     pages := pages gli; focus := focus gli; stopped := stopped gli;
     outputChan := outputChan gli; redisCalls := redisCalls gli;
     maxKeyLimit := maxKeyLimit gli; version := version gli;
     gitCommit := gitCommit gli;
     focusPrimitives := focusPrimitives gli;
     currentFocusIndex := currentFocusIndex gli;
     configDebug := configDebug gli; locked := locked gli;
     queuedUpdates := queuedUpdates gli;
     mainStringView := mainStringView gli; mainHashView := v;
     mainListView := mainListView gli |}.
Definition set_mainListView (v : tview.List) (gli : RedisGli) : RedisGli :=
  {| metaPanel := metaPanel gli; mainPanel := mainPanel gli;
     keyItemsPanel := keyItemsPanel gli;
     summaryPanel := summaryPanel gli; searchPanel := searchPanel gli;
     helpServerInfoPanel := helpServerInfoPanel gli;
     commandFormPanel := commandFormPanel gli;
     commandResultPanel := commandResultPanel gli;
     commandMode := commandMode gli; rightPanel := rightPanel gli;
     pages := pages gli; focus := focus gli; stopped := stopped gli;
     outputChan := outputChan gli; redisCalls := redisCalls gli;
     maxKeyLimit := maxKeyLimit gli; version := version gli;
     gitCommit := gitCommit gli;
     focusPrimitives := focusPrimitives gli;
     currentFocusIndex := currentFocusIndex gli;
     configDebug := configDebug gli; locked := locked gli;
     queuedUpdates := queuedUpdates gli;
     mainStringView := mainStringView gli;
     mainHashView := mainHashView gli; mainListView := v |}.

(** ** Small helpers for Go built-ins *)

(** [len(l)] *)
Definition len {A : Type} (l : list A) : Z := Z.of_nat (List.length l).

(** [l[i]]: panics when [i] is out of range. *)
Definition index_at {A : Type} (l : list A) (i : Z) : option A :=
  if Z.ltb i 0 then None else nth_error l (Z.to_nat i).

(** [s[0:8]]: panics unless [8 <= len(s)]. *)
Definition slice_0_8 (s : string) : option string :=
  if Z.ltb (Z.of_nat (String.length s)) 8 then None
  else Some (substring 0 8 s).

Definition newline : string := String (ascii_of_nat 10) "".

(** [gli.outputChan <- m] *)
Definition send (m : OutputMessage) (gli : RedisGli) : RedisGli :=
  set_outputChan (outputChan gli ++ [m]) gli.

(** A call of the store client is recorded before its answer is used. *)
Definition issue (c : Redis.Call) (gli : RedisGli) : RedisGli :=
  set_redisCalls (redisCalls gli ++ [c]) gli.

(** [OutputMessage{tcell.ColorRed, fmt.Sprintf("errors: %s", err)}] *)
Definition errorMessage (err : string) : OutputMessage :=
  {| Color := tcell.ColorRed; Message := "errors: " +++ err |}.

(** [gli.app.SetFocus(p)] *)
Definition SetFocus (p : Primitive) (gli : RedisGli) : RedisGli :=
  set_focus (Some p) gli.

(** [gli.focusPrimitives = append(gli.focusPrimitives, pk)] *)
Definition appendFocus (pk : primitiveKey) (gli : RedisGli) : RedisGli :=
  set_focusPrimitives (focusPrimitives gli ++ [pk]) gli.

(** [func (gli *RedisGli) primitivesFilter(items, filter) []primitiveKey] *)
Fixpoint primitivesFilter (items : list primitiveKey)
    (filter : primitiveKey -> bool) : list primitiveKey :=
  match items with
  | [] => []
  | item :: rest =>
      if filter item then item :: primitivesFilter rest filter
      else primitivesFilter rest filter
  end.

(** [func (gli *RedisGli) redrawRightPanel(center tview.Primitive)] *)
Definition redrawRightPanel (center : Primitive) (gli : RedisGli) : RedisGli :=
  let r := rightPanel gli in
  let r := tview.RemoveItem MetaPanel r in
  let r := tview.RemoveItem OutputPanel r in
  let r := tview.RemoveItem MainPanel r in
  let r := tview.RemoveItem CommandPanel r in
  let r := tview.RemoveItem HelpPanel r in
  let r := tview.AddItem HelpPanel 5 1 r in
  let r := tview.AddItem MetaPanel 4 1 r in
  let r := tview.AddItem center 0 7 r in
  let r := tview.AddItem OutputPanel 8 1 r in
  set_rightPanel r gli.

(** ** The constructor *)

(** [createMainPanel] *)
Definition createMainPanel (gli : RedisGli) : RedisGli :=
  set_mainPanel (tview.AddItem WelcomeScreen 0 1 []) gli.

(** [createOutputPanel] *)
Definition createOutputPanel (gli : RedisGli) : RedisGli :=
  appendFocus {| Primitive_ := OutputPanel;
                 Key_ := KeyID keyBindings "output" |} gli.

(** [createKeyItemsPanel] *)
Definition createKeyItemsPanel (gli : RedisGli) : RedisGli :=
  set_keyItemsPanel (tview.ShowSecondaryText false tview.NewList) gli.

(** [createKeySelectedHandler], the part that allocates the three views; the
    handler it returns is [itemSelectedHandler] below. *)
Definition createKeySelectedHandler (gli : RedisGli) : RedisGli :=
  let gli :=
    set_mainStringView
      {| tview.Text := "";
         tview.Title :=
           " Value (" +++ Name keyBindings "key_string_value" +++ ") " |}
      gli in
  let gli :=
    set_mainHashView (tview.ShowSecondaryText false tview.NewList) gli in
  set_mainListView (tview.ShowSecondaryText false tview.NewList) gli.

(** [createCommandPanel], the part that runs in the constructor; the done
    function it installs is [commandDone] below. *)
Definition createCommandPanel (gli : RedisGli) : RedisGli :=
  let gli :=
    set_commandResultPanel
      {| tview.Text := "";
         tview.Title :=
           " Results (" +++ Name keyBindings "command_result" +++ ") " |}
      gli in
  let gli :=
    appendFocus {| Primitive_ := CommandFormPanel;
                   Key_ := KeyID keyBindings "command_focus" |} gli in
  appendFocus {| Primitive_ := CommandResultPanel;
                 Key_ := KeyID keyBindings "command_result" |} gli.

(** [createMetaPanel] *)
Definition createMetaPanel (gli : RedisGli) : RedisGli :=
  set_metaPanel {| tview.Text := ""; tview.Title := " Meta " |} gli.

(** [createSummaryPanel] *)
Definition createSummaryPanel (gli : RedisGli) : RedisGli :=
  set_summaryPanel {| tview.Text := ""; tview.Title := " Info " |} gli.

(** The struct literal of [NewRedisGli], [commit] being [gitCommit[0:8]];
    the widgets are still to be allocated. *)
Definition literal (maxKeyLimit : Z) (version commit : string) (debug : bool)
    : RedisGli :=
  let noText := {| tview.Text := ""; tview.Title := "" |} in
  {| metaPanel := noText;
     mainPanel := [];
     keyItemsPanel := tview.NewList;
     summaryPanel := noText;
     searchPanel := "";
     helpServerInfoPanel := noText;
     commandFormPanel := "";
     commandResultPanel := noText;
     commandMode := false;
     rightPanel := [];
     pages := [];
     focus := None;
     stopped := false;
     outputChan := [];
     redisCalls := [];
     maxKeyLimit := maxKeyLimit;
     version := version;
     gitCommit := commit;
     focusPrimitives := [];
     currentFocusIndex := 0;
     configDebug := debug;
     locked := false;
     queuedUpdates := [];
     mainStringView := noText;
     mainHashView := tview.NewList;
     mainListView := tview.NewList |}.

(** The body of [NewRedisGli] after the struct literal. *)
Definition construct (gli : RedisGli) : RedisGli :=
  let gli := createMetaPanel gli in
  let gli := createMainPanel gli in
  let gli := createOutputPanel gli in
  let gli := createSummaryPanel gli in
  let gli := createKeyItemsPanel gli in
  let gli := createKeySelectedHandler gli in
  let gli := createCommandPanel gli in
  let gli := redrawRightPanel MainPanel gli in
  let gli :=
    appendFocus {| Primitive_ := SearchPanel;
                   Key_ := KeyID keyBindings "search" |} gli in
  appendFocus {| Primitive_ := KeyItemsPanel;
                 Key_ := KeyID keyBindings "keys" |} gli.

(** [func NewRedisGli(redisClient, maxKeyLimit, version, gitCommit,
    outputChan, config) *RedisGli].  The struct literal is evaluated first,
    and with it [gitCommit[0:8]]. *)
Definition NewRedisGli (maxKeyLimit : Z) (version gitCommit : string)
    (debug : bool) : option RedisGli :=
  match slice_0_8 gitCommit with
  | None => None
  | Some commit => Some (construct (literal maxKeyLimit version commit debug))
  end.

(** ** The global input dispatcher *)

(** The [switch_focus] case of the input capture. *)
Definition switchFocus (gli : RedisGli) : option RedisGli :=
  let nextFocusIndex := currentFocusIndex gli + 1 in
  let nextFocusIndex :=
    if Z.gtb nextFocusIndex (len (focusPrimitives gli) - 1) then 0
    else nextFocusIndex in
  match index_at (focusPrimitives gli) nextFocusIndex with
  | None => None
  | Some pk =>
      let gli := SetFocus (Primitive_ pk) gli in
      Some (set_currentFocusIndex nextFocusIndex gli)
  end.

(** [for i, p := range gli.focusPrimitives] of the [command] case: every
    entry of the command input is visited, the last one stays. *)
Fixpoint focusCommandForm (l : list (Z * primitiveKey)) (gli : RedisGli)
    : RedisGli :=
  match l with
  | [] => gli
  | (i, p) :: rest =>
      focusCommandForm rest
        (if Primitive_eqb (Primitive_ p) CommandFormPanel
         then set_currentFocusIndex i (SetFocus CommandFormPanel gli)
         else gli)
  end.

(** The [command] case of the input capture. *)
Definition toggleCommand (gli : RedisGli) : RedisGli :=
  if commandMode gli then
    let gli := set_commandMode false gli in
    let gli := redrawRightPanel MainPanel gli in
    let gli := SetFocus SearchPanel gli in
    set_currentFocusIndex 0 gli
  else
    let gli := set_commandMode true gli in
    let gli := redrawRightPanel CommandPanel gli in
    focusCommandForm (enumerate (focusPrimitives gli)) gli.

(** [for i, pv := range gli.focusPrimitives] of the [default] case: the
    first entry of that action, then [break]. *)
Fixpoint focusByKey (l : list (Z * primitiveKey)) (name : string)
    (gli : RedisGli) : RedisGli :=
  match l with
  | [] => gli
  | (i, pv) :: rest =>
      if String.eqb (Key_ pv) name
      then set_currentFocusIndex i (SetFocus (Primitive_ pv) gli)
      else focusByKey rest name gli
  end.

(** The function given to [gli.app.SetInputCapture].  [kb] is the order in
    which this call of [SearchKey] visits [keyBindings].  The second
    component is the event handed on: [None] for [return nil].  The names of
    keys outside [tcell.KeyNames] as modelled print as the empty string. *)
Definition InputCapture (kb : KeyBindings) (event : Key) (gli : RedisGli)
    : option (RedisGli * option Key) :=
  let gli :=
    if configDebug gli
    then send {| Color := tcell.ColorZero;
                 Message := "Key " +++ tcell.KeyNames event +++ " pressed" |}
              gli
    else gli in
  let name := SearchKey kb event in
  if String.eqb name "switch_focus" then
    match switchFocus gli with
    | None => None
    | Some gli => Some (gli, None)
    end
  else if String.eqb name "quit" then
    Some (set_stopped true gli, Some event)
  else if String.eqb name "command" then
    Some (toggleCommand gli, Some event)
  else
    Some (focusByKey (enumerate (focusPrimitives gli)) name gli, Some event).

(** ** The command panel *)

(** The done function of the command input, [formPanel.SetDoneFunc]. *)
Definition commandDone (key : Key) (gli : RedisGli) : RedisGli :=
  if negb (Z.eqb key tcell.KeyEnter) then gli
  else if locked gli then
    set_pages (tview.AddPage "alert" AlertModal false true (pages gli)) gli
  else
    let cmdText := commandFormPanel gli in
    let gli :=
      send {| Color := tcell.ColorOrange;
              Message := "Command " +++ cmdText +++ " is processing..." |}
           gli in
    let gli := set_locked true gli in
    let gli := set_queuedUpdates (queuedUpdates gli ++ [cmdText]) gli in
    set_commandFormPanel "" gli.

(** The done function of the alert's button. *)
Definition alertDone (gli : RedisGli) : RedisGli :=
  let gli :=
    set_pages (tview.RemovePage "alert" (tview.HidePage "alert" (pages gli)))
              gli in
  SetFocus CommandFormPanel gli.

(** The function queued by [commandDone], run for the command text
    [cmdText]; [locked = false] is deferred to its end. *)
Definition executeCommand (rc : Redis.Client) (cmdText : string)
    (gli : RedisGli) : RedisGli :=
  let gli := issue (Redis.CallExecute cmdText) gli in
  let gli :=
    match Redis.Execute rc cmdText with
    | Err err => send (errorMessage err) gli
    | Ok res =>
        let gli :=
          set_commandResultPanel
            (tview.SetText res (commandResultPanel gli)) gli in
        send {| Color := tcell.ColorGreen;
                Message := "Command " +++ cmdText +++ " succeed" |} gli
    end in
  set_locked false gli.

(** The UI thread runs the oldest queued update, if there is one. *)
Definition runQueued (rc : Redis.Client) (gli : RedisGli) : RedisGli :=
  match queuedUpdates gli with
  | [] => gli
  | cmdText :: rest => executeCommand rc cmdText (set_queuedUpdates rest gli)
  end.

(** ** The key list *)

(** [for i, k := range keys { gli.keyItemsPanel.AddItem(...) }] *)
Definition addKeyItems (keys : list string) (gli : RedisGli) : RedisGli :=
  fold_left
    (fun gli '(i, k) =>
       set_keyItemsPanel
         (tview.List_AddItem (keyItemsFormat i k) "" (Some (OnKeySelected i k))
            (keyItemsPanel gli)) gli)
    (enumerate keys) gli.

(** [gli.summaryPanel.SetText(fmt.Sprintf(" Total matched: %d", len(keys)))] *)
Definition setSummary (keys : list string) (gli : RedisGli) : RedisGli :=
  set_summaryPanel
    (tview.SetText (" Total matched: " +++ fmt_d (len keys))
       (summaryPanel gli)) gli.

(** The done function of the search input, [searchArea.SetDoneFunc]. *)
Definition searchDone (rc : Redis.Client) (key : Key) (gli : RedisGli)
    : RedisGli :=
  if negb (Z.eqb key tcell.KeyEnter) then gli
  else
    let text := searchPanel gli in
    let '(gli, res) :=
      if String.eqb text "" || String.eqb text "*" then
        (issue (Redis.CallScan 0 text (maxKeyLimit gli)) gli,
         match Redis.Scan rc 0 text (maxKeyLimit gli) with
         | Ok (keys, _) => Ok keys
         | Err err => Err err
         end)
      else
        (issue (Redis.CallKeys text) gli, Redis.Keys rc text) in
    match res with
    | Err err => send (errorMessage err) gli
    | Ok keys =>
        let gli :=
          set_keyItemsPanel (tview.List_Clear (keyItemsPanel gli)) gli in
        let gli := setSummary keys gli in
        addKeyItems keys gli
    end.

(** The first update queued by [Start]. *)
Definition initialLoad (rc : Redis.Client) (gli : RedisGli) : RedisGli :=
  let gli := issue Redis.CallServerInfo gli in
  let '(info, err) := Redis.ServerInfo rc in
  let gli :=
    match err with
    | Some e => send (errorMessage e) gli
    | None => gli
    end in
  let gli :=
    set_helpServerInfoPanel (tview.SetText info (helpServerInfoPanel gli))
                            gli in
  let gli := issue (Redis.CallScan 0 "*" (maxKeyLimit gli)) gli in
  match Redis.Scan rc 0 "*" (maxKeyLimit gli) with
  | Err e => send (errorMessage e) gli
  | Ok (keys, _) =>
      let gli := setSummary keys gli in
      let gli := addKeyItems keys gli in
      SetFocus KeyItemsPanel gli
  end.

(** [func (gli *RedisGli) Start() error], up to the event loop: the pages
    are allocated and the base page added. *)
Definition Start (gli : RedisGli) : RedisGli :=
  set_pages (tview.AddPage "base" Layout true true []) gli.

(** ** The key-selected handler *)

(** A [return] inside the [switch], or falling out of it. *)
Inductive flow :=
| Return (gli : RedisGli)
| Continue (gli : RedisGli).

(** The rows of the list view: [for i, v := range values]. *)
Definition addListRows (values : list string) (view : tview.List)
    : tview.List :=
  fold_left
    (fun view '(i, v) => tview.List_AddItem (viewRowFormat i v) "" None view)
    (enumerate values) view.

(** The rows of a sorted set, with the score as secondary text. *)
Definition addZRows (values : list Redis.Z_) (view : tview.List)
    : tview.List :=
  fold_left
    (fun view '(i, z) =>
       tview.List_AddItem (viewRowFormat i (Redis.Member z))
         ("    Score: " +++ Redis.Score z) None view)
    (enumerate values) view.

(** The rows of the hash view, each with its closure. *)
Definition addHashRows (key : string) (hashKeys : list string)
    (view : tview.List) : tview.List :=
  fold_left
    (fun view '(i, k) =>
       tview.List_AddItem (viewRowFormat i k) "" (Some (OnHashField key k))
         view)
    (enumerate hashKeys) view.

(** The list view is mounted and entered in the focus ring. *)
Definition mountListView (gli : RedisGli) : RedisGli :=
  let gli := set_mainPanel (tview.AddItem MainListView 0 1 (mainPanel gli))
                           gli in
  appendFocus {| Primitive_ := MainListView;
                 Key_ := KeyID keyBindings "key_list_value" |} gli.

(** [switch keyType { ... }] *)
Definition renderValue (rc : Redis.Client) (key keyType : string)
    (gli : RedisGli) : flow :=
  if String.eqb keyType "string" then
    let gli := issue (Redis.CallGet key) gli in
    match Redis.Get rc key with
    | Err err => Return (send (errorMessage err) gli)
    | Ok result =>
        let gli :=
          set_mainStringView
            (tview.SetText (" " +++ result) (mainStringView gli)) gli in
        let gli :=
          set_mainPanel (tview.AddItem MainStringView 0 1 (mainPanel gli))
                        gli in
        Continue
          (appendFocus {| Primitive_ := MainStringView;
                          Key_ := KeyID keyBindings "key_string_value" |} gli)
    end
  else if String.eqb keyType "list" then
    let gli := issue (Redis.CallLRange key 0 1000) gli in
    match Redis.LRange rc key 0 1000 with
    | Err err => Return (send (errorMessage err) gli)
    | Ok values =>
        let gli :=
          set_mainListView (addListRows values (mainListView gli)) gli in
        Continue (mountListView gli)
    end
  else if String.eqb keyType "set" then
    let gli := issue (Redis.CallSMembers key) gli in
    match Redis.SMembers rc key with
    | Err err => Return (send (errorMessage err) gli)
    | Ok values =>
        let gli :=
          set_mainListView (addListRows values (mainListView gli)) gli in
        Continue (mountListView gli)
    end
  else if String.eqb keyType "zset" then
    let gli := issue (Redis.CallZRangeWithScores key 0 1000) gli in
    match Redis.ZRangeWithScores rc key 0 1000 with
    | Err err => Return (send (errorMessage err) gli)
    | Ok values =>
        let gli :=
          set_mainListView
            (tview.ShowSecondaryText true (mainListView gli)) gli in
        let gli :=
          set_mainListView (addZRows values (mainListView gli)) gli in
        Continue (mountListView gli)
    end
  else if String.eqb keyType "hash" then
    let gli := issue (Redis.CallHKeys key) gli in
    match Redis.HKeys rc key with
    | Err err => Return (send (errorMessage err) gli)
    | Ok hashKeys =>
        let gli :=
          set_mainHashView (addHashRows key hashKeys (mainHashView gli))
                           gli in
        let gli :=
          set_mainPanel
            (tview.AddItem MainStringView 0 7
               (tview.AddItem MainHashView 0 3 (mainPanel gli))) gli in
        let gli :=
          appendFocus {| Primitive_ := MainHashView;
                         Key_ := KeyID keyBindings "key_hash" |} gli in
        Continue
          (appendFocus {| Primitive_ := MainStringView;
                          Key_ := KeyID keyBindings "key_string_value" |} gli)
    end
  else Continue gli.

(** The filter given to [primitivesFilter]: entries of none of the three
    views. *)
Definition notDetailView (item : primitiveKey) : bool :=
  negb (Primitive_eqb (Primitive_ item) MainHashView)
  && negb (Primitive_eqb (Primitive_ item) MainListView)
  && negb (Primitive_eqb (Primitive_ item) MainStringView).

(** The views are reset and taken out of the ring and of the main panel,
    between the TTL fetch and the [switch]. *)
Definition resetDetail (gli : RedisGli) : RedisGli :=
  let gli := set_mainPanel (tview.RemoveItem WelcomeScreen (mainPanel gli))
                           gli in
  let gli := set_mainHashView (tview.List_Clear (mainHashView gli)) gli in
  let gli := set_mainStringView (tview.TextView_Clear (mainStringView gli))
                                gli in
  let gli :=
    set_mainListView
      (tview.ShowSecondaryText false (tview.List_Clear (mainListView gli)))
      gli in
  let gli :=
    set_focusPrimitives
      (primitivesFilter (focusPrimitives gli) notDetailView) gli in
  let gli := set_mainPanel (tview.RemoveItem MainStringView (mainPanel gli))
                           gli in
  let gli := set_mainPanel (tview.RemoveItem MainHashView (mainPanel gli))
                           gli in
  set_mainPanel (tview.RemoveItem MainListView (mainPanel gli)) gli.

(** The handler returned by [createKeySelectedHandler], applied to
    [(index, key)] and called. *)
Definition itemSelectedHandler (rc : Redis.Client) (index : Z) (key : string)
    (gli : RedisGli) : RedisGli :=
  let gli := issue (Redis.CallType key) gli in
  match Redis.Type_ rc key with
  | Err err => send (errorMessage err) gli
  | Ok keyType =>
      let gli := issue (Redis.CallTTL key) gli in
      match Redis.TTL rc key with
      | Err err => send (errorMessage err) gli
      | Ok ttl =>
          let gli := resetDetail gli in
          match renderValue rc key keyType gli with
          | Return gli => gli
          | Continue gli =>
              let gli :=
                send {| Color := tcell.ColorGreen;
                        Message := "query " +++ key +++ " OK, type="
                                   +++ keyType +++ ", ttl=" +++ ttl |} gli in
              set_metaPanel
                (tview.SetText
                   ("KeyID: " +++ key +++ newline +++ "Type: " +++ keyType
                    +++ ", TTL: " +++ ttl) (metaPanel gli)) gli
          end
      end
  end.

(** The closure of a hash row: the value of one field is fetched. *)
Definition hashFieldSelected (rc : Redis.Client) (key k : string)
    (gli : RedisGli) : RedisGli :=
  let gli := issue (Redis.CallHGet key k) gli in
  match Redis.HGet rc key k with
  | Err err => send (errorMessage err) gli
  | Ok val =>
      set_mainStringView
        (tview.SetTitle (" Value: " +++ k +++ " ")
           (tview.SetText (" " +++ val) (mainStringView gli))) gli
  end.

Definition runCallback (rc : Redis.Client) (cb : Callback) (gli : RedisGli)
    : RedisGli :=
  match cb with
  | OnKeySelected index key => itemSelectedHandler rc index key gli
  | OnHashField key k => hashFieldSelected rc key k gli
  end.

(** The user selects row [n] of a list widget: its callback runs, if it has
    one. *)
Definition selectItem (rc : Redis.Client) (l : tview.List) (n : nat)
    (gli : RedisGli) : RedisGli :=
  match nth_error (tview.Items l) n with
  | Some {| tview.Selected := Some cb |} => runCallback rc cb gli
  | _ => gli
  end.

(** ** The event loop *)

Inductive Event :=
| EvInput (kb : KeyBindings) (k : Key)  (* a key reaches the input capture *)
| EvCommandText (text : string)         (* the command input is edited *)
| EvCommandDone (k : Key)               (* the command input is left with [k] *)
| EvAlertDone                           (* the alert's button is pressed *)
| EvRunQueued                           (* a queued update runs *)
| EvSearchText (text : string)          (* the search input is edited *)
| EvSearchDone (k : Key)                (* the search input is left with [k] *)
| EvKeyItem (n : nat)                   (* row [n] of the key list is selected *)
| EvHashItem (n : nat)                  (* row [n] of the hash view is selected *)
| EvInitialLoad.                        (* the first update of [Start] runs *)

Definition step (rc : Redis.Client) (ev : Event) (gli : RedisGli)
    : option RedisGli :=
  match ev with
  | EvInput kb k =>
      match InputCapture kb k gli with
      | Some (gli, _) => Some gli
      | None => None
      end
  | EvCommandText text => Some (set_commandFormPanel text gli)
  | EvCommandDone k => Some (commandDone k gli)
  | EvAlertDone => Some (alertDone gli)
  | EvRunQueued => Some (runQueued rc gli)
  | EvSearchText text => Some (set_searchPanel text gli)
  | EvSearchDone k => Some (searchDone rc k gli)
  | EvKeyItem n => Some (selectItem rc (keyItemsPanel gli) n gli)
  | EvHashItem n => Some (selectItem rc (mainHashView gli) n gli)
  | EvInitialLoad => Some (initialLoad rc gli)
  end.

(** An input event carries one of the orders of the map. *)
Definition valid_event (ev : Event) : Prop :=
  match ev with
  | EvInput kb _ => iteration_order kb
  | _ => True
  end.

(** A run: the events in order, each with the store as it answers then. *)
Fixpoint run (evs : list (Redis.Client * Event)) (gli : RedisGli)
    : option RedisGli :=
  match evs with
  | [] => Some gli
  | (rc, ev) :: rest =>
      match step rc ev gli with
      | Some gli => run rest gli
      | None => None
      end
  end.

(** The states of the running application. *)
Inductive reachable : RedisGli -> Prop :=
| reachable_start maxKeyLimit version gitCommit debug gli :
    NewRedisGli maxKeyLimit version gitCommit debug = Some gli ->
    reachable (Start gli)
| reachable_step rc ev gli gli' :
    reachable gli -> valid_event ev -> step rc ev gli = Some gli' ->
    reachable gli'.

(** ** A store for examples *)

(** An in-memory store answering as a Redis server does for the commands the
    program sends.  [LRANGE] and [ZRANGE] take both ends of the range
    inclusive (Redis command reference: [LRANGE list 0 10] returns 11
    elements) and count negative indexes from the end.  Patterns: the empty
    pattern and ["*"] match every key, any other pattern is compared
    literally. *)
Module Store.

Inductive Value :=
| VString (s : string)
| VList (l : list string)
| VSet (l : list string)
| VZSet (l : list Redis.Z_)
| VHash (l : list (string * string)).

Definition DB := list (string * Value).

Fixpoint lookup {A : Type} (l : list (string * A)) (key : string)
    : option A :=
  match l with
  | [] => None
  | (k, v) :: rest => if String.eqb k key then Some v else lookup rest key
  end.

Definition range {A : Type} (l : list A) (start stop : Z) : list A :=
  let n := len l in
  let start := if Z.ltb start 0 then Z.max 0 (n + start) else start in
  let stop := if Z.ltb stop 0 then n + stop else Z.min stop (n - 1) in
  if Z.gtb start stop then []
  else firstn (Z.to_nat (stop - start + 1)) (skipn (Z.to_nat start) l).

Definition wrongType : string :=
  "WRONGTYPE Operation against a key holding the wrong kind of value".

Definition matches (pattern key : string) : bool :=
  String.eqb pattern "" || String.eqb pattern "*" || String.eqb pattern key.

Definition keysMatching (db : DB) (pattern : string) : list string :=
  map fst (filter (fun e => matches pattern (fst e)) db).

Definition client (db : DB) : Redis.Client :=
  {| Redis.ServerInfo := ("", None);
     Redis.Execute := fun cmdText =>
       if String.eqb cmdText "PING" then Ok "PONG"
       else Err ("ERR unknown command " +++ cmdText);
     Redis.Scan := fun _ pattern count =>
       Ok (firstn (Z.to_nat count) (keysMatching db pattern), 0);
     Redis.Keys := fun pattern => Ok (keysMatching db pattern);
     Redis.Type_ := fun key =>
       match lookup db key with
       | Some (VString _) => Ok "string"
       | Some (VList _) => Ok "list"
       | Some (VSet _) => Ok "set"
       | Some (VZSet _) => Ok "zset"
       | Some (VHash _) => Ok "hash"
       | None => Ok "none"
       end;
     Redis.TTL := fun _ => Ok "-1ns";
     Redis.Get := fun key =>
       match lookup db key with
       | Some (VString s) => Ok s
       | Some _ => Err wrongType
       | None => Err "redis: nil"
       end;
     Redis.LRange := fun key start stop =>
       match lookup db key with
       | Some (VList l) => Ok (range l start stop)
       | Some _ => Err wrongType
       | None => Ok []
       end;
     Redis.SMembers := fun key =>
       match lookup db key with
       | Some (VSet l) => Ok l
       | Some _ => Err wrongType
       | None => Ok []
       end;
     Redis.ZRangeWithScores := fun key start stop =>
       match lookup db key with
       | Some (VZSet l) => Ok (range l start stop)
       | Some _ => Err wrongType
       | None => Ok []
       end;
     Redis.HKeys := fun key =>
       match lookup db key with
       | Some (VHash l) => Ok (map fst l)
       | Some _ => Err wrongType
       | None => Ok []
       end;
     Redis.HGet := fun key field =>
       match lookup db key with
       | Some (VHash l) =>
           match lookup l field with
           | Some v => Ok v
           | None => Err "redis: nil"
           end
       | Some _ => Err wrongType
       | None => Err "redis: nil"
       end |}.

(** A client that has lost its connection after the type and the TTL of a
    key were read: every fetch of a value fails. *)
Definition disconnected (rc : Redis.Client) : Redis.Client :=
  let eof {A : Type} : result A := Err "EOF" in
  {| Redis.ServerInfo := Redis.ServerInfo rc;
     Redis.Execute := fun _ => eof;
     Redis.Scan := fun _ _ _ => eof;
     Redis.Keys := fun _ => eof;
     Redis.Type_ := Redis.Type_ rc;
     Redis.TTL := Redis.TTL rc;
     Redis.Get := fun _ => eof;
     Redis.LRange := fun _ _ _ => eof;
     Redis.SMembers := fun _ => eof;
     Redis.ZRangeWithScores := fun _ _ _ => eof;
     Redis.HKeys := fun _ => eof;
     Redis.HGet := fun _ _ => eof |}.

(** The store of the scenario: a string, a list and a hash. *)
Definition demo : DB :=
  [ ("a", VString "hello");
    ("b", VList ["x"; "y"; "z"]);
    ("h", VHash [("f", "1"); ("g", "2")]) ].

(** [n] elements ["e"]. *)
Definition listOf (n : nat) : Value := VList (repeat "e" n).
Definition zsetOf (n : nat) : Value :=
  VZSet (repeat {| Redis.Member := "m"; Redis.Score := "1" |} n).

End Store.

(** The application constructed, started, and run through [evs]. *)
Definition boot (evs : list (Redis.Client * Event)) : option RedisGli :=
  match NewRedisGli 10 "1.0" "0123456789abcdef" false with
  | Some gli => run evs (Start gli)
  | None => None
  end.

(** ** The rows the loops produce *)

(** The row of the key list for the key [k] at index [i]. *)
Definition keyRow (ik : Z * string) : tview.listItem :=
  {| tview.MainText := keyItemsFormat (fst ik) (snd ik);
     tview.SecondaryText := "";
     tview.Selected := Some (OnKeySelected (fst ik) (snd ik)) |}.

(** The row of the list view for the element [v] at index [i]. *)
Definition viewRow (iv : Z * string) : tview.listItem :=
  {| tview.MainText := viewRowFormat (fst iv) (snd iv);
     tview.SecondaryText := "";
     tview.Selected := None |}.

(** The row of the list view for the member [z] of a sorted set. *)
Definition zRow (iz : Z * Redis.Z_) : tview.listItem :=
  {| tview.MainText := viewRowFormat (fst iz) (Redis.Member (snd iz));
     tview.SecondaryText := "    Score: " +++ Redis.Score (snd iz);
     tview.Selected := None |}.

(** [rows] added at the end of a list widget. *)
Definition withRows (rows : list tview.listItem) (l : tview.List)
    : tview.List :=
  {| tview.Items := tview.Items l ++ rows;
     tview.showSecondaryText := tview.showSecondaryText l |}.

(** ** The focus ring of the running application *)

(** The entries the constructor appends, in the order of its calls. *)
Definition baseRing : list primitiveKey :=
  [ {| Primitive_ := OutputPanel; Key_ := "output" |};
    {| Primitive_ := CommandFormPanel; Key_ := "command_focus" |};
    {| Primitive_ := CommandResultPanel; Key_ := "command_result" |};
    {| Primitive_ := SearchPanel; Key_ := "search" |};
    {| Primitive_ := KeyItemsPanel; Key_ := "keys" |} ].

(** The entries of the detail views, by the view that is mounted: none, the
    string view, the list view, the hash view with the string view. *)
Definition viewRings : list (list primitiveKey) :=
  [ [];
    [ {| Primitive_ := MainStringView; Key_ := "key_string_value" |} ];
    [ {| Primitive_ := MainListView; Key_ := "key_list_value" |} ];
    [ {| Primitive_ := MainHashView; Key_ := "key_hash" |};
      {| Primitive_ := MainStringView; Key_ := "key_string_value" |} ] ].

Definition ring_ok (gli : RedisGli) : Prop :=
  exists views, In views viewRings /\ focusPrimitives gli = baseRing ++ views.

(** At most one command is in flight: the queue holds one update exactly
    when the lock is held. *)
Definition gate_ok (gli : RedisGli) : Prop :=
  if locked gli then exists cmdText, queuedUpdates gli = [cmdText]
  else queuedUpdates gli = [].

(** The right panel as [redrawRightPanel] leaves it, around [center]. *)
Definition rightLayout (center : Primitive) : tview.Flex :=
  [ {| tview.Item := HelpPanel; tview.FixedSize := 5; tview.Proportion := 1 |};
    {| tview.Item := MetaPanel; tview.FixedSize := 4; tview.Proportion := 1 |};
    {| tview.Item := center; tview.FixedSize := 0; tview.Proportion := 7 |};
    {| tview.Item := OutputPanel; tview.FixedSize := 8;
       tview.Proportion := 1 |} ].

(** The command panel is mounted exactly in command mode, the main panel
    otherwise. *)
Definition layout_ok (gli : RedisGli) : Prop :=
  rightPanel gli
  = rightLayout (if commandMode gli then CommandPanel else MainPanel).

Definition invariant (gli : RedisGli) : Prop :=
  ring_ok gli /\ 0 <= currentFocusIndex gli < 7 /\ gate_ok gli
  /\ layout_ok gli.

(** The index is a position of the ring. *)
Definition index_in_range (gli : RedisGli) : Prop :=
  0 <= currentFocusIndex gli < len (focusPrimitives gli).

(** ** Sequences of operations *)







(** A command submission: the text is typed and Enter pressed. *)
Definition submit (text : string) (gli : RedisGli) : RedisGli :=
  commandDone tcell.KeyEnter (set_commandFormPanel text gli).

Definition submitAll (texts : list string) (gli : RedisGli) : RedisGli :=
  fold_left (fun gli text => submit text gli) texts gli.

(** The page of the blocking notice. *)
Definition alertPage : tview.page :=
  {| tview.PageName := "alert"; tview.PageItem := AlertModal;
     tview.Resize := false; tview.Visible := true |}.

(** What the invariant reads of a state. *)
Definition rest (gli : RedisGli)
    : Z * bool * list string * tview.Flex * bool :=
  (currentFocusIndex gli, locked gli, queuedUpdates gli, rightPanel gli,
   commandMode gli).

Definition core (gli : RedisGli) :=
  (focusPrimitives gli, rest gli).

(** The application as [boot []] leaves it. *)
Definition demoGli : RedisGli :=
  Start (construct (literal 10 "1.0" "01234567" false)).

(** A run of the application on the store [Store.demo]: the keys are
    loaded, the hash [h] is selected, F7 moves the focus to the string view
    (the last of 7 entries), then the string [a] is selected. *)
Definition staleIndexRun : list (Redis.Client * Event) :=
  let rc := Store.client Store.demo in
  [ (rc, EvInitialLoad);
    (rc, EvKeyItem 2);
    (rc, EvInput keyBindings tcell.KeyF7);
    (rc, EvKeyItem 0) ].

(** ** The detail panel and its fetches *)

(** What a key selection has rendered: the contents of the three views, the
    composition of the main panel and the focus ring. *)
Definition detail (gli : RedisGli)
    : tview.TextView * tview.List * tview.List * tview.Flex
      * list primitiveKey :=
  (mainStringView gli, mainHashView gli, mainListView gli, mainPanel gli,
   focusPrimitives gli).

Definition errorOf {A : Type} (r : result A) : option string :=
  match r with
  | Ok _ => None
  | Err err => Some err
  end.

(** The fetch of the value for a key of type [keyType], as [renderValue]
    issues it, with its error if it fails; [None] for a type without a
    fetch. *)
Definition valueFetch (rc : Redis.Client) (key keyType : string)
    : option (Redis.Call * option string) :=
  if String.eqb keyType "string" then
    Some (Redis.CallGet key, errorOf (Redis.Get rc key))
  else if String.eqb keyType "list" then
    Some (Redis.CallLRange key 0 1000, errorOf (Redis.LRange rc key 0 1000))
  else if String.eqb keyType "set" then
    Some (Redis.CallSMembers key, errorOf (Redis.SMembers rc key))
  else if String.eqb keyType "zset" then
    Some (Redis.CallZRangeWithScores key 0 1000,
          errorOf (Redis.ZRangeWithScores rc key 0 1000))
  else if String.eqb keyType "hash" then
    Some (Redis.CallHKeys key, errorOf (Redis.HKeys rc key))
  else None.

(** The keys of [Store.demo] are loaded and the string [a] is selected. *)
Definition stringShownRun : list (Redis.Client * Event) :=
  let rc := Store.client Store.demo in
  [ (rc, EvInitialLoad); (rc, EvKeyItem 0) ].

(** A store with a list and a sorted set of 1001 elements each. *)
Definition bigStore : Store.DB :=
  [ ("l", Store.listOf 1001); ("z", Store.zsetOf 1001) ].

(** ** The main panel of the running application *)

Definition stringEntry : primitiveKey :=
  {| Primitive_ := MainStringView; Key_ := "key_string_value" |}.
Definition listEntry : primitiveKey :=
  {| Primitive_ := MainListView; Key_ := "key_list_value" |}.
Definition hashEntry : primitiveKey :=
  {| Primitive_ := MainHashView; Key_ := "key_hash" |}.

Definition flexOf (p : Primitive) (fixedSize proportion : Z)
    : tview.flexItem :=
  {| tview.Item := p; tview.FixedSize := fixedSize;
     tview.Proportion := proportion |}.

(** What [renderValue] mounts for a key of type [keyType] when its fetch
    succeeds: the entries appended to the ring and the items added to the
    main panel. *)
Definition viewsOf (keyType : string) : list primitiveKey * tview.Flex :=
  if String.eqb keyType "string" then
    ([stringEntry], [flexOf MainStringView 0 1])
  else if String.eqb keyType "list" || String.eqb keyType "set"
          || String.eqb keyType "zset" then
    ([listEntry], [flexOf MainListView 0 1])
  else if String.eqb keyType "hash" then
    ([hashEntry; stringEntry],
     [flexOf MainHashView 0 3; flexOf MainStringView 0 7])
  else ([], []).

(** The view entries of the ring with the items of the main panel that go
    with them; the welcome screen is mounted until the first reset. *)
Definition viewLayouts : list (list primitiveKey * tview.Flex) :=
  [ ([], [flexOf WelcomeScreen 0 1]);
    ([], []);
    ([stringEntry], [flexOf MainStringView 0 1]);
    ([listEntry], [flexOf MainListView 0 1]);
    ([hashEntry; stringEntry],
     [flexOf MainHashView 0 3; flexOf MainStringView 0 7]) ].

Definition panel_ok (gli : RedisGli) : Prop :=
  exists views panel,
    In (views, panel) viewLayouts
    /\ focusPrimitives gli = baseRing ++ views
    /\ mainPanel gli = panel.

(** [OutputMessage{tcell.ColorGreen, fmt.Sprintf("query %s OK, type=%s,
    ttl=%s", key, keyType, ttl.String())}] *)
Definition successMessage (key keyType ttl : string) : OutputMessage :=
  {| Color := tcell.ColorGreen;
     Message := "query " +++ key +++ " OK, type=" +++ keyType
                +++ ", ttl=" +++ ttl |}.

(** [fmt.Sprintf("KeyID: %s\nType: %s, TTL: %s", key, keyType,
    ttl.String())] *)
Definition metaText (key keyType ttl : string) : string :=
  "KeyID: " +++ key +++ newline +++ "Type: " +++ keyType
  +++ ", TTL: " +++ ttl.

(** The calls of a key selection that reaches the fetch of the value. *)
Definition selectionCalls (rc : Redis.Client) (key keyType : string)
    : list Redis.Call :=
  [Redis.CallType key; Redis.CallTTL key]
  ++ match valueFetch rc key keyType with
     | Some (call, _) => [call]
     | None => []
     end.

(** The fetch of the value of a key of type [keyType] does not fail. *)
Definition fetchSucceeds (rc : Redis.Client) (key keyType : string) : Prop :=
  match valueFetch rc key keyType with
  | Some (_, Some _) => False
  | _ => True
  end.

(** The row of the hash view for the field [k] of the hash [key]. *)
Definition hashRow (key : string) (ik : Z * string) : tview.listItem :=
  {| tview.MainText := viewRowFormat (fst ik) (snd ik);
     tview.SecondaryText := "";
     tview.Selected := Some (OnHashField key (snd ik)) |}.

(** The base page, added by [Start]. *)
Definition basePage : tview.page :=
  {| tview.PageName := "base"; tview.PageItem := Layout;
     tview.Resize := true; tview.Visible := true |}.

(** The pages of the running application: the base page, with the alert
    above it while it is shown. *)
Definition pages_ok (gli : RedisGli) : Prop :=
  pages gli = [basePage] \/ pages gli = [basePage; alertPage].

(** [OutputMessage{tcell.ColorOrange, "Command %s is processing..."}] *)
Definition processingMessage (cmdText : string) : OutputMessage :=
  {| Color := tcell.ColorOrange;
     Message := "Command " +++ cmdText +++ " is processing..." |}.

(** The message that ends the execution of [cmdText]. *)
Definition completionMessage (rc : Redis.Client) (cmdText : string)
    : OutputMessage :=
  match Redis.Execute rc cmdText with
  | Ok _ => {| Color := tcell.ColorGreen;
               Message := "Command " +++ cmdText +++ " succeed" |}
  | Err err => errorMessage err
  end.

(** The keys a search for [text] obtains, by the operation [searchDone]
    uses for that text. *)
Definition searchResult (rc : Redis.Client) (text : string) (limit : Z)
    : result (list string) :=
  if String.eqb text "" || String.eqb text "*" then
    match Redis.Scan rc 0 text limit with
    | Ok (keys, _) => Ok keys
    | Err err => Err err
    end
  else Redis.Keys rc text.

(** * Properties *)

(** ** The formats on examples *)

Example keyItemsFormat_first : keyItemsFormat 0 "a" = "  1 | a".
Proof. reflexivity. Qed.

Example viewRowFormat_first : viewRowFormat 0 "x" = "   1 | x".
Proof. reflexivity. Qed.

Example viewRowFormat_wide : viewRowFormat 999 "x" = " 1000 | x".
Proof. reflexivity. Qed.

Example Name_search : Name keyBindings "search" = "F2, Ctrl-S".
Proof. reflexivity. Qed.

Example SearchKey_unbound : SearchKey keyBindings tcell.KeyEnter = "".
Proof. reflexivity. Qed.

(** ** Loops as maps *)

Lemma enumerate_from_length {A : Type} (l : list A) (i : Z) :
  List.length (enumerate_from i l) = List.length l.
Proof.
  revert i; induction l as [|x l IH]; intro i; simpl; [reflexivity|].
  now rewrite IH.
Qed.

Lemma enumerate_from_snd {A : Type} (l : list A) (i : Z) :
  map snd (enumerate_from i l) = l.
Proof.
  revert i; induction l as [|x l IH]; intro i; simpl; [reflexivity|].
  now rewrite IH.
Qed.

Lemma enumerate_from_nth {A : Type} (l : list A) (i : Z) (n : nat) (x : A) :
  nth_error l n = Some x ->
  nth_error (enumerate_from i l) n = Some (i + Z.of_nat n, x).
Proof.
  revert i n; induction l as [|y l IH]; intros i n H.
  - destruct n; discriminate.
  - destruct n as [|n]; simpl in *.
    + injection H as ->. now rewrite Z.add_0_r.
    + rewrite (IH _ _ H). do 2 f_equal. lia.
Qed.

Lemma withRows_nil (l : tview.List) : withRows [] l = l.
Proof. destruct l; unfold withRows; simpl. now rewrite app_nil_r. Qed.

Lemma withRows_app (r1 r2 : list tview.listItem) (l : tview.List) :
  withRows r2 (withRows r1 l) = withRows (r1 ++ r2) l.
Proof. unfold withRows; simpl. now rewrite app_assoc. Qed.

Lemma set_keyItemsPanel_same (gli : RedisGli) :
  set_keyItemsPanel (keyItemsPanel gli) gli = gli.
Proof. now destruct gli. Qed.

Lemma addKeyItems_from (l : list (Z * string)) (gli : RedisGli) :
  fold_left
    (fun gli '(i, k) =>
       set_keyItemsPanel
         (tview.List_AddItem (keyItemsFormat i k) "" (Some (OnKeySelected i k))
            (keyItemsPanel gli)) gli) l gli
  = set_keyItemsPanel (withRows (map keyRow l) (keyItemsPanel gli)) gli.
Proof.
  revert gli; induction l as [|[i k] l IH]; intro gli; simpl.
  - now rewrite withRows_nil, set_keyItemsPanel_same.
  - rewrite IH. simpl. unfold withRows; simpl.
    now rewrite <- app_assoc.
Qed.

Lemma addKeyItems_eq (keys : list string) (gli : RedisGli) :
  addKeyItems keys gli
  = set_keyItemsPanel
      (withRows (map keyRow (enumerate keys)) (keyItemsPanel gli)) gli.
Proof. apply addKeyItems_from. Qed.

Lemma addListRows_eq (values : list string) (view : tview.List) :
  addListRows values view = withRows (map viewRow (enumerate values)) view.
Proof.
  unfold addListRows. generalize (enumerate values) as l.
  intro l; revert view; induction l as [|[i v] l IH]; intro view; simpl.
  - now rewrite withRows_nil.
  - rewrite IH. unfold withRows; simpl. now rewrite <- app_assoc.
Qed.

Lemma addZRows_eq (values : list Redis.Z_) (view : tview.List) :
  addZRows values view = withRows (map zRow (enumerate values)) view.
Proof.
  unfold addZRows. generalize (enumerate values) as l.
  intro l; revert view; induction l as [|[i v] l IH]; intro view; simpl.
  - now rewrite withRows_nil.
  - rewrite IH. unfold withRows; simpl. now rewrite <- app_assoc.
Qed.

(** ** The constructor *)

(** C9: the constructor takes [gitCommit[0:8]] unconditionally, so a
    [gitCommit] of fewer than 8 bytes makes it panic: no application state
    is built. *)
Theorem NewRedisGli_short_gitCommit_panics
    (maxKeyLimit : Z) (version gitCommit : string) (debug : bool) :
  (String.length gitCommit < 8)%nat ->
  NewRedisGli maxKeyLimit version gitCommit debug = None.
Proof.
  intro H. unfold NewRedisGli, slice_0_8.
  destruct (Z.ltb_spec (Z.of_nat (String.length gitCommit)) 8) as [_|Hge].
  - reflexivity.
  - lia.
Qed.

Lemma NewRedisGli_short_gitCommit_panics_witness :
  NewRedisGli 10 "1.0" "abc1234" false = None.
Proof.
  apply (NewRedisGli_short_gitCommit_panics 10 "1.0" "abc1234" false).
  simpl. lia.
Defined.

(** With 8 bytes or more the constructor returns, and keeps the first 8. *)
Lemma NewRedisGli_long_gitCommit
    (maxKeyLimit : Z) (version commit : string) (debug : bool) :
  (8 <= String.length commit)%nat ->
  exists gli,
    NewRedisGli maxKeyLimit version commit debug = Some gli
    /\ gitCommit gli = substring 0 8 commit.
Proof.
  intro H. unfold NewRedisGli, slice_0_8.
  destruct (Z.ltb_spec (Z.of_nat (String.length commit)) 8) as [Hlt|_].
  - lia.
  - eexists; split; reflexivity.
Qed.

Lemma boot_nil : boot [] = Some demoGli.
Proof. reflexivity. Qed.

(** ** The search panel *)



(** Any other key than Enter leaves the search panel's handler at once. *)
Lemma searchDone_other_key (rc : Redis.Client) (key : Key) (gli : RedisGli) :
  key <> tcell.KeyEnter -> searchDone rc key gli = gli.
Proof.
  intro H. unfold searchDone.
  destruct (Z.eqb_spec key tcell.KeyEnter); [contradiction|reflexivity].
Qed.

(** ** The list view *)

(** C7, as the code has it: for a key of type list whose range fetch
    returns [values], the list view holds one row per element, in order; the
    row of the element at position [n] (from 0) is a space, [n+1]
    right-aligned in a field of width 3, [" | "] and the element.  For
    [x, y, z] the rows are ["   1 | x"], ["   2 | y"], ["   3 | z"]: the
    index is preceded by three spaces, not two. *)
Theorem list_view_rows (rc : Redis.Client) (index : Z) (key ttl : string)
    (values : list string) (gli : RedisGli) :
  Redis.Type_ rc key = Ok "list" ->
  Redis.TTL rc key = Ok ttl ->
  Redis.LRange rc key 0 1000 = Ok values ->
  let gli' := itemSelectedHandler rc index key gli in
  tview.Items (mainListView gli') = map viewRow (enumerate values)
  /\ List.length (tview.Items (mainListView gli')) = List.length values
  /\ (forall n v,
        nth_error values n = Some v ->
        option_map tview.MainText (nth_error (tview.Items (mainListView gli')) n)
        = Some (" " +++ fmt_3d (Z.of_nat n + 1) +++ " | " +++ v))
  /\ (values = ["x"; "y"; "z"] ->
      map tview.MainText (tview.Items (mainListView gli'))
      = ["   1 | x"; "   2 | y"; "   3 | z"]).
Proof.
  intros Htype Httl Hrange gli'.
  assert (Hitems :
    tview.Items (mainListView gli') = map viewRow (enumerate values)).
  { subst gli'. unfold itemSelectedHandler. rewrite Htype, Httl.
    unfold renderValue. simpl. rewrite Hrange. simpl.
    rewrite addListRows_eq. reflexivity. }
  rewrite Hitems. split; [reflexivity|]. split; [|split].
  - unfold enumerate. now rewrite length_map, enumerate_from_length.
  - intros n v Hn. unfold enumerate.
    rewrite nth_error_map, (enumerate_from_nth _ 0 _ _ Hn). reflexivity.
  - intros ->. reflexivity.
Qed.

Lemma list_view_rows_witness :
  map tview.MainText
    (tview.Items
       (mainListView
          (itemSelectedHandler (Store.client Store.demo) 1 "b" demoGli)))
  = ["   1 | x"; "   2 | y"; "   3 | z"].
Proof.
  apply (list_view_rows (Store.client Store.demo) 1 "b" "-1ns"
           ["x"; "y"; "z"] demoGli); reflexivity.
Defined.

(** C7 as stated fails: the rows of [x, y, z] are not ["  1 | x"],
    ["  2 | y"], ["  3 | z"]. *)
Lemma list_view_rows_two_spaces_counterexample :
  Redis.Type_ (Store.client Store.demo) "b" = Ok "list"
  /\ Redis.LRange (Store.client Store.demo) "b" 0 1000 = Ok ["x"; "y"; "z"]
  /\ map tview.MainText
       (tview.Items
          (mainListView
             (itemSelectedHandler (Store.client Store.demo) 1 "b" demoGli)))
     <> ["  1 | x"; "  2 | y"; "  3 | z"].
Proof.
  split; [reflexivity|]. split; [reflexivity|].
  vm_compute. discriminate.
Qed.

(** ** Invariants of the running application *)

Ltac break_match :=
  match goal with
  | |- context [match ?x with _ => _ end] => destruct x eqn:?
  end.

Lemma focusCommandForm_shape (l : list (Z * primitiveKey)) (gli : RedisGli) :
  exists i f,
    focusCommandForm l gli = set_currentFocusIndex i (set_focus f gli)
    /\ ((i = currentFocusIndex gli /\ f = focus gli
         /\ forall j p, In (j, p) l -> Primitive_ p <> CommandFormPanel)
        \/ (f = Some CommandFormPanel
            /\ exists p, In (i, p) l /\ Primitive_ p = CommandFormPanel)).
Proof.
  revert gli; induction l as [|[j p] l IH]; intro gli; simpl.
  - exists (currentFocusIndex gli), (focus gli). split.
    + now destruct gli.
    + left. intuition.
  - destruct (IH (if Primitive_eqb (Primitive_ p) CommandFormPanel
                  then set_currentFocusIndex j (SetFocus CommandFormPanel gli)
                  else gli)) as (i & f & Heq & Hcase).
    exists i, f. rewrite Heq. split.
    + now destruct (Primitive_eqb (Primitive_ p) CommandFormPanel).
    + destruct Hcase as [(Hi & Hf & Hno) | (Hf & q & Hin & Hq)].
      * destruct (Primitive_eqb (Primitive_ p) CommandFormPanel) eqn:Hp.
        -- right. simpl in Hi, Hf. split; [assumption|].
           exists p. split; [left; now subst|].
           destruct p as [[] ?]; simpl in Hp; try discriminate; reflexivity.
        -- left. repeat split; try assumption.
           intros j' p' [Hin | Hin]; [|eauto].
           injection Hin as <- <-. intro Hc. rewrite Hc in Hp. discriminate.
      * right. split; [assumption|]. exists q. split; [now right|assumption].
Qed.

Lemma focusByKey_shape (l : list (Z * primitiveKey)) (name : string)
    (gli : RedisGli) :
  focusByKey l name gli = gli
  \/ exists i pv,
       In (i, pv) l /\ Key_ pv = name
       /\ focusByKey l name gli
          = set_currentFocusIndex i (SetFocus (Primitive_ pv) gli).
Proof.
  induction l as [|[j p] l IH]; simpl; [now left|].
  destruct (String.eqb_spec (Key_ p) name) as [Heq|Hne].
  - right. exists j, p. auto.
  - destruct IH as [IH | (i & pv & Hin & Hk & IH)]; [now left|].
    right. exists i, pv. auto.
Qed.

Lemma enumerate_from_In {A : Type} (l : list A) (k i : Z) (x : A) :
  In (i, x) (enumerate_from k l) -> k <= i < k + len l.
Proof.
  unfold len. revert k; induction l as [|y l IH]; intros k H; simpl in *.
  - contradiction.
  - destruct H as [H|H].
    + injection H as <- <-. lia.
    + apply IH in H. lia.
Qed.

Lemma enumerate_In {A : Type} (l : list A) (i : Z) (x : A) :
  In (i, x) (enumerate l) -> 0 <= i < len l.
Proof. intro H. apply enumerate_from_In in H. lia. Qed.

Lemma enumerate_from_In_nth {A : Type} (l : list A) (k i : Z) (x : A) :
  In (i, x) (enumerate_from k l) -> nth_error l (Z.to_nat (i - k)) = Some x.
Proof.
  revert k; induction l as [|y l IH]; intros k H; simpl in *.
  - contradiction.
  - destruct H as [H|H].
    + injection H as <- <-. now rewrite Z.sub_diag.
    + pose proof (enumerate_from_In _ _ _ _ H) as Hr.
      apply IH in H.
      replace (Z.to_nat (i - k)) with (S (Z.to_nat (i - (k + 1)))) by lia.
      exact H.
Qed.

Lemma enumerate_In_index {A : Type} (l : list A) (i : Z) (x : A) :
  In (i, x) (enumerate l) -> index_at l i = Some x.
Proof.
  intro H. pose proof (enumerate_In _ _ _ H) as Hr.
  apply enumerate_from_In_nth in H. rewrite Z.sub_0_r in H.
  unfold index_at. destruct (Z.ltb_spec i 0); [lia|exact H].
Qed.

Lemma ring_ok_len (gli : RedisGli) :
  ring_ok gli -> 5 <= len (focusPrimitives gli) <= 7.
Proof.
  intros (views & Hin & ->). unfold len.
  simpl in Hin.
  destruct Hin as [<-|[<-|[<-|[<-|[]]]]]; simpl; lia.
Qed.

Lemma rest_fields (gli gli' : RedisGli) :
  rest gli' = rest gli ->
  currentFocusIndex gli' = currentFocusIndex gli
  /\ locked gli' = locked gli
  /\ queuedUpdates gli' = queuedUpdates gli
  /\ rightPanel gli' = rightPanel gli
  /\ commandMode gli' = commandMode gli.
Proof. unfold rest. intro H. injection H. auto. Qed.

Lemma invariant_core (gli gli' : RedisGli) :
  core gli' = core gli -> invariant gli -> invariant gli'.
Proof.
  unfold core, rest. intro H. injection H as Hr Hi Hl Hq Hp Hm.
  unfold invariant, ring_ok, gate_ok, layout_ok.
  rewrite Hr, Hi, Hl, Hq, Hp, Hm. auto.
Qed.

Lemma searchDone_core (rc : Redis.Client) (key : Key) (gli : RedisGli) :
  core (searchDone rc key gli) = core gli.
Proof.
  unfold searchDone.
  destruct (negb (Z.eqb key tcell.KeyEnter)); [reflexivity|].
  destruct (String.eqb (searchPanel gli) "" || String.eqb (searchPanel gli) "*")%bool.
  - destruct (Redis.Scan rc 0 (searchPanel gli) (maxKeyLimit gli))
      as [[keys c]|err]; [rewrite addKeyItems_eq|]; reflexivity.
  - destruct (Redis.Keys rc (searchPanel gli)) as [keys|err];
      [rewrite addKeyItems_eq|]; reflexivity.
Qed.

Lemma initialLoad_core (rc : Redis.Client) (gli : RedisGli) :
  core (initialLoad rc gli) = core gli.
Proof.
  unfold initialLoad.
  destruct (Redis.ServerInfo rc) as [info [e|]]; simpl;
    destruct (Redis.Scan rc 0 "*" (maxKeyLimit gli)) as [[keys c]|err];
    try rewrite addKeyItems_eq; reflexivity.
Qed.

Lemma hashFieldSelected_core (rc : Redis.Client) (key k : string)
    (gli : RedisGli) :
  core (hashFieldSelected rc key k gli) = core gli.
Proof.
  unfold hashFieldSelected. now destruct (Redis.HGet rc key k).
Qed.

(** What [renderValue] does to the ring: the entries of one view are
    appended, or nothing is. *)
Lemma renderValue_ring (rc : Redis.Client) (key keyType : string)
    (gli : RedisGli) :
  exists gli' views,
    (renderValue rc key keyType gli = Return gli'
     \/ renderValue rc key keyType gli = Continue gli')
    /\ In views viewRings
    /\ focusPrimitives gli' = focusPrimitives gli ++ views
    /\ rest gli' = rest gli.
Proof.
  unfold renderValue.
  repeat break_match;
    eexists; eexists;
    (split; [first [left; reflexivity | right; reflexivity]|]);
    simpl;
    (split; [|repeat split; first
       [ symmetry; apply app_nil_r
       | rewrite <- app_assoc; reflexivity
       | reflexivity ]]);
    simpl; auto 6.
Qed.

Lemma primitivesFilter_ring (views : list primitiveKey) :
  In views viewRings ->
  primitivesFilter (baseRing ++ views) notDetailView = baseRing.
Proof.
  simpl. intros [<-|[<-|[<-|[<-|[]]]]]; reflexivity.
Qed.

Lemma resetDetail_core (gli : RedisGli) :
  core (resetDetail gli)
  = (primitivesFilter (focusPrimitives gli) notDetailView, rest gli).
Proof. reflexivity. Qed.

Lemma itemSelectedHandler_ring (rc : Redis.Client) (index : Z) (key : string)
    (gli : RedisGli) :
  ring_ok gli ->
  ring_ok (itemSelectedHandler rc index key gli)
  /\ rest (itemSelectedHandler rc index key gli) = rest gli.
Proof.
  intros Hring. unfold itemSelectedHandler.
  destruct (Redis.Type_ rc key) as [keyType|err];
    [|now repeat split].
  destruct (Redis.TTL rc key) as [ttl|err]; [|now repeat split].
  destruct (renderValue_ring rc key keyType
              (resetDetail (issue (Redis.CallTTL key)
                              (issue (Redis.CallType key) gli))))
    as (gli' & views & Hflow & Hin & Hr & Hrest).
  assert (Hbase : focusPrimitives gli' = baseRing ++ views).
  { rewrite Hr. simpl. destruct Hring as (v0 & Hv0 & ->).
    now rewrite primitivesFilter_ring. }
  change (rest gli' = rest gli) in Hrest.
  destruct Hflow as [-> | ->]; simpl; (split; [exists views; auto|]);
    exact Hrest.
Qed.

Lemma itemSelectedHandler_invariant (rc : Redis.Client) (index : Z)
    (key : string) (gli : RedisGli) :
  invariant gli -> invariant (itemSelectedHandler rc index key gli).
Proof.
  intros (Hring & Hidx & Hgate & Hlay).
  destruct (itemSelectedHandler_ring rc index key gli Hring)
    as (Hr & Hrest).
  apply rest_fields in Hrest. destruct Hrest as (Hi & Hl & Hq & Hp & Hm).
  unfold invariant, gate_ok, layout_ok. rewrite Hi, Hl, Hq, Hp, Hm. auto.
Qed.

Lemma selectItem_invariant (rc : Redis.Client) (l : tview.List) (n : nat)
    (gli : RedisGli) :
  invariant gli -> invariant (selectItem rc l n gli).
Proof.
  intro H. unfold selectItem.
  destruct (nth_error (tview.Items l) n) as [[m sec [[i k|k f]|]]|];
    simpl; try assumption.
  - now apply itemSelectedHandler_invariant.
  - eapply invariant_core; [apply hashFieldSelected_core|assumption].
Qed.

Lemma commandDone_invariant (key : Key) (gli : RedisGli) :
  invariant gli -> invariant (commandDone key gli).
Proof.
  intros (Hring & Hidx & Hgate & Hlay). unfold commandDone.
  destruct (negb (Z.eqb key tcell.KeyEnter)); [now repeat split|].
  unfold invariant, gate_ok in *.
  destruct (locked gli) eqn:Hl; simpl.
  - rewrite Hl. auto.
  - rewrite Hgate. repeat split; try assumption; try lia. now eexists.
Qed.

Lemma runQueued_invariant (rc : Redis.Client) (gli : RedisGli) :
  invariant gli -> invariant (runQueued rc gli).
Proof.
  intros (Hring & Hidx & Hgate & Hlay). unfold runQueued.
  unfold invariant, gate_ok in *.
  destruct (locked gli) eqn:Hl.
  - destruct Hgate as (c & ->). unfold executeCommand.
    destruct (Redis.Execute rc c); simpl; auto.
  - rewrite Hgate, Hl. auto.
Qed.

Lemma switchFocus_index (gli gli' : RedisGli) :
  switchFocus gli = Some gli' ->
  focusPrimitives gli' = focusPrimitives gli
  /\ locked gli' = locked gli
  /\ queuedUpdates gli' = queuedUpdates gli
  /\ rightPanel gli' = rightPanel gli
  /\ commandMode gli' = commandMode gli
  /\ index_in_range gli'
  /\ focus gli'
     = option_map Primitive_
         (index_at (focusPrimitives gli') (currentFocusIndex gli')).
Proof.
  unfold switchFocus, index_in_range.
  set (next := if Z.gtb (currentFocusIndex gli + 1)
                        (len (focusPrimitives gli) - 1)
               then 0 else currentFocusIndex gli + 1).
  destruct (index_at (focusPrimitives gli) next) as [pk|] eqn:Hat;
    [|discriminate].
  intro H; injection H as <-. simpl. rewrite Hat.
  repeat split; try reflexivity.
  - unfold index_at in Hat. destruct (Z.ltb_spec next 0); [discriminate|lia].
  - unfold index_at in Hat. destruct (Z.ltb_spec next 0); [discriminate|].
    assert (Hlt : (Z.to_nat next < List.length (focusPrimitives gli))%nat).
    { apply nth_error_Some. congruence. }
    unfold len. lia.
Qed.

Lemma redrawRightPanel_layout (center : Primitive) (gli : RedisGli) :
  layout_ok gli ->
  rightPanel (redrawRightPanel center gli) = rightLayout center.
Proof.
  unfold layout_ok, redrawRightPanel. simpl. intros ->.
  now destruct (commandMode gli).
Qed.

Lemma InputCapture_invariant (kb : KeyBindings) (k : Key)
    (gli gli' : RedisGli) (ev : option Key) :
  invariant gli -> InputCapture kb k gli = Some (gli', ev) ->
  invariant gli'.
Proof.
  intros Hinv. unfold InputCapture.
  set (g := if configDebug gli then _ else gli).
  assert (Hg : invariant g).
  { subst g. destruct (configDebug gli); [|assumption].
    eapply invariant_core; [|exact Hinv]. reflexivity. }
  clearbody g. clear Hinv gli.
  destruct Hg as (Hring & Hidx & Hgate & Hlay).
  pose proof (ring_ok_len _ Hring) as Hlen.
  destruct (String.eqb (SearchKey kb k) "switch_focus").
  { destruct (switchFocus g) as [g'|] eqn:Hsw; [|discriminate].
    intro H; injection H as <- <-.
    destruct (switchFocus_index _ _ Hsw)
      as (Hr & Hl & Hq & Hp & Hm & Hin & _).
    unfold invariant, ring_ok, gate_ok, layout_ok, index_in_range in *.
    rewrite Hr, Hl, Hq, Hp, Hm in *. repeat split; auto; lia. }
  destruct (String.eqb (SearchKey kb k) "quit").
  { intro H; injection H as <- <-. now repeat split. }
  destruct (String.eqb (SearchKey kb k) "command").
  { intro H; injection H as <- <-. unfold toggleCommand.
    destruct (commandMode g) eqn:Hmode.
    - repeat split; auto; try (simpl; lia).
      unfold layout_ok. simpl commandMode.
      change (rightPanel (redrawRightPanel MainPanel g)
              = rightLayout MainPanel).
      now apply redrawRightPanel_layout.
    - match goal with |- invariant (focusCommandForm ?l ?s) =>
        destruct (focusCommandForm_shape l s) as (i & f & -> & Hcase)
      end.
      repeat split; auto; simpl.
      + destruct Hcase as [(-> & _) | (_ & p & Hin & _)]; simpl; [lia|].
        apply enumerate_In in Hin. simpl in Hin. lia.
      + destruct Hcase as [(-> & _) | (_ & p & Hin & _)]; simpl; [lia|].
        apply enumerate_In in Hin. simpl in Hin. lia.
      + unfold layout_ok. simpl commandMode.
        change (rightPanel (redrawRightPanel CommandPanel g)
                = rightLayout CommandPanel).
        now apply redrawRightPanel_layout. }
  intro H; injection H as <- <-.
  destruct (focusByKey_shape (enumerate (focusPrimitives g))
              (SearchKey kb k) g) as [-> | (i & pv & Hin & _ & ->)].
  - now repeat split.
  - apply enumerate_In in Hin. repeat split; auto; simpl; lia.
Qed.

Lemma step_invariant (rc : Redis.Client) (ev : Event) (gli gli' : RedisGli) :
  invariant gli -> step rc ev gli = Some gli' -> invariant gli'.
Proof.
  intros Hinv Hstep. destruct ev; simpl in Hstep.
  - destruct (InputCapture kb k gli) as [[g e]|] eqn:Hic; [|discriminate].
    injection Hstep as <-. eapply InputCapture_invariant; eauto.
  - injection Hstep as <-. eapply invariant_core; [|exact Hinv]. reflexivity.
  - injection Hstep as <-. now apply commandDone_invariant.
  - injection Hstep as <-. eapply invariant_core; [|exact Hinv]. reflexivity.
  - injection Hstep as <-. now apply runQueued_invariant.
  - injection Hstep as <-. eapply invariant_core; [|exact Hinv]. reflexivity.
  - injection Hstep as <-. eapply invariant_core; [|exact Hinv].
    apply searchDone_core.
  - injection Hstep as <-. now apply selectItem_invariant.
  - injection Hstep as <-. now apply selectItem_invariant.
  - injection Hstep as <-. eapply invariant_core; [|exact Hinv].
    apply initialLoad_core.
Qed.

(** Every state of the running application satisfies the invariant: the
    ring is the constructor's five entries followed by those of the mounted
    view, the index is below 7, and at most one command is in flight. *)
Lemma reachable_invariant (gli : RedisGli) : reachable gli -> invariant gli.
Proof.
  induction 1 as [m v g d gli Hnew | rc ev gli gli' _ IH _ Hstep].
  - unfold NewRedisGli in Hnew.
    destruct (slice_0_8 g); [|discriminate]. injection Hnew as <-.
    repeat split; simpl; try lia.
    exists []. split; [now left|reflexivity].
  - eapply step_invariant; eauto.
Qed.

(** The running application never panics: every event has a next state. *)
Lemma reachable_step_total (rc : Redis.Client) (ev : Event) (gli : RedisGli) :
  reachable gli -> exists gli', step rc ev gli = Some gli'.
Proof.
  intro Hreach. apply reachable_invariant in Hreach.
  destruct ev; simpl; try (eexists; reflexivity).
  unfold InputCapture.
  set (g := if configDebug gli then _ else gli).
  assert (Hg : focusPrimitives g = focusPrimitives gli
               /\ currentFocusIndex g = currentFocusIndex gli).
  { subst g. now destruct (configDebug gli). }
  destruct Hg as (Hr & Hi).
  destruct (String.eqb (SearchKey kb k) "switch_focus");
    [|destruct (String.eqb (SearchKey kb k) "quit");
      [|destruct (String.eqb (SearchKey kb k) "command")];
      eexists; reflexivity].
  unfold switchFocus. rewrite Hr, Hi.
  destruct Hreach as (Hring & Hidx & _ & _).
  pose proof (ring_ok_len _ Hring) as Hlen.
  set (next := if Z.gtb _ _ then 0 else _).
  assert (Hnext : 0 <= next < len (focusPrimitives gli)).
  { subst next. destruct (Z.gtb_spec (currentFocusIndex gli + 1)
                            (len (focusPrimitives gli) - 1)); lia. }
  unfold index_at. destruct (Z.ltb_spec next 0); [lia|].
  destruct (nth_error (focusPrimitives gli) (Z.to_nat next)) eqn:Hnth.
  - eexists; reflexivity.
  - apply nth_error_None in Hnth. unfold len in Hnext. lia.
Qed.

(** ** The command toggle *)

Lemma demoGli_reachable : reachable demoGli.
Proof. apply (reachable_start 10 "1.0" "01234567" false). reflexivity. Qed.

Lemma ring_ok_commandForm (gli : RedisGli) :
  ring_ok gli ->
  focusCommandForm (enumerate (focusPrimitives gli)) gli
  = set_currentFocusIndex 1 (SetFocus CommandFormPanel gli).
Proof.
  intros (views & Hin & Hr). rewrite Hr. simpl in Hin.
  destruct Hin as [<-|[<-|[<-|[<-|[]]]]]; reflexivity.
Qed.

(** C8: on the [command] action in command mode the mode is left, the main
    panel is put back in the centre, the search input gets the focus and the
    index becomes 0; out of command mode the mode is entered, the command
    panel is put in the centre, and the focus and the index go to the entry
    of the command input. *)
Theorem command_toggle (kb : KeyBindings) (k : Key) (gli : RedisGli) :
  reachable gli ->
  SearchKey kb k = "command" ->
  exists gli',
    InputCapture kb k gli = Some (gli', Some k)
    /\ (commandMode gli = true ->
          commandMode gli' = false
          /\ rightPanel gli' = rightLayout MainPanel
          /\ focus gli' = Some SearchPanel
          /\ currentFocusIndex gli' = 0)
    /\ (commandMode gli = false ->
          commandMode gli' = true
          /\ rightPanel gli' = rightLayout CommandPanel
          /\ focus gli' = Some CommandFormPanel
          /\ index_at (focusPrimitives gli') (currentFocusIndex gli')
             = Some {| Primitive_ := CommandFormPanel;
                       Key_ := "command_focus" |}).
Proof.
  intros Hreach Hname. apply reachable_invariant in Hreach.
  unfold InputCapture. rewrite Hname. simpl.
  set (g := if configDebug gli then _ else gli).
  assert (Hg : invariant g /\ commandMode g = commandMode gli).
  { subst g. destruct (configDebug gli); split; try reflexivity;
      assumption. }
  clearbody g. destruct Hg as ((Hring & _ & _ & Hlay) & Hmode).
  eexists. split; [reflexivity|]. unfold toggleCommand. rewrite Hmode.
  split; intros Hm; rewrite Hm.
  - simpl. repeat split.
    change (rightPanel (redrawRightPanel MainPanel g) = rightLayout MainPanel).
    now apply redrawRightPanel_layout.
  - rewrite ring_ok_commandForm
      by (destruct Hring as (v & Hv & Hr); exists v; split;
          [exact Hv | exact Hr]).
    simpl. repeat split.
    + change (rightPanel (redrawRightPanel CommandPanel g)
              = rightLayout CommandPanel).
      now apply redrawRightPanel_layout.
    + destruct Hring as (v & _ & ->). reflexivity.
Qed.

Lemma command_toggle_witness :
  exists gli',
    InputCapture keyBindings tcell.KeyF1 demoGli
    = Some (gli', Some tcell.KeyF1)
    /\ (commandMode demoGli = true ->
          commandMode gli' = false
          /\ rightPanel gli' = rightLayout MainPanel
          /\ focus gli' = Some SearchPanel
          /\ currentFocusIndex gli' = 0)
    /\ (commandMode demoGli = false ->
          commandMode gli' = true
          /\ rightPanel gli' = rightLayout CommandPanel
          /\ focus gli' = Some CommandFormPanel
          /\ index_at (focusPrimitives gli') (currentFocusIndex gli')
             = Some {| Primitive_ := CommandFormPanel;
                       Key_ := "command_focus" |}).
Proof.
  apply (command_toggle keyBindings tcell.KeyF1 demoGli).
  - apply (reachable_start 10 "1.0" "01234567" false). reflexivity.
  - reflexivity.
Defined.

(** ** Cycling the focus *)






(** ** The index of the focus ring *)





Lemma run_reachable (evs : list (Redis.Client * Event))
    (gli gli' : RedisGli) :
  Forall (fun e => valid_event (snd e)) evs ->
  reachable gli -> run evs gli = Some gli' -> reachable gli'.
Proof.
  intro Hv. revert gli.
  induction Hv as [|[rc ev] evs Hev _ IH]; intros gli Hreach Hrun;
    simpl in Hrun.
  - now injection Hrun as <-.
  - destruct (step rc ev gli) as [g|] eqn:Hstep; [|discriminate].
    apply (IH g); [|exact Hrun].
    exact (reachable_step rc ev gli g Hreach Hev Hstep).
Qed.

Lemma boot_reachable (evs : list (Redis.Client * Event)) (gli : RedisGli) :
  Forall (fun e => valid_event (snd e)) evs ->
  boot evs = Some gli -> reachable gli.
Proof.
  intros Hv Hboot. unfold boot in Hboot.
  destruct (NewRedisGli 10 "1.0" "0123456789abcdef" false) as [g|] eqn:Hnew;
    [|discriminate].
  apply (run_reachable evs (Start g) gli Hv); [|exact Hboot].
  exact (reachable_start _ _ _ _ g Hnew).
Qed.

Lemma staleIndexRun_valid :
  Forall (fun e => valid_event (snd e)) staleIndexRun.
Proof.
  unfold staleIndexRun. repeat apply Forall_cons; try exact I.
  - apply Permutation_refl.
  - apply Forall_nil.
Qed.



(** ** The command gate *)

(** A submission under the lock shows the alert and does nothing else. *)
Lemma submit_locked (text : string) (gli : RedisGli) :
  locked gli = true ->
  submit text gli
  = set_pages
      (tview.AddPage "alert" AlertModal false true (pages gli))
      (set_commandFormPanel text gli).
Proof.
  intro Hl. unfold submit, commandDone. simpl. now rewrite Hl.
Qed.

Lemma AddPage_last (name : string) (item : Primitive) (resize visible : bool)
    (ps : tview.Pages) :
  exists ps',
    tview.AddPage name item resize visible ps
    = ps' ++ [ {| tview.PageName := name; tview.PageItem := item;
                  tview.Resize := resize; tview.Visible := visible |} ].
Proof. unfold tview.AddPage. eexists. reflexivity. Qed.

(** C1: while the lock is held, whatever is submitted, and however often:
    the lock stays held, nothing is added to the queued executions, no
    operation is issued to the store, no message is sent and the result
    panel keeps its text; each submission changes nothing but the page of
    the alert, which it shows, the typed text staying in the input. *)
Theorem submit_while_locked (texts : list string) (gli : RedisGli) :
  locked gli = true ->
  let gli' := submitAll texts gli in
  locked gli' = true
  /\ queuedUpdates gli' = queuedUpdates gli
  /\ redisCalls gli' = redisCalls gli
  /\ outputChan gli' = outputChan gli
  /\ commandResultPanel gli' = commandResultPanel gli
  /\ (forall text,
        submit text gli'
        = set_pages
            (tview.AddPage "alert" AlertModal false true (pages gli'))
            (set_commandFormPanel text gli'))
  /\ (texts <> [] ->
      (exists ps, pages gli' = ps ++ [alertPage])
      /\ commandFormPanel gli' = last texts "").
Proof.
  intros Hl gli'. subst gli'. unfold submitAll.
  revert gli Hl. induction texts as [|text texts IH]; intros gli Hl.
  - simpl. repeat split; try assumption.
    + intro text. now apply submit_locked.
    + contradiction.
    + contradiction.
  - change (fold_left (fun g t => submit t g) (text :: texts) gli)
      with (fold_left (fun g t => submit t g) texts (submit text gli)).
    assert (Hl1 : locked (submit text gli) = true).
    { rewrite submit_locked by assumption. exact Hl. }
    destruct (IH (submit text gli) Hl1)
      as (H1 & H2 & H3 & H4 & H5 & H6 & H7).
    pose proof (submit_locked text gli Hl) as Hs.
    split; [exact H1|].
    split; [rewrite H2, Hs; reflexivity|].
    split; [rewrite H3, Hs; reflexivity|].
    split; [rewrite H4, Hs; reflexivity|].
    split; [rewrite H5, Hs; reflexivity|].
    split; [exact H6|].
    intros _. destruct texts as [|t texts].
    + simpl. rewrite Hs. simpl. split; [apply AddPage_last|reflexivity].
    + change (last (text :: t :: texts) "") with (last (t :: texts) "").
      apply H7. discriminate.
Qed.

Lemma submit_while_locked_witness :
  let gli := submit "GET a" demoGli in
  let gli' := submitAll ["PING"; "DEL a"] gli in
  locked gli = true
  /\ queuedUpdates gli' = ["GET a"]
  /\ redisCalls gli' = [].
Proof.
  intros gli gli'.
  destruct (submit_while_locked ["PING"; "DEL a"] gli eq_refl)
    as (_ & Hq & Hc & _).
  split; [reflexivity|]. split; [exact Hq | exact Hc].
Defined.

(** A submission with the lock free takes the lock and queues the text. *)
Lemma submit_idle (text : string) (gli : RedisGli) :
  locked gli = false ->
  locked (submit text gli) = true
  /\ queuedUpdates (submit text gli) = queuedUpdates gli ++ [text]
  /\ commandFormPanel (submit text gli) = "".
Proof.
  intro Hl. unfold submit, commandDone. simpl. rewrite Hl. now repeat split.
Qed.

(** X23: a submission dropped under the lock does not run later: when
    the queued update runs, the command executed is the one that took the
    lock, and the queue is empty afterwards. *)
Lemma dropped_submission_never_runs (rc : Redis.Client) (first second : string)
    (gli : RedisGli) :
  locked gli = true ->
  queuedUpdates gli = [first] ->
  let gli' := runQueued rc (submit second gli) in
  redisCalls gli' = redisCalls gli ++ [Redis.CallExecute first]
  /\ queuedUpdates gli' = []
  /\ locked gli' = false.
Proof.
  intros Hl Hq. rewrite submit_locked by assumption.
  unfold runQueued. simpl. rewrite Hq. unfold executeCommand.
  destruct (Redis.Execute rc first); now repeat split.
Qed.

(** The lock is held exactly while one execution is queued: two commands
    are never in flight. *)
Lemma reachable_single_flight (gli : RedisGli) :
  reachable gli ->
  (locked gli = true -> exists cmdText, queuedUpdates gli = [cmdText])
  /\ (locked gli = false -> queuedUpdates gli = []).
Proof.
  intro Hreach. apply reachable_invariant in Hreach.
  destruct Hreach as (_ & _ & Hgate & _). unfold gate_ok in Hgate.
  split; intro Hl; rewrite Hl in Hgate; exact Hgate.
Qed.

(** ** The key-binding registry *)

Lemma bindHas_In (bind : list Key) (k : Key) :
  bindHas bind k = true <-> In k bind.
Proof.
  induction bind as [|b bind IH]; simpl.
  - split; [discriminate|contradiction].
  - destruct (Z.eqb_spec b k) as [->|Hne].
    + split; auto.
    + rewrite IH. split; [auto|]. intros [H|H]; [contradiction|exact H].
Qed.

(** [SearchKey] returns the name of an entry that holds the key, or the
    empty string when no entry does. *)
Lemma SearchKey_entry (kb : KeyBindings) (k : Key) :
  (exists bind, In (SearchKey kb k, bind) kb /\ In k bind)
  \/ (SearchKey kb k = "" /\ forall name bind, In (name, bind) kb -> ~ In k bind).
Proof.
  induction kb as [|[name bind] kb IH]; simpl.
  - right. split; [reflexivity|]. intros ? ? [].
  - destruct (bindHas bind k) eqn:Hb.
    + left. exists bind. split; [now left|]. now apply bindHas_In.
    + destruct IH as [(bind' & Hin & Hk) | (Hnone & Hno)].
      * left. exists bind'. auto.
      * right. split; [exact Hnone|].
        intros n b [Heq|Hin]; [|eauto].
        injection Heq as <- <-. rewrite <- bindHas_In, Hb. discriminate.
Qed.

(** In every order of the map, a bound key resolves to an action bound to
    it. *)
Lemma SearchKey_bound (kb : KeyBindings) (action : string) (bind : list Key)
    (code : Key) :
  iteration_order kb ->
  In (action, bind) keyBindings -> In code bind ->
  exists bind', In (SearchKey kb code, bind') keyBindings /\ In code bind'.
Proof.
  intros Hperm Hin Hcode.
  destruct (SearchKey_entry kb code) as [(bind' & Hin' & Hk) | (_ & Hno)].
  - exists bind'. split; [|exact Hk].
    apply (Permutation_in _ (Permutation_sym Hperm)). exact Hin'.
  - exfalso. apply (Hno action bind); [|exact Hcode].
    apply (Permutation_in _ Hperm). exact Hin.
Qed.

(** C4, as the code has it: in every order in which the map is visited, a
    key bound to an action other than [key_list_value] and [key_hash]
    resolves to that action; F6 and Ctrl-Y, bound to both of these, resolve
    to one of the two. *)
Theorem SearchKey_roundtrip (kb : KeyBindings) (action : string)
    (bind : list Key) (code : Key) :
  iteration_order kb ->
  In (action, bind) keyBindings ->
  In code bind ->
  (action <> "key_list_value" -> action <> "key_hash" ->
   SearchKey kb code = action)
  /\ (action = "key_list_value" \/ action = "key_hash" ->
      SearchKey kb code = "key_list_value" \/ SearchKey kb code = "key_hash").
Proof.
  intros Hperm Hin Hcode.
  destruct (SearchKey_bound kb action bind code Hperm Hin Hcode)
    as (bind' & Hin' & Hcode').
  revert Hin' Hcode'. generalize (SearchKey kb code) as name.
  intros name Hin' Hcode'.
  unfold keyBindings in Hin, Hin'. simpl in Hin, Hin'.
  repeat match goal with
         | H : _ \/ _ |- _ => destruct H
         | H : (_, _) = (_, _) |- _ => injection H as <- <-
         | H : False |- _ => contradiction
         end;
    simpl in Hcode, Hcode';
    repeat match goal with
           | H : _ \/ _ |- _ => destruct H
           | H : False |- _ => contradiction
           end;
    subst; try discriminate;
    (split; [intros; try reflexivity; try congruence
            | intros [?|?]; try discriminate; auto]).
Qed.

Lemma SearchKey_roundtrip_witness :
  SearchKey (rev keyBindings) tcell.KeyCtrlS = "search"
  /\ (SearchKey (rev keyBindings) tcell.KeyF6 = "key_list_value"
      \/ SearchKey (rev keyBindings) tcell.KeyF6 = "key_hash").
Proof.
  split.
  - apply (proj1 (SearchKey_roundtrip (rev keyBindings) "search"
                    [tcell.KeyF2; tcell.KeyCtrlS] tcell.KeyCtrlS
                    (Permutation_rev keyBindings)
                    (or_introl eq_refl) (or_intror (or_introl eq_refl))));
      discriminate.
  - apply (proj2 (SearchKey_roundtrip (rev keyBindings) "key_hash"
                    [tcell.KeyF6; tcell.KeyCtrlY] tcell.KeyF6
                    (Permutation_rev keyBindings)
                    (or_intror (or_intror (or_intror (or_intror
                       (or_introl eq_refl)))))
                    (or_introl eq_refl))).
    right; reflexivity.
Defined.

(** C4 as stated fails in every order of the map: F6 is bound to
    [key_list_value] and to [key_hash], and resolves to one name. *)
Lemma SearchKey_roundtrip_counterexample :
  In ("key_hash", [tcell.KeyF6; tcell.KeyCtrlY]) keyBindings
  /\ SearchKey keyBindings tcell.KeyF6 = "key_list_value"
  /\ ~ exists kb,
        iteration_order kb
        /\ forall action bind code,
             In (action, bind) keyBindings -> In code bind ->
             SearchKey kb code = action.
Proof.
  split; [simpl; auto 6|]. split; [reflexivity|].
  intros (kb & _ & H).
  assert (H1 : SearchKey kb tcell.KeyF6 = "key_list_value").
  { apply (H _ [tcell.KeyF6; tcell.KeyCtrlY]); simpl; auto. }
  assert (H2 : SearchKey kb tcell.KeyF6 = "key_hash").
  { apply (H _ [tcell.KeyF6; tcell.KeyCtrlY]); simpl; auto 6. }
  rewrite H1 in H2. discriminate.
Qed.

(** ** Fetch errors of a key selection *)

Lemma renderValue_error (rc : Redis.Client) (key keyType : string)
    (call : Redis.Call) (err : string) (gli : RedisGli) :
  valueFetch rc key keyType = Some (call, Some err) ->
  renderValue rc key keyType gli
  = Return (send (errorMessage err) (issue call gli)).
Proof.
  unfold valueFetch, renderValue.
  repeat (match goal with
          | |- context [String.eqb keyType ?t] =>
              destruct (String.eqb keyType t)
          end;
          [match goal with
           | |- context [errorOf ?r] => destruct r
           end;
           simpl; intro H; [discriminate|];
           injection H as <- <-; reflexivity|]).
  discriminate.
Qed.

(** C2, as the code has it.  If the type fetch or the TTL fetch fails, one
    error message is sent and nothing else changes: the detail panel stays
    as it was rendered.  If the fetch of the value fails, one error message
    is sent and the selection stops there (no success message, no update of
    the meta panel, no view mounted), but the reset before the fetch has
    been done: the three views are cleared and taken out of the main panel,
    and their entries are out of the focus ring. *)
Theorem key_selection_fetch_error (rc : Redis.Client) (index : Z)
    (key : string) (gli : RedisGli) :
  let gli' := itemSelectedHandler rc index key gli in
  (forall err,
     Redis.Type_ rc key = Err err ->
     gli' = send (errorMessage err) (issue (Redis.CallType key) gli)
     /\ outputChan gli' = outputChan gli ++ [errorMessage err]
     /\ metaPanel gli' = metaPanel gli
     /\ detail gli' = detail gli)
  /\ (forall keyType err,
        Redis.Type_ rc key = Ok keyType ->
        Redis.TTL rc key = Err err ->
        gli' = send (errorMessage err)
                 (issue (Redis.CallTTL key) (issue (Redis.CallType key) gli))
        /\ outputChan gli' = outputChan gli ++ [errorMessage err]
        /\ metaPanel gli' = metaPanel gli
        /\ detail gli' = detail gli)
  /\ (forall keyType ttl call err,
        Redis.Type_ rc key = Ok keyType ->
        Redis.TTL rc key = Ok ttl ->
        valueFetch rc key keyType = Some (call, Some err) ->
        gli' = send (errorMessage err)
                 (issue call
                    (resetDetail
                       (issue (Redis.CallTTL key)
                          (issue (Redis.CallType key) gli))))
        /\ outputChan gli' = outputChan gli ++ [errorMessage err]
        /\ metaPanel gli' = metaPanel gli
        /\ detail gli' = detail (resetDetail gli)).
Proof.
  intro gli'. subst gli'. unfold itemSelectedHandler.
  split; [|split].
  - intros err ->. now repeat split.
  - intros keyType err -> ->. now repeat split.
  - intros keyType ttl call err -> -> Hfetch.
    rewrite (renderValue_error rc key keyType call err _ Hfetch).
    now repeat split.
Qed.

Lemma key_selection_fetch_error_witness :
  let rc := Store.disconnected (Store.client Store.demo) in
  outputChan (itemSelectedHandler rc 0 "a" demoGli) = [errorMessage "EOF"]
  /\ detail (itemSelectedHandler rc 0 "a" demoGli)
     = detail (resetDetail demoGli).
Proof.
  intro rc.
  destruct (proj2 (proj2 (key_selection_fetch_error rc 0 "a" demoGli))
              "string" "-1ns" (Redis.CallGet "a") "EOF"
              eq_refl eq_refl eq_refl)
    as (_ & Hout & _ & Hdetail).
  split; [exact Hout | exact Hdetail].
Defined.

(** C2 as stated fails for the fetch of the value: with the string [a]
    shown, selecting it again while [Get] fails sends the one error message
    and leaves the string view empty, out of the main panel and out of the
    focus ring. *)
Lemma value_fetch_error_counterexample :
  let rc := Store.disconnected (Store.client Store.demo) in
  exists g1 g2,
    boot stringShownRun = Some g1
    /\ Redis.Type_ rc "a" = Ok "string"
    /\ Redis.Get rc "a" = Err "EOF"
    /\ step rc (EvKeyItem 0) g1 = Some g2
    /\ outputChan g2 = outputChan g1 ++ [errorMessage "EOF"]
    /\ tview.Text (mainStringView g1) = " hello"
    /\ tview.Text (mainStringView g2) = ""
    /\ In MainStringView (map tview.Item (mainPanel g1))
    /\ mainPanel g2 = []
    /\ len (focusPrimitives g1) = 6
    /\ len (focusPrimitives g2) = 5
    /\ detail g2 <> detail g1.
Proof.
  intro rc. eexists. eexists.
  split; [vm_compute; reflexivity|].
  split; [reflexivity|]. split; [reflexivity|].
  split; [vm_compute; reflexivity|].
  split; [reflexivity|]. split; [reflexivity|]. split; [reflexivity|].
  split; [simpl; auto|]. split; [reflexivity|]. split; [reflexivity|].
  split; [reflexivity|]. discriminate.
Qed.

(** ** The range fetched for lists and sorted sets *)

(** The range [0, 1000] of the store holds 1001 elements when the list has
    that many. *)
Lemma range_0_1000_length {A : Type} (l : list A) :
  List.length (Store.range l 0 1000) = Nat.min 1001 (List.length l).
Proof.
  unfold Store.range, len.
  change (Z.ltb 0 0) with false. change (Z.ltb 1000 0) with false.
  cbv iota.
  destruct (Z.gtb_spec 0 (Z.min 1000 (Z.of_nat (List.length l) - 1)))
    as [Hgt|Hle].
  - destruct l as [|x l]; [reflexivity|].
    cbn [List.length] in Hgt. lia.
  - rewrite length_firstn. simpl skipn. lia.
Qed.

(** C6 at a list and at a sorted set of 1001 elements: the fetch issued is
    the range from 0 to 1000, the store, which takes both ends inclusive,
    returns the 1001 elements, and the list view shows 1001 rows. *)
Theorem range_fetch_1001 :
  let rc := Store.client bigStore in
  let gl := itemSelectedHandler rc 0 "l" demoGli in
  let gz := itemSelectedHandler rc 1 "z" demoGli in
  redisCalls gl
  = [Redis.CallType "l"; Redis.CallTTL "l"; Redis.CallLRange "l" 0 1000]
  /\ List.length (tview.Items (mainListView gl)) = 1001%nat
  /\ redisCalls gz
     = [Redis.CallType "z"; Redis.CallTTL "z";
        Redis.CallZRangeWithScores "z" 0 1000]
  /\ List.length (tview.Items (mainListView gz)) = 1001%nat.
Proof.
  vm_compute. repeat split.
Qed.


(** * Further properties *)

(** ** The filter of the focus ring *)

(** X1: [primitivesFilter] returns the entries that satisfy the filter, in
    their order and with their multiplicity; filtering again changes
    nothing, and nothing is ever added. *)
Theorem primitivesFilter_keeps (items : list primitiveKey)
    (filter : primitiveKey -> bool) :
  primitivesFilter items filter = List.filter filter items
  /\ (forall item,
        In item (primitivesFilter items filter)
        <-> In item items /\ filter item = true)
  /\ primitivesFilter (primitivesFilter items filter) filter
     = primitivesFilter items filter
  /\ (List.length (primitivesFilter items filter) <= List.length items)%nat.
Proof.
  assert (Heq : forall l, primitivesFilter l filter = List.filter filter l).
  { induction l as [|x l IH]; simpl; [reflexivity|].
    rewrite IH. reflexivity. }
  split; [apply Heq|]. split; [|split].
  - intro item. rewrite Heq. apply filter_In.
  - rewrite !Heq. induction items as [|x l IH]; simpl; [reflexivity|].
    destruct (filter x) eqn:Hx; simpl; [rewrite Hx, IH|]; auto.
  - rewrite Heq. apply filter_length_le.
Qed.

(** ** The dispatcher changes the focus and the mode, nothing else *)

Lemma InputCapture_frame (kb : KeyBindings) (k : Key) (gli gli' : RedisGli)
    (ev : option Key) :
  InputCapture kb k gli = Some (gli', ev) ->
  exists i f st cm rp out,
    gli' = set_currentFocusIndex i (set_focus f (set_stopped st
             (set_commandMode cm (set_rightPanel rp
                (set_outputChan out gli))))).
Proof.
  unfold InputCapture.
  set (g := if configDebug gli then _ else gli).
  assert (Hg : exists out, g = set_outputChan out gli).
  { subst g. destruct (configDebug gli).
    - eexists. reflexivity.
    - exists (outputChan gli). now destruct gli. }
  clearbody g. destruct Hg as (out & ->).
  assert (Hframe : forall R : RedisGli,
    R = set_currentFocusIndex (currentFocusIndex R)
          (set_focus (focus R) (set_stopped (stopped R)
             (set_commandMode (commandMode R)
                (set_rightPanel (rightPanel R)
                   (set_outputChan (outputChan R) gli))))) ->
    exists i f st cm rp out,
      R = set_currentFocusIndex i (set_focus f (set_stopped st
            (set_commandMode cm (set_rightPanel rp
               (set_outputChan out gli)))))).
  { intros R HR. do 6 eexists. exact HR. }
  destruct (String.eqb (SearchKey kb k) "switch_focus").
  { unfold switchFocus. destruct (index_at _ _) as [pk|]; [|discriminate].
    intro H; injection H as <- <-. apply Hframe. reflexivity. }
  destruct (String.eqb (SearchKey kb k) "quit").
  { intro H; injection H as <- <-. apply Hframe. reflexivity. }
  destruct (String.eqb (SearchKey kb k) "command").
  { intro H; injection H as <- <-. unfold toggleCommand.
    destruct (commandMode (set_outputChan out gli)).
    - apply Hframe. reflexivity.
    - match goal with |- context [focusCommandForm ?l ?s] =>
        destruct (focusCommandForm_shape l s) as (i & f & -> & _)
      end.
      apply Hframe. reflexivity. }
  intro H; injection H as <- <-.
  match goal with |- context [focusByKey ?l ?n ?s] =>
    destruct (focusByKey_shape l n s) as [-> | (i & pv & _ & _ & ->)]
  end.
  - apply Hframe. destruct gli. reflexivity.
  - apply Hframe. reflexivity.
Qed.

(** ** The ring and the main panel go together *)

Lemma resetDetail_empties (gli : RedisGli) :
  panel_ok gli ->
  focusPrimitives (resetDetail gli) = baseRing
  /\ mainPanel (resetDetail gli) = [].
Proof.
  intros (views & panel & Hin & Hr & Hp). unfold resetDetail. simpl.
  rewrite Hr, Hp. simpl in Hin.
  destruct Hin as [H|[H|[H|[H|[H|[]]]]]]; injection H as <- <-;
    split; reflexivity.
Qed.

Lemma renderValue_layout (rc : Redis.Client) (key keyType : string)
    (gli : RedisGli) :
  exists gli' views panel,
    (renderValue rc key keyType gli = Return gli'
     \/ renderValue rc key keyType gli = Continue gli')
    /\ In (views, panel) (tl viewLayouts)
    /\ focusPrimitives gli' = focusPrimitives gli ++ views
    /\ mainPanel gli' = mainPanel gli ++ panel.
Proof.
  unfold renderValue.
  repeat match goal with
         | |- context [String.eqb keyType ?t] =>
             destruct (String.eqb keyType t)
         end;
    try match goal with
        | |- context [match ?r with Ok _ => _ | Err _ => _ end] =>
            destruct r
        end.
  all: first
    [ solve [ eexists; exists [], [];
              split; [first [left; reflexivity | right; reflexivity]|];
              split; [now left|];
              split; simpl; symmetry; apply app_nil_r ]
    | solve [ eexists; exists [stringEntry], [flexOf MainStringView 0 1];
              split; [right; reflexivity|]; split; [simpl; auto|];
              split; reflexivity ]
    | solve [ eexists; exists [listEntry], [flexOf MainListView 0 1];
              split; [right; reflexivity|]; split; [simpl; auto|];
              split; reflexivity ]
    | eexists; exists [hashEntry; stringEntry],
        [flexOf MainHashView 0 3; flexOf MainStringView 0 7];
      split; [right; reflexivity|]; split; [simpl; auto|];
      split; simpl; unfold tview.AddItem; rewrite <- ?app_assoc;
      reflexivity ].
Qed.

Lemma itemSelectedHandler_panel (rc : Redis.Client) (index : Z) (key : string)
    (gli : RedisGli) :
  panel_ok gli -> panel_ok (itemSelectedHandler rc index key gli).
Proof.
  intro Hok. unfold itemSelectedHandler.
  destruct (Redis.Type_ rc key) as [keyType|err]; [|exact Hok].
  destruct (Redis.TTL rc key) as [ttl|err]; [|exact Hok].
  set (g := resetDetail _).
  assert (Hg : focusPrimitives g = baseRing /\ mainPanel g = []).
  { subst g. apply (resetDetail_empties
                      (issue (Redis.CallTTL key)
                         (issue (Redis.CallType key) gli))).
    exact Hok. }
  destruct Hg as (Hr & Hp).
  destruct (renderValue_layout rc key keyType g)
    as (g' & views & panel & Hflow & Hin & Hr' & Hp').
  rewrite Hr in Hr'. rewrite Hp in Hp'. simpl in Hp'.
  assert (Hok' : panel_ok g').
  { exists views, panel. split; [now right|]. auto. }
  destruct Hflow as [-> | ->]; exact Hok'.
Qed.

Lemma selectItem_panel (rc : Redis.Client) (l : tview.List) (n : nat)
    (gli : RedisGli) :
  panel_ok gli -> panel_ok (selectItem rc l n gli).
Proof.
  intro H. unfold selectItem.
  destruct (nth_error (tview.Items l) n) as [[m sec [[i k|k f]|]]|];
    simpl; try assumption.
  - now apply itemSelectedHandler_panel.
  - unfold hashFieldSelected. destruct (Redis.HGet rc k f); exact H.
Qed.

Lemma step_panel (rc : Redis.Client) (ev : Event) (gli gli' : RedisGli) :
  panel_ok gli -> step rc ev gli = Some gli' -> panel_ok gli'.
Proof.
  intros Hok Hstep. destruct ev; simpl in Hstep.
  - destruct (InputCapture kb k gli) as [[g e]|] eqn:Hic; [|discriminate].
    injection Hstep as <-.
    destruct (InputCapture_frame _ _ _ _ _ Hic)
      as (i & f & st & cm & rp & out & ->).
    exact Hok.
  - injection Hstep as <-. exact Hok.
  - injection Hstep as <-. unfold commandDone.
    destruct (negb _); [exact Hok|]. destruct (locked gli); exact Hok.
  - injection Hstep as <-. exact Hok.
  - injection Hstep as <-. unfold runQueued.
    destruct (queuedUpdates gli) as [|c q]; [exact Hok|].
    unfold executeCommand. destruct (Redis.Execute rc c); exact Hok.
  - injection Hstep as <-. exact Hok.
  - injection Hstep as <-.
    pose proof (searchDone_core rc k gli) as Hc.
    unfold searchDone in *.
    destruct (negb (Z.eqb k tcell.KeyEnter)); [exact Hok|].
    destruct (String.eqb (searchPanel gli) ""
              || String.eqb (searchPanel gli) "*")%bool.
    + destruct (Redis.Scan rc 0 (searchPanel gli) (maxKeyLimit gli))
        as [[keys c]|err]; [rewrite addKeyItems_eq|]; exact Hok.
    + destruct (Redis.Keys rc (searchPanel gli)) as [keys|err];
        [rewrite addKeyItems_eq|]; exact Hok.
  - injection Hstep as <-. now apply selectItem_panel.
  - injection Hstep as <-. now apply selectItem_panel.
  - injection Hstep as <-. unfold initialLoad.
    destruct (Redis.ServerInfo rc) as [info [e|]]; simpl;
      destruct (Redis.Scan rc 0 "*" (maxKeyLimit gli)) as [[keys c]|err];
      try rewrite addKeyItems_eq; exact Hok.
Qed.

Lemma reachable_panel_ok (gli : RedisGli) : reachable gli -> panel_ok gli.
Proof.
  induction 1 as [m v g d gli Hnew | rc ev gli gli' _ IH _ Hstep].
  - unfold NewRedisGli in Hnew.
    destruct (slice_0_8 g); [|discriminate]. injection Hnew as <-.
    exists [], [flexOf WelcomeScreen 0 1].
    split; [now left|]. split; reflexivity.
  - eapply step_panel; eauto.
Qed.

(** X2: in the running application the focus ring is the five entries of
    the constructor (output, command input, command result, search, key
    list) followed by the entries of the view that is mounted, and the main
    panel holds exactly the views entered in the ring, or the welcome screen
    before the first selection: no entry is stale or duplicated, no widget
    is entered twice. *)
Theorem reachable_ring_and_panel (gli : RedisGli) :
  reachable gli ->
  (exists views panel,
     In (views, panel) viewLayouts
     /\ focusPrimitives gli = baseRing ++ views
     /\ mainPanel gli = panel)
  /\ NoDup (map Primitive_ (focusPrimitives gli))
  /\ (forall p,
        In p [MainStringView; MainHashView; MainListView] ->
        In p (map Primitive_ (focusPrimitives gli))
        <-> In p (map tview.Item (mainPanel gli))).
Proof.
  intro Hreach. pose proof (reachable_panel_ok gli Hreach) as Hok.
  split; [exact Hok|].
  destruct Hok as (views & panel & Hin & -> & ->). simpl in Hin.
  destruct Hin as [H|[H|[H|[H|[H|[]]]]]]; injection H as <- <-.
  all: split;
    [ simpl; repeat (constructor; [simpl; intuition discriminate|]);
      constructor
    | intros p Hp; simpl in Hp;
      destruct Hp as [<-|[<-|[<-|[]]]]; simpl;
      split; intro Hq; intuition discriminate ].
Qed.

Lemma reachable_ring_and_panel_witness :
  NoDup (map Primitive_ (focusPrimitives demoGli)).
Proof.
  apply (reachable_ring_and_panel demoGli).
  apply (reachable_start 10 "1.0" "01234567" false). reflexivity.
Defined.

(** X3: in the running application the right panel always holds the help
    panel, the meta panel, one centre panel and the output panel, in this
    order; the centre is the command panel in command mode and the main
    panel otherwise, never both and never neither. *)
Theorem reachable_layout (gli : RedisGli) :
  reachable gli ->
  map tview.Item (rightPanel gli)
  = [HelpPanel; MetaPanel;
     if commandMode gli then CommandPanel else MainPanel; OutputPanel].
Proof.
  intro Hreach. apply reachable_invariant in Hreach.
  destruct Hreach as (_ & _ & _ & Hlay). unfold layout_ok in Hlay.
  rewrite Hlay. reflexivity.
Qed.

Lemma reachable_layout_witness :
  map tview.Item (rightPanel demoGli)
  = [HelpPanel; MetaPanel; MainPanel; OutputPanel].
Proof.
  apply (reachable_layout demoGli).
  apply (reachable_start 10 "1.0" "01234567" false). reflexivity.
Defined.

(** ** The running application never panics *)

(** X4: every sequence of events runs to its end from any state of the
    running application: no handler panics, in particular the indexing of
    [switch_focus] never leaves the ring. *)
Theorem reachable_run_total (evs : list (Redis.Client * Event))
    (gli : RedisGli) :
  reachable gli ->
  Forall (fun e => valid_event (snd e)) evs ->
  exists gli', run evs gli = Some gli' /\ reachable gli'.
Proof.
  intros Hreach Hv. revert gli Hreach.
  induction Hv as [|[rc ev] evs Hev _ IH]; intros gli Hreach.
  - exists gli. split; [reflexivity|exact Hreach].
  - destruct (reachable_step_total rc ev gli Hreach) as (g & Hstep).
    destruct (IH g (reachable_step rc ev gli g Hreach Hev Hstep))
      as (gli' & Hrun & Hreach').
    exists gli'. simpl. rewrite Hstep. auto.
Qed.

Lemma reachable_run_total_witness :
  exists gli',
    run [ (Store.client Store.demo, EvInput keyBindings tcell.KeyTab);
          (Store.client Store.demo, EvKeyItem 0) ] demoGli = Some gli'
    /\ reachable gli'.
Proof.
  apply (reachable_run_total _ demoGli).
  - apply (reachable_start 10 "1.0" "01234567" false). reflexivity.
  - repeat apply Forall_cons; try exact I.
    + apply Permutation_refl.
    + apply Forall_nil.
Defined.

(** X5: from an index that is not below -1, [switch_focus] panics exactly
    when the ring is empty. *)
Theorem switchFocus_panics_iff_empty (gli : RedisGli) :
  -1 <= currentFocusIndex gli ->
  (switchFocus gli = None <-> focusPrimitives gli = []).
Proof.
  intro Hidx. unfold switchFocus.
  set (next := if Z.gtb _ _ then 0 else _).
  split.
  - intro H. destruct (focusPrimitives gli) as [|pk ring] eqn:Hr;
      [reflexivity|exfalso].
    assert (Hnext : 0 <= next < len (pk :: ring)).
    { subst next. unfold len. cbn [List.length].
      destruct (Z.gtb_spec (currentFocusIndex gli + 1)
                  (Z.of_nat (S (List.length ring)) - 1)); lia. }
    unfold index_at in H. destruct (Z.ltb_spec next 0); [lia|].
    destruct (nth_error (pk :: ring) (Z.to_nat next)) eqn:Hnth;
      [discriminate|].
    apply nth_error_None in Hnth. unfold len in Hnext. lia.
  - intro Hr. rewrite Hr. unfold index_at.
    destruct (Z.ltb next 0); [reflexivity|].
    now destruct (Z.to_nat next).
Qed.

Lemma switchFocus_panics_iff_empty_witness :
  switchFocus (set_focusPrimitives [] demoGli) = None.
Proof.
  apply (proj2 (switchFocus_panics_iff_empty
                  (set_focusPrimitives [] demoGli) ltac:(simpl; lia))).
  reflexivity.
Defined.

(** X6: in the running application the lock is held exactly while one
    command execution is queued: with the lock held the queue holds one
    command, with the lock free it is empty, so two commands are never in
    flight. *)
Theorem reachable_one_in_flight (gli : RedisGli) :
  reachable gli ->
  (List.length (queuedUpdates gli) <= 1)%nat
  /\ (locked gli = true <-> queuedUpdates gli <> []).
Proof.
  intro Hreach. apply reachable_invariant in Hreach.
  destruct Hreach as (_ & _ & Hgate & _). unfold gate_ok in Hgate.
  destruct (locked gli).
  - destruct Hgate as (c & ->). simpl. split; [lia|].
    split; [discriminate|reflexivity].
  - rewrite Hgate. simpl. split; [lia|].
    split; [discriminate|intro H; now contradiction H].
Qed.

Lemma reachable_one_in_flight_witness :
  (List.length (queuedUpdates demoGli) <= 1)%nat.
Proof.
  apply (reachable_one_in_flight demoGli).
  apply (reachable_start 10 "1.0" "01234567" false). reflexivity.
Defined.

(** ** A key selection that succeeds *)

Lemma renderValue_success (rc : Redis.Client) (key keyType : string)
    (gli : RedisGli) :
  fetchSucceeds rc key keyType ->
  exists gli',
    renderValue rc key keyType gli = Continue gli'
    /\ focusPrimitives gli' = focusPrimitives gli ++ fst (viewsOf keyType)
    /\ mainPanel gli' = mainPanel gli ++ snd (viewsOf keyType)
    /\ outputChan gli' = outputChan gli
    /\ metaPanel gli' = metaPanel gli
    /\ redisCalls gli'
       = redisCalls gli
         ++ match valueFetch rc key keyType with
            | Some (call, _) => [call]
            | None => []
            end.
Proof.
  unfold fetchSucceeds, valueFetch, renderValue, viewsOf.
  repeat match goal with
         | |- context [String.eqb keyType ?t] =>
             destruct (String.eqb keyType t)
         end;
    try match goal with
        | |- context [errorOf ?r] => destruct r
        end;
    simpl; intro H; try contradiction;
    eexists; (split; [reflexivity|]); simpl;
    unfold tview.AddItem; rewrite <- ?app_assoc, ?app_nil_r;
    repeat split; reflexivity.
Qed.

(** X7: when the three fetches of a key selection succeed (or the type has
    no fetch), the calls issued are the type, the TTL and the fetch of that
    type, in this order, one success message naming the key, its type and
    its TTL is sent, and the meta panel shows the same three. *)
Theorem key_selection_success (rc : Redis.Client) (index : Z)
    (key keyType ttl : string) (gli : RedisGli) :
  Redis.Type_ rc key = Ok keyType ->
  Redis.TTL rc key = Ok ttl ->
  fetchSucceeds rc key keyType ->
  let gli' := itemSelectedHandler rc index key gli in
  redisCalls gli' = redisCalls gli ++ selectionCalls rc key keyType
  /\ outputChan gli' = outputChan gli ++ [successMessage key keyType ttl]
  /\ tview.Text (metaPanel gli') = metaText key keyType ttl.
Proof.
  intros Htype Httl Hfetch gli'. subst gli'.
  unfold itemSelectedHandler. rewrite Htype, Httl.
  destruct (renderValue_success rc key keyType
              (resetDetail (issue (Redis.CallTTL key)
                              (issue (Redis.CallType key) gli))) Hfetch)
    as (g & -> & _ & _ & Hout & Hmeta & Hcalls).
  simpl. rewrite Hout, Hcalls. simpl.
  unfold selectionCalls. rewrite <- !app_assoc. auto.
Qed.

Lemma key_selection_success_witness :
  outputChan
    (itemSelectedHandler (Store.client Store.demo) 0 "a" demoGli)
  = [successMessage "a" "string" "-1ns"].
Proof.
  apply (key_selection_success (Store.client Store.demo) 0 "a" "string"
           "-1ns" demoGli eq_refl eq_refl I).
Defined.

(** X8: in the running application a key selection that succeeds leaves
    exactly the view of the key's type mounted, whatever was shown before:
    the ring is the five fixed entries followed by the entries of that view,
    and the main panel holds that view alone (the hash view with the string
    view for a hash, nothing for a type without a view). *)
Theorem selection_mounts_one_view (rc : Redis.Client) (index : Z)
    (key keyType ttl : string) (gli : RedisGli) :
  reachable gli ->
  Redis.Type_ rc key = Ok keyType ->
  Redis.TTL rc key = Ok ttl ->
  fetchSucceeds rc key keyType ->
  let gli' := itemSelectedHandler rc index key gli in
  focusPrimitives gli' = baseRing ++ fst (viewsOf keyType)
  /\ mainPanel gli' = snd (viewsOf keyType).
Proof.
  intros Hreach Htype Httl Hfetch gli'. subst gli'.
  apply reachable_panel_ok in Hreach.
  unfold itemSelectedHandler. rewrite Htype, Httl.
  destruct (resetDetail_empties
              (issue (Redis.CallTTL key) (issue (Redis.CallType key) gli))
              Hreach) as (Hr & Hp).
  destruct (renderValue_success rc key keyType
              (resetDetail (issue (Redis.CallTTL key)
                              (issue (Redis.CallType key) gli))) Hfetch)
    as (g & -> & Hr' & Hp' & _).
  simpl. rewrite Hr', Hp', Hr, Hp. auto.
Qed.

Lemma selection_mounts_one_view_witness :
  exists gli,
    boot staleIndexRun = Some gli
    /\ focusPrimitives
         (itemSelectedHandler (Store.client Store.demo) 1 "b" gli)
       = baseRing ++ [listEntry].
Proof.
  destruct (boot staleIndexRun) as [gli|] eqn:Hboot;
    [|vm_compute in Hboot; discriminate].
  exists gli. split; [reflexivity|].
  apply (selection_mounts_one_view (Store.client Store.demo) 1 "b" "list"
           "-1ns" gli (boot_reachable _ _ staleIndexRun_valid Hboot)
           eq_refl eq_refl I).
Defined.

Lemma renderValue_unknown (rc : Redis.Client) (key keyType : string)
    (gli : RedisGli) :
  ~ In keyType ["string"; "list"; "set"; "zset"; "hash"] ->
  renderValue rc key keyType gli = Continue gli.
Proof.
  intro Hnot. unfold renderValue.
  assert (Hne : forall t,
            In t ["string"; "list"; "set"; "zset"; "hash"] ->
            String.eqb keyType t = false).
  { intros t Ht. apply String.eqb_neq. intros ->. contradiction. }
  rewrite (Hne "string"), (Hne "list"), (Hne "set"), (Hne "zset"),
    (Hne "hash") by (simpl; auto 6).
  reflexivity.
Qed.

Lemma resetDetail_fields (gli : RedisGli) :
  redisCalls (resetDetail gli) = redisCalls gli
  /\ outputChan (resetDetail gli) = outputChan gli
  /\ metaPanel (resetDetail gli) = metaPanel gli
  /\ tview.Text (mainStringView (resetDetail gli)) = ""
  /\ tview.Items (mainHashView (resetDetail gli)) = []
  /\ tview.Items (mainListView (resetDetail gli)) = [].
Proof. repeat split; reflexivity. Qed.

(** X9: in the running application, selecting a key whose type is none of
    string, list, set, zset and hash issues the type and TTL fetches only,
    still resets the detail: the three views are emptied, none is mounted
    and none is in the ring; the success message is sent all the same. *)
Theorem unknown_type_selection (rc : Redis.Client) (index : Z)
    (key keyType ttl : string) (gli : RedisGli) :
  reachable gli ->
  Redis.Type_ rc key = Ok keyType ->
  Redis.TTL rc key = Ok ttl ->
  ~ In keyType ["string"; "list"; "set"; "zset"; "hash"] ->
  let gli' := itemSelectedHandler rc index key gli in
  redisCalls gli'
  = redisCalls gli ++ [Redis.CallType key; Redis.CallTTL key]
  /\ focusPrimitives gli' = baseRing
  /\ mainPanel gli' = []
  /\ tview.Text (mainStringView gli') = ""
  /\ tview.Items (mainHashView gli') = []
  /\ tview.Items (mainListView gli') = []
  /\ outputChan gli' = outputChan gli ++ [successMessage key keyType ttl].
Proof.
  intros Hreach Htype Httl Hnot gli'. subst gli'.
  apply reachable_panel_ok in Hreach.
  unfold itemSelectedHandler. rewrite Htype, Httl.
  destruct (resetDetail_empties
              (issue (Redis.CallTTL key) (issue (Redis.CallType key) gli))
              Hreach) as (Hr & Hp).
  destruct (resetDetail_fields
              (issue (Redis.CallTTL key) (issue (Redis.CallType key) gli)))
    as (Hc & Ho & _ & Hs & Hh & Hl).
  generalize dependent
    (resetDetail
       (issue (Redis.CallTTL key) (issue (Redis.CallType key) gli))).
  intros g Hr Hp Hc Ho Hs Hh Hl.
  rewrite (renderValue_unknown rc key keyType g Hnot).
  simpl.
  rewrite Hc, Ho, Hr, Hp, Hs, Hh, Hl. simpl. rewrite <- app_assoc.
  repeat split; reflexivity.
Qed.

Lemma unknown_type_selection_witness :
  outputChan
    (itemSelectedHandler (Store.client Store.demo) 0 "missing" demoGli)
  = [successMessage "missing" "none" "-1ns"].
Proof.
  apply (unknown_type_selection (Store.client Store.demo) 0 "missing"
           "none" "-1ns" demoGli).
  - apply (reachable_start 10 "1.0" "01234567" false). reflexivity.
  - reflexivity.
  - reflexivity.
  - simpl. intuition discriminate.
Defined.

Lemma addHashRows_eq (key : string) (hashKeys : list string)
    (view : tview.List) :
  addHashRows key hashKeys view
  = withRows (map (hashRow key) (enumerate hashKeys)) view.
Proof.
  unfold addHashRows. generalize (enumerate hashKeys) as l.
  intro l; revert view; induction l as [|[i v] l IH]; intro view; simpl.
  - now rewrite withRows_nil.
  - rewrite IH. unfold withRows; simpl. now rewrite <- app_assoc.
Qed.

(** X10: what a successful selection shows, whatever was shown before.  A
    string: its value after a space in the string view, the two lists
    empty.  A set: one row per member, as for a list, without secondary
    text.  A sorted set: one row per member with its score as secondary
    text, which is switched on.  A hash: one row per field name in the hash
    view, each with the closure of that field, and an empty string view. *)
Theorem detail_view_contents (rc : Redis.Client) (index : Z)
    (key ttl : string) (gli : RedisGli) :
  Redis.TTL rc key = Ok ttl ->
  let gli' := itemSelectedHandler rc index key gli in
  (forall value,
     Redis.Type_ rc key = Ok "string" -> Redis.Get rc key = Ok value ->
     tview.Text (mainStringView gli') = " " +++ value
     /\ tview.Items (mainHashView gli') = []
     /\ tview.Items (mainListView gli') = [])
  /\ (forall members,
        Redis.Type_ rc key = Ok "set" -> Redis.SMembers rc key = Ok members ->
        tview.Items (mainListView gli') = map viewRow (enumerate members)
        /\ tview.showSecondaryText (mainListView gli') = false)
  /\ (forall values,
        Redis.Type_ rc key = Ok "zset" ->
        Redis.ZRangeWithScores rc key 0 1000 = Ok values ->
        tview.Items (mainListView gli') = map zRow (enumerate values)
        /\ tview.showSecondaryText (mainListView gli') = true)
  /\ (forall fields,
        Redis.Type_ rc key = Ok "hash" -> Redis.HKeys rc key = Ok fields ->
        tview.Items (mainHashView gli')
        = map (hashRow key) (enumerate fields)
        /\ tview.Text (mainStringView gli') = ""
        /\ tview.Items (mainListView gli') = []).
Proof.
  intros Httl gli'. subst gli'. unfold itemSelectedHandler.
  repeat split; intros; rewrite H, Httl; unfold renderValue; simpl;
    rewrite H0; simpl;
    rewrite ?addListRows_eq, ?addZRows_eq, ?addHashRows_eq; reflexivity.
Qed.

Lemma detail_view_contents_witness :
  tview.Items
    (mainHashView
       (itemSelectedHandler (Store.client Store.demo) 2 "h" demoGli))
  = map (hashRow "h") (enumerate ["f"; "g"]).
Proof.
  apply (proj2 (proj2 (proj2
           (detail_view_contents (Store.client Store.demo) 2 "h" "-1ns"
              demoGli eq_refl))) ["f"; "g"] eq_refl eq_refl).
Defined.

(** ** Rows and their closures *)

Lemma nth_error_enumerate {A : Type} (l : list A) (n : nat) (x : A) :
  nth_error l n = Some x ->
  nth_error (enumerate l) n = Some (Z.of_nat n, x).
Proof.
  intro H. unfold enumerate. now rewrite (enumerate_from_nth l 0 n x H).
Qed.

(** X11: each row of the key list carries the closure of its own key.
    When the list holds the rows of [keys], selecting row [n] runs the
    key-selected handler on the [n]-th key, and selecting a row past the end
    does nothing. *)
Theorem key_row_selection (rc : Redis.Client) (keys : list string)
    (n : nat) (gli : RedisGli) :
  tview.Items (keyItemsPanel gli) = map keyRow (enumerate keys) ->
  (forall k,
     nth_error keys n = Some k ->
     selectItem rc (keyItemsPanel gli) n gli
     = itemSelectedHandler rc (Z.of_nat n) k gli)
  /\ ((List.length keys <= n)%nat ->
      selectItem rc (keyItemsPanel gli) n gli = gli).
Proof.
  intro Hitems. unfold selectItem. rewrite Hitems. split.
  - intros k Hk.
    rewrite nth_error_map, (nth_error_enumerate _ _ _ Hk). reflexivity.
  - intro Hlen.
    assert (Hnone : nth_error (map keyRow (enumerate keys)) n = None).
    { apply nth_error_None.
      unfold enumerate. now rewrite length_map, enumerate_from_length. }
    now rewrite Hnone.
Qed.

Lemma key_row_selection_witness :
  let rc := Store.client Store.demo in
  let gli := searchDone rc tcell.KeyEnter demoGli in
  selectItem rc (keyItemsPanel gli) 1 gli = itemSelectedHandler rc 1 "b" gli.
Proof.
  intros rc gli.
  apply (proj1 (key_row_selection rc ["a"; "b"; "h"] 1 gli eq_refl) "b").
  reflexivity.
Defined.

(** X12: each row of the hash view carries the closure of its own field.
    After a hash [key] with the fields [fields] is selected, selecting row
    [n] fetches the [n]-th field of that key and nothing else: on success
    the string view shows the value after a space under the title
    [" Value: <field> "]; on failure one error message is sent and the view
    is left as it is.  A row past the end does nothing. *)
Theorem hash_row_selection (rc rc' : Redis.Client) (index : Z)
    (key ttl : string) (fields : list string) (n : nat) (gli : RedisGli) :
  Redis.Type_ rc key = Ok "hash" ->
  Redis.TTL rc key = Ok ttl ->
  Redis.HKeys rc key = Ok fields ->
  let gli1 := itemSelectedHandler rc index key gli in
  let gli2 := selectItem rc' (mainHashView gli1) n gli1 in
  (forall field,
     nth_error fields n = Some field ->
     redisCalls gli2 = redisCalls gli1 ++ [Redis.CallHGet key field]
     /\ (forall val,
           Redis.HGet rc' key field = Ok val ->
           mainStringView gli2
           = {| tview.Text := " " +++ val;
                tview.Title := " Value: " +++ field +++ " " |}
           /\ outputChan gli2 = outputChan gli1)
     /\ (forall err,
           Redis.HGet rc' key field = Err err ->
           mainStringView gli2 = mainStringView gli1
           /\ outputChan gli2 = outputChan gli1 ++ [errorMessage err]))
  /\ ((List.length fields <= n)%nat -> gli2 = gli1).
Proof.
  intros Htype Httl Hkeys gli1 gli2.
  assert (Hitems : tview.Items (mainHashView gli1)
                   = map (hashRow key) (enumerate fields)).
  { apply (proj2 (proj2 (proj2
             (detail_view_contents rc index key ttl gli Httl)))
             fields Htype Hkeys). }
  subst gli2. unfold selectItem. rewrite Hitems. split.
  - intros field Hn.
    rewrite nth_error_map, (nth_error_enumerate _ _ _ Hn). simpl.
    unfold hashFieldSelected.
    destruct (Redis.HGet rc' key field) as [val|err].
    + split; [reflexivity|]. split.
      * intros v Hv. injection Hv as <-. split; reflexivity.
      * intros e He. discriminate.
    + split; [reflexivity|]. split.
      * intros v Hv. discriminate.
      * intros e He. injection He as <-. split; reflexivity.
  - intro Hlen.
    assert (Hnone : nth_error (map (hashRow key) (enumerate fields)) n
                    = None).
    { apply nth_error_None.
      unfold enumerate. now rewrite length_map, enumerate_from_length. }
    now rewrite Hnone.
Qed.

Lemma hash_row_selection_witness :
  let rc := Store.client Store.demo in
  let gli1 := itemSelectedHandler rc 2 "h" demoGli in
  redisCalls (selectItem rc (mainHashView gli1) 1 gli1)
  = redisCalls gli1 ++ [Redis.CallHGet "h" "g"].
Proof.
  intros rc gli1.
  apply (proj1 (hash_row_selection rc rc 2 "h" "-1ns" ["f"; "g"] 1 demoGli
                  eq_refl eq_refl eq_refl) "g" eq_refl).
Defined.

(** ** The outcome of a search *)

(** X13: a search that fails sends one error message and leaves the key
    list, the summary and the input as they were; a search that succeeds
    sends no message, replaces the rows of the key list by those of the keys
    found and writes their number in the summary; the text stays in the
    input. *)
Theorem search_outcome (rc : Redis.Client) (gli : RedisGli) :
  let gli' := searchDone rc tcell.KeyEnter gli in
  (forall err,
     searchResult rc (searchPanel gli) (maxKeyLimit gli) = Err err ->
     outputChan gli' = outputChan gli ++ [errorMessage err]
     /\ keyItemsPanel gli' = keyItemsPanel gli
     /\ summaryPanel gli' = summaryPanel gli
     /\ searchPanel gli' = searchPanel gli)
  /\ (forall keys,
        searchResult rc (searchPanel gli) (maxKeyLimit gli) = Ok keys ->
        outputChan gli' = outputChan gli
        /\ tview.Items (keyItemsPanel gli') = map keyRow (enumerate keys)
        /\ tview.Text (summaryPanel gli')
           = " Total matched: " +++ fmt_d (len keys)
        /\ searchPanel gli' = searchPanel gli).
Proof.
  intro gli'. subst gli'. unfold searchDone, searchResult. simpl.
  destruct (String.eqb (searchPanel gli) ""
            || String.eqb (searchPanel gli) "*")%bool.
  - destruct (Redis.Scan rc 0 (searchPanel gli) (maxKeyLimit gli))
      as [[keys c]|e]; split; intros x Hx; try discriminate;
      injection Hx as <-; rewrite ?addKeyItems_eq; now repeat split.
  - destruct (Redis.Keys rc (searchPanel gli)) as [keys|e];
      split; intros x Hx; try discriminate;
      injection Hx as <-; rewrite ?addKeyItems_eq; now repeat split.
Qed.

Lemma search_outcome_witness :
  let rc := Store.disconnected (Store.client Store.demo) in
  outputChan (searchDone rc tcell.KeyEnter demoGli) = [errorMessage "EOF"].
Proof.
  intro rc.
  apply (proj1 (search_outcome rc demoGli) "EOF" eq_refl).
Defined.

(** ** One command, from submission to completion *)

(** X14: a command submitted with the lock free runs once.  The submission
    sends the processing message, empties the input and takes the lock; when
    the queued update runs, the one call issued is the execution of that
    text, the completion message follows the processing message (success, or
    the error), the result panel takes the result on success and keeps its
    text on error, and in both cases the lock is released. *)
Theorem command_round (rc : Redis.Client) (text : string) (gli : RedisGli) :
  locked gli = false ->
  queuedUpdates gli = [] ->
  let gli1 := submit text gli in
  let gli2 := runQueued rc gli1 in
  (locked gli1 = true /\ commandFormPanel gli1 = ""
   /\ redisCalls gli1 = redisCalls gli)
  /\ redisCalls gli2 = redisCalls gli ++ [Redis.CallExecute text]
  /\ outputChan gli2
     = outputChan gli ++ [processingMessage text; completionMessage rc text]
  /\ locked gli2 = false
  /\ queuedUpdates gli2 = []
  /\ tview.Text (commandResultPanel gli2)
     = match Redis.Execute rc text with
       | Ok res => res
       | Err _ => tview.Text (commandResultPanel gli)
       end.
Proof.
  intros Hl Hq gli1 gli2. subst gli2 gli1.
  unfold submit, commandDone. simpl. rewrite Hl.
  unfold runQueued. simpl. rewrite Hq. simpl.
  unfold executeCommand, completionMessage.
  destruct (Redis.Execute rc text) as [res|err]; simpl;
    rewrite <- ?app_assoc; now repeat split.
Qed.

Lemma command_round_witness :
  outputChan (runQueued (Store.client Store.demo) (submit "PING" demoGli))
  = [processingMessage "PING";
     completionMessage (Store.client Store.demo) "PING"].
Proof.
  apply (command_round (Store.client Store.demo) "PING" demoGli
           eq_refl eq_refl).
Defined.

(** ** The pages *)

Lemma renderValue_pages (rc : Redis.Client) (key keyType : string)
    (gli : RedisGli) :
  exists gli',
    (renderValue rc key keyType gli = Return gli'
     \/ renderValue rc key keyType gli = Continue gli')
    /\ pages gli' = pages gli.
Proof.
  unfold renderValue.
  repeat match goal with
         | |- context [String.eqb keyType ?t] =>
             destruct (String.eqb keyType t)
         end;
    try match goal with
        | |- context [match ?r with Ok _ => _ | Err _ => _ end] =>
            destruct r
        end;
    eexists;
    (split; [first [left; reflexivity | right; reflexivity]|reflexivity]).
Qed.

Lemma itemSelectedHandler_pages (rc : Redis.Client) (index : Z)
    (key : string) (gli : RedisGli) :
  pages (itemSelectedHandler rc index key gli) = pages gli.
Proof.
  unfold itemSelectedHandler.
  destruct (Redis.Type_ rc key) as [keyType|err]; [|reflexivity].
  destruct (Redis.TTL rc key) as [ttl|err]; [|reflexivity].
  set (g := resetDetail _).
  assert (Hg : pages g = pages gli) by reflexivity.
  clearbody g.
  destruct (renderValue_pages rc key keyType g) as (g' & Hflow & Hp).
  destruct Hflow as [-> | ->]; simpl; congruence.
Qed.

Lemma selectItem_pages (rc : Redis.Client) (l : tview.List) (n : nat)
    (gli : RedisGli) :
  pages (selectItem rc l n gli) = pages gli.
Proof.
  unfold selectItem.
  destruct (nth_error (tview.Items l) n) as [[m sec [[i k|k f]|]]|];
    simpl; try reflexivity.
  - apply itemSelectedHandler_pages.
  - unfold hashFieldSelected. now destruct (Redis.HGet rc k f).
Qed.

Lemma step_pages (rc : Redis.Client) (ev : Event) (gli gli' : RedisGli) :
  pages_ok gli -> step rc ev gli = Some gli' -> pages_ok gli'.
Proof.
  intros Hok Hstep. destruct ev; simpl in Hstep.
  - destruct (InputCapture kb k gli) as [[g e]|] eqn:Hic; [|discriminate].
    injection Hstep as <-.
    destruct (InputCapture_frame _ _ _ _ _ Hic)
      as (i & f & st & cm & rp & out & ->).
    exact Hok.
  - injection Hstep as <-. exact Hok.
  - injection Hstep as <-. unfold commandDone.
    destruct (negb _); [exact Hok|].
    destruct (locked gli); [|exact Hok].
    unfold pages_ok in *. simpl.
    destruct Hok as [-> | ->]; right; reflexivity.
  - injection Hstep as <-. unfold alertDone, pages_ok in *. simpl.
    destruct Hok as [-> | ->]; left; reflexivity.
  - injection Hstep as <-. unfold runQueued.
    destruct (queuedUpdates gli) as [|c q]; [exact Hok|].
    unfold executeCommand. destruct (Redis.Execute rc c); exact Hok.
  - injection Hstep as <-. exact Hok.
  - injection Hstep as <-. unfold searchDone.
    destruct (negb (Z.eqb k tcell.KeyEnter)); [exact Hok|].
    destruct (String.eqb (searchPanel gli) ""
              || String.eqb (searchPanel gli) "*")%bool.
    + destruct (Redis.Scan rc 0 (searchPanel gli) (maxKeyLimit gli))
        as [[keys c]|err]; [rewrite addKeyItems_eq|]; exact Hok.
    + destruct (Redis.Keys rc (searchPanel gli)) as [keys|err];
        [rewrite addKeyItems_eq|]; exact Hok.
  - injection Hstep as <-. unfold pages_ok. now rewrite selectItem_pages.
  - injection Hstep as <-. unfold pages_ok. now rewrite selectItem_pages.
  - injection Hstep as <-. unfold initialLoad.
    destruct (Redis.ServerInfo rc) as [info [e|]]; simpl;
      destruct (Redis.Scan rc 0 "*" (maxKeyLimit gli)) as [[keys c]|err];
      try rewrite addKeyItems_eq; exact Hok.
Qed.

Lemma reachable_pages_ok (gli : RedisGli) : reachable gli -> pages_ok gli.
Proof.
  induction 1 as [m v g d gli Hnew | rc ev gli gli' _ IH _ Hstep].
  - left. reflexivity.
  - eapply step_pages; eauto.
Qed.

(** X15: in the running application the alert is never stacked: the pages
    are the base page, with one alert page above it while the notice is
    shown, however many submissions were refused; acknowledging the alert
    leaves the base page alone and gives the focus back to the command
    input. *)
Theorem reachable_alert_pages (gli : RedisGli) :
  reachable gli ->
  (pages gli = [basePage] \/ pages gli = [basePage; alertPage])
  /\ (forall text,
        locked gli = true -> pages (submit text gli) = [basePage; alertPage])
  /\ pages (alertDone gli) = [basePage]
  /\ focus (alertDone gli) = Some CommandFormPanel.
Proof.
  intro Hreach. apply reachable_pages_ok in Hreach.
  split; [exact Hreach|]. split; [|split].
  - intros text Hl. rewrite submit_locked by assumption. simpl.
    destruct Hreach as [-> | ->]; reflexivity.
  - unfold alertDone. simpl. destruct Hreach as [-> | ->]; reflexivity.
  - reflexivity.
Qed.

Lemma reachable_alert_pages_witness :
  pages (alertDone demoGli) = [basePage].
Proof.
  apply (reachable_alert_pages demoGli).
  apply (reachable_start 10 "1.0" "01234567" false). reflexivity.
Defined.

(** ** Resolution of keys *)

(** X16: whatever the order of the map, [SearchKey] answers with the name
    of an action the key is bound to, and with the empty string exactly for
    a key bound to no action. *)
Theorem SearchKey_sound (kb : KeyBindings) (k : Key) :
  iteration_order kb ->
  ((exists bind, In (SearchKey kb k, bind) keyBindings /\ In k bind)
   \/ (SearchKey kb k = ""
       /\ forall action bind, In (action, bind) keyBindings -> ~ In k bind))
  /\ (SearchKey kb k = "" <->
      forall action bind, In (action, bind) keyBindings -> ~ In k bind).
Proof.
  intro Hperm.
  assert (Hcases :
    (exists bind, In (SearchKey kb k, bind) keyBindings /\ In k bind)
    \/ (SearchKey kb k = ""
        /\ forall action bind, In (action, bind) keyBindings -> ~ In k bind)).
  { destruct (SearchKey_entry kb k) as [(bind & Hin & Hk) | (Hnone & Hno)].
    - left. exists bind. split; [|exact Hk].
      apply (Permutation_in _ (Permutation_sym Hperm)). exact Hin.
    - right. split; [exact Hnone|]. intros action bind Hin.
      apply (Hno action bind). apply (Permutation_in _ Hperm). exact Hin. }
  split; [exact Hcases|]. split.
  - intro Hnone. destruct Hcases as [(bind & Hin & Hk) | (_ & Hno)];
      [|exact Hno].
    exfalso. rewrite Hnone in Hin. simpl in Hin.
    repeat (destruct Hin as [Hin|Hin]; [discriminate|]). contradiction.
  - intro Hno. destruct Hcases as [(bind & Hin & Hk) | (Hnone & _)];
      [|exact Hnone].
    exfalso. exact (Hno _ _ Hin Hk).
Qed.

Lemma SearchKey_sound_witness :
  SearchKey (rev keyBindings) tcell.KeyEnter = "" <->
  forall action bind,
    In (action, bind) keyBindings -> ~ In tcell.KeyEnter bind.
Proof.
  apply (SearchKey_sound (rev keyBindings) tcell.KeyEnter
           (Permutation_rev keyBindings)).
Defined.

(** A key of an action that shares no key resolves to that action in every
    order of the map. *)
Lemma SearchKey_unshared (kb : KeyBindings) (action : string)
    (bind : list Key) (code : Key) :
  iteration_order kb ->
  In (action, bind) keyBindings -> In code bind ->
  action <> "key_list_value" -> action <> "key_hash" ->
  SearchKey kb code = action.
Proof.
  intros Hperm Hin Hcode Hl Hh.
  destruct (SearchKey_bound kb action bind code Hperm Hin Hcode)
    as (bind' & Hin' & Hcode').
  revert Hin' Hcode'. generalize (SearchKey kb code) as name.
  intros name Hin' Hcode'.
  unfold keyBindings in Hin, Hin'. simpl in Hin, Hin'.
  repeat match goal with
         | H : _ \/ _ |- _ => destruct H
         | H : (_, _) = (_, _) |- _ => injection H as <- <-
         | H : False |- _ => contradiction
         end;
    simpl in Hcode, Hcode';
    repeat match goal with
           | H : _ \/ _ |- _ => destruct H
           | H : False |- _ => contradiction
           end;
    subst; try discriminate; try reflexivity; congruence.
Qed.

(** A shared key resolves to one of the two actions that share it. *)
Lemma SearchKey_shared (kb : KeyBindings) (code : Key) :
  iteration_order kb ->
  In code [tcell.KeyF6; tcell.KeyCtrlY] ->
  SearchKey kb code = "key_list_value" \/ SearchKey kb code = "key_hash".
Proof.
  intros Hperm Hcode.
  assert (Hin : In ("key_hash", [tcell.KeyF6; tcell.KeyCtrlY]) keyBindings)
    by (simpl; auto 6).
  destruct (SearchKey_bound kb _ _ code Hperm Hin Hcode)
    as (bind' & Hin' & Hcode').
  revert Hin' Hcode'. generalize (SearchKey kb code) as name.
  intros name Hin' Hcode'.
  unfold keyBindings in Hin'. simpl in Hin', Hcode.
  repeat match goal with
         | H : _ \/ _ |- _ => destruct H
         | H : (_, _) = (_, _) |- _ => injection H as <- <-
         | H : False |- _ => contradiction
         end;
    simpl in Hcode';
    repeat match goal with
           | H : _ \/ _ |- _ => destruct H
           | H : False |- _ => contradiction
           end;
    subst; try discriminate; auto.
Qed.

(** ** Shortcuts *)

(** The state the dispatcher works on: that of the call, after the debug
    message if there is one. *)
Lemma InputCapture_default (kb : KeyBindings) (k : Key) (gli : RedisGli) :
  SearchKey kb k <> "switch_focus" ->
  SearchKey kb k <> "quit" ->
  SearchKey kb k <> "command" ->
  exists g,
    InputCapture kb k gli
    = Some (focusByKey (enumerate (focusPrimitives gli)) (SearchKey kb k) g,
            Some k)
    /\ focus g = focus gli
    /\ currentFocusIndex g = currentFocusIndex gli
    /\ focusPrimitives g = focusPrimitives gli.
Proof.
  intros H1 H2 H3. unfold InputCapture.
  apply String.eqb_neq in H1, H2, H3. rewrite H1, H2, H3.
  destruct (configDebug gli); eexists; (split; [reflexivity|]);
    now repeat split.
Qed.

(** X17: in the running application, in every order of the map, each key of
    the actions [output], [command_focus], [command_result], [search] and
    [keys] moves the focus to the widget of that action and the index to its
    entry in the ring, and hands the event on. *)
Theorem shortcut_focus (kb : KeyBindings) (pk : primitiveKey)
    (bind : list Key) (code : Key) (gli : RedisGli) :
  reachable gli ->
  iteration_order kb ->
  In pk baseRing ->
  In (Key_ pk, bind) keyBindings ->
  In code bind ->
  exists gli',
    InputCapture kb code gli = Some (gli', Some code)
    /\ focus gli' = Some (Primitive_ pk)
    /\ index_at (focusPrimitives gli') (currentFocusIndex gli') = Some pk.
Proof.
  intros Hreach Hperm Hpk Hin Hcode.
  apply reachable_invariant in Hreach.
  destruct Hreach as ((views & Hviews & Hring) & _).
  assert (Hname : SearchKey kb code = Key_ pk).
  { apply (SearchKey_unshared kb (Key_ pk) bind code Hperm Hin Hcode);
      simpl in Hpk;
      repeat (destruct Hpk as [<-|Hpk]; [discriminate|]); contradiction. }
  destruct (InputCapture_default kb code gli) as (g & -> & Hf & Hi & Hr).
  { rewrite Hname. simpl in Hpk.
    repeat (destruct Hpk as [<-|Hpk]; [discriminate|]). contradiction. }
  { rewrite Hname. simpl in Hpk.
    repeat (destruct Hpk as [<-|Hpk]; [discriminate|]). contradiction. }
  { rewrite Hname. simpl in Hpk.
    repeat (destruct Hpk as [<-|Hpk]; [discriminate|]). contradiction. }
  eexists. split; [reflexivity|]. rewrite Hname, Hring.
  clear Hname Hin Hcode Hperm Hf Hi.
  revert Hr. rewrite Hring. generalize g. clear g. intros g Hr.
  simpl in Hviews, Hpk.
  destruct Hpk as [<-|[<-|[<-|[<-|[<-|[]]]]]];
    destruct Hviews as [<-|[<-|[<-|[<-|[]]]]];
    simpl; rewrite Hr; split; reflexivity.
Qed.

Lemma shortcut_focus_witness :
  exists gli',
    InputCapture (rev keyBindings) tcell.KeyCtrlS demoGli
    = Some (gli', Some tcell.KeyCtrlS)
    /\ focus gli' = Some SearchPanel
    /\ index_at (focusPrimitives gli') (currentFocusIndex gli')
       = Some {| Primitive_ := SearchPanel; Key_ := "search" |}.
Proof.
  apply (shortcut_focus (rev keyBindings)
           {| Primitive_ := SearchPanel; Key_ := "search" |}
           [tcell.KeyF2; tcell.KeyCtrlS] tcell.KeyCtrlS demoGli).
  - apply (reachable_start 10 "1.0" "01234567" false). reflexivity.
  - apply Permutation_rev.
  - simpl. auto.
  - simpl. auto.
  - simpl. auto.
Defined.

(** X18: F6 and Ctrl-Y are shown as the shortcut of the list view and of
    the hash view.  In the running application such a key reaches the
    mounted view only when the order of the map resolves it to the action of
    that view: then the focus and the index (5) go to the view; when it
    resolves to the action of the other view, the focus and the index stay
    as they were. *)
Theorem shared_shortcut (kb : KeyBindings) (code : Key) (pk : primitiveKey)
    (gli : RedisGli) :
  reachable gli ->
  iteration_order kb ->
  In code [tcell.KeyF6; tcell.KeyCtrlY] ->
  In pk [listEntry; hashEntry] ->
  In pk (focusPrimitives gli) ->
  exists gli',
    InputCapture kb code gli = Some (gli', Some code)
    /\ (SearchKey kb code = "key_list_value"
        \/ SearchKey kb code = "key_hash")
    /\ (SearchKey kb code = Key_ pk ->
        focus gli' = Some (Primitive_ pk) /\ currentFocusIndex gli' = 5)
    /\ (SearchKey kb code <> Key_ pk ->
        focus gli' = focus gli
        /\ currentFocusIndex gli' = currentFocusIndex gli).
Proof.
  intros Hreach Hperm Hcode Hpk Hmounted.
  apply reachable_invariant in Hreach.
  destruct Hreach as ((views & Hviews & Hring) & _).
  pose proof (SearchKey_shared kb code Hperm Hcode) as Hname.
  destruct (InputCapture_default kb code gli) as (g & -> & Hf & Hi & Hr);
    try (destruct Hname as [-> | ->]; discriminate).
  eexists. split; [reflexivity|]. split; [exact Hname|].
  rewrite <- Hf, <- Hi. clear Hf Hi Hr Hperm Hcode.
  rewrite Hring in *. generalize g. clear g. intro g.
  simpl in Hviews, Hpk.
  destruct Hpk as [<-|[<-|[]]];
    destruct Hviews as [<-|[<-|[<-|[<-|[]]]]];
    simpl in Hmounted;
    try (repeat (destruct Hmounted as [Hm|Hmounted];
                 [discriminate Hm|]); contradiction);
    destruct Hname as [-> | ->]; simpl;
    (split; intro H; [try discriminate H | try (now contradiction H)]);
    split; reflexivity.
Qed.

Lemma shared_shortcut_witness :
  let rc := Store.client Store.demo in
  let gli1 := initialLoad rc demoGli in
  let gli := selectItem rc (keyItemsPanel gli1) 1 gli1 in
  exists gli',
    InputCapture (rev keyBindings) tcell.KeyF6 gli
    = Some (gli', Some tcell.KeyF6)
    /\ focus gli' = focus gli
    /\ currentFocusIndex gli' = currentFocusIndex gli.
Proof.
  intros rc gli1 gli.
  destruct (shared_shortcut (rev keyBindings) tcell.KeyF6 listEntry gli)
    as (gli' & Hcap & _ & _ & Hother).
  - apply (reachable_step rc (EvKeyItem 1) gli1).
    + apply (reachable_step rc EvInitialLoad demoGli).
      * apply (reachable_start 10 "1.0" "01234567" false). reflexivity.
      * exact I.
      * reflexivity.
    + exact I.
    + reflexivity.
  - apply Permutation_rev.
  - simpl. auto.
  - simpl. auto.
  - vm_compute. auto 10.
  - exists gli'. split; [exact Hcap|]. apply Hother. vm_compute. discriminate.
Defined.

(** ** What the dispatcher hands on and leaves alone *)

(** X19: the input capture consumes the event for [switch_focus] only; for
    every other key, bound or not, the event is handed on to the focused
    widget.  It never issues a store call and never changes the entries of
    the ring, the key list, the views, the lock or the queue; it stops the
    application exactly for [quit]. *)
Theorem InputCapture_effects (kb : KeyBindings) (k : Key)
    (gli gli' : RedisGli) (ev : option Key) :
  InputCapture kb k gli = Some (gli', ev) ->
  (ev = None <-> SearchKey kb k = "switch_focus")
  /\ (SearchKey kb k <> "switch_focus" -> ev = Some k)
  /\ redisCalls gli' = redisCalls gli
  /\ focusPrimitives gli' = focusPrimitives gli
  /\ keyItemsPanel gli' = keyItemsPanel gli
  /\ detail gli' = detail gli
  /\ locked gli' = locked gli
  /\ queuedUpdates gli' = queuedUpdates gli
  /\ (stopped gli' = true <->
      stopped gli = true \/ SearchKey kb k = "quit").
Proof.
  intro Hcap.
  destruct (InputCapture_frame _ _ _ _ _ Hcap)
    as (i & f & st & cm & rp & out & Heq).
  assert (Hev : (ev = None <-> SearchKey kb k = "switch_focus")
                /\ (SearchKey kb k <> "switch_focus" -> ev = Some k)
                /\ (stopped gli' = true <->
                    stopped gli = true \/ SearchKey kb k = "quit")).
  { clear Heq. unfold InputCapture in Hcap.
    set (g := if configDebug gli then _ else gli) in Hcap.
    assert (Hg : stopped g = stopped gli).
    { subst g. now destruct (configDebug gli). }
    clearbody g.
    destruct (String.eqb_spec (SearchKey kb k) "switch_focus") as [Hs|Hs].
    { unfold switchFocus in Hcap.
      destruct (index_at _ _); [|discriminate].
      injection Hcap as <- <-. simpl. rewrite Hg, Hs.
      split; [tauto|]. split; [congruence|].
      split; [auto|]. intros [H|H]; [exact H|discriminate H]. }
    destruct (String.eqb_spec (SearchKey kb k) "quit") as [Hq|Hq].
    { injection Hcap as <- <-. simpl.
      split; [split; [discriminate|contradiction]|].
      split; [reflexivity|]. split; auto. }
    assert (Hrest : forall R : RedisGli,
              stopped R = stopped g -> Some (R, Some k) = Some (gli', ev) ->
              (ev = None <-> SearchKey kb k = "switch_focus")
              /\ (SearchKey kb k <> "switch_focus" -> ev = Some k)
              /\ (stopped gli' = true <->
                  stopped gli = true \/ SearchKey kb k = "quit")).
    { intros R HR H. injection H as <- <-. rewrite HR, Hg.
      split; [split; [discriminate|contradiction]|].
      split; [reflexivity|]. split; [auto|].
      intros [H|H]; [exact H|contradiction]. }
    destruct (String.eqb (SearchKey kb k) "command").
    - apply (fun H => Hrest _ H Hcap). unfold toggleCommand.
      destruct (commandMode g); [reflexivity|].
      match goal with |- context [focusCommandForm ?l ?s] =>
        destruct (focusCommandForm_shape l s) as (i' & f' & -> & _)
      end.
      reflexivity.
    - apply (fun H => Hrest _ H Hcap).
      match goal with |- context [focusByKey ?l ?n ?s] =>
        destruct (focusByKey_shape l n s) as [-> | (i' & pv & _ & _ & ->)]
      end; reflexivity. }
  destruct Hev as (H1 & H2 & H3).
  split; [exact H1|]. split; [exact H2|].
  rewrite Heq. repeat split; try reflexivity.
  - intro H. apply H3. rewrite Heq. exact H.
  - intro H. apply H3 in H. rewrite Heq in H. exact H.
Qed.

Lemma InputCapture_effects_witness :
  InputCapture keyBindings tcell.KeyEsc demoGli
  = Some (set_stopped true demoGli, Some tcell.KeyEsc)
  /\ (stopped (set_stopped true demoGli) = true <->
      stopped demoGli = true \/ SearchKey keyBindings tcell.KeyEsc = "quit").
Proof.
  assert (Hcap : InputCapture keyBindings tcell.KeyEsc demoGli
                 = Some (set_stopped true demoGli, Some tcell.KeyEsc))
    by (vm_compute; reflexivity).
  split; [exact Hcap|].
  destruct (InputCapture_effects keyBindings tcell.KeyEsc demoGli
              (set_stopped true demoGli) (Some tcell.KeyEsc) Hcap)
    as (_ & _ & _ & _ & _ & _ & _ & _ & H).
  exact H.
Defined.

(** ** Leaving command mode *)

(** X20: in the running application, leaving command mode gives the focus
    to the search input while the index becomes 0, the entry of the output
    panel; the next [switch_focus] therefore goes to entry 1, the command
    input, although the command panel is no longer mounted. *)
Theorem leave_command_then_switch (kb kb' : KeyBindings) (k k' : Key)
    (gli : RedisGli) :
  reachable gli ->
  commandMode gli = true ->
  SearchKey kb k = "command" ->
  SearchKey kb' k' = "switch_focus" ->
  exists gli1 gli2,
    InputCapture kb k gli = Some (gli1, Some k)
    /\ InputCapture kb' k' gli1 = Some (gli2, None)
    /\ focus gli1 = Some SearchPanel
    /\ index_at (focusPrimitives gli1) (currentFocusIndex gli1)
       = Some {| Primitive_ := OutputPanel; Key_ := "output" |}
    /\ focus gli2 = Some CommandFormPanel
    /\ currentFocusIndex gli2 = 1
    /\ commandMode gli2 = false
    /\ map tview.Item (rightPanel gli2)
       = [HelpPanel; MetaPanel; MainPanel; OutputPanel].
Proof.
  intros Hreach Hmode Hk Hk'.
  destruct (reachable_step_total (Store.client []) (EvInput kb k) gli Hreach)
    as (gli1 & Hstep1).
  simpl in Hstep1.
  destruct (InputCapture kb k gli) as [[g1 e1]|] eqn:Hcap1; [|discriminate].
  injection Hstep1 as ->.
  pose proof (reachable_invariant gli Hreach) as (Hring & _ & _ & Hlay).
  assert (H1 : e1 = Some k /\ focus gli1 = Some SearchPanel
               /\ currentFocusIndex gli1 = 0
               /\ commandMode gli1 = false
               /\ focusPrimitives gli1 = focusPrimitives gli
               /\ rightPanel gli1 = rightLayout MainPanel).
  { unfold InputCapture in Hcap1. rewrite Hk in Hcap1. simpl in Hcap1.
    set (g := if configDebug gli then _ else gli) in Hcap1.
    assert (Hg : commandMode g = commandMode gli
                 /\ focusPrimitives g = focusPrimitives gli
                 /\ rightPanel g = rightPanel gli).
    { subst g. now destruct (configDebug gli). }
    clearbody g. destruct Hg as (Hm & Hr & Hp).
    unfold toggleCommand in Hcap1. rewrite Hm, Hmode in Hcap1.
    injection Hcap1 as <- <-. simpl.
    repeat split; try assumption.
    unfold redrawRightPanel. simpl. rewrite Hp. unfold layout_ok in Hlay.
    rewrite Hlay, Hmode. reflexivity. }
  destruct H1 as (-> & Hf1 & Hi1 & Hm1 & Hr1 & Hp1).
  destruct Hring as (views & Hviews & Hring).
  exists gli1.
  assert (H2 : exists gli2,
             InputCapture kb' k' gli1 = Some (gli2, None)
             /\ focus gli2 = Some CommandFormPanel
             /\ currentFocusIndex gli2 = 1
             /\ commandMode gli2 = false
             /\ rightPanel gli2 = rightLayout MainPanel).
  { unfold InputCapture. rewrite Hk'. simpl.
    set (g := if configDebug gli1 then _ else gli1).
    assert (Hg : commandMode g = false
                 /\ focusPrimitives g = baseRing ++ views
                 /\ rightPanel g = rightLayout MainPanel
                 /\ currentFocusIndex g = 0).
    { subst g. rewrite <- Hring, <- Hr1.
      now destruct (configDebug gli1). }
    clearbody g. destruct Hg as (Hm & Hr & Hp & Hi).
    unfold switchFocus. rewrite Hi, Hr.
    simpl in Hviews.
    destruct Hviews as [<-|[<-|[<-|[<-|[]]]]]; simpl;
      eexists; (split; [reflexivity|]); simpl; auto. }
  destruct H2 as (gli2 & Hcap2 & Hf2 & Hi2 & Hm2 & Hp2).
  exists gli2. split; [reflexivity|]. split; [exact Hcap2|].
  split; [exact Hf1|]. split.
  { rewrite Hi1, Hr1, Hring. reflexivity. }
  split; [exact Hf2|]. split; [exact Hi2|]. split; [exact Hm2|].
  rewrite Hp2. reflexivity.
Qed.

Lemma leave_command_then_switch_witness :
  let gli := toggleCommand demoGli in
  exists gli1 gli2,
    InputCapture keyBindings tcell.KeyF1 gli = Some (gli1, Some tcell.KeyF1)
    /\ InputCapture keyBindings tcell.KeyTab gli1 = Some (gli2, None)
    /\ focus gli1 = Some SearchPanel
    /\ index_at (focusPrimitives gli1) (currentFocusIndex gli1)
       = Some {| Primitive_ := OutputPanel; Key_ := "output" |}
    /\ focus gli2 = Some CommandFormPanel
    /\ currentFocusIndex gli2 = 1
    /\ commandMode gli2 = false
    /\ map tview.Item (rightPanel gli2)
       = [HelpPanel; MetaPanel; MainPanel; OutputPanel].
Proof.
  intro gli.
  apply (leave_command_then_switch keyBindings keyBindings tcell.KeyF1
           tcell.KeyTab gli).
  - apply (reachable_step (Store.client [])
             (EvInput keyBindings tcell.KeyF1) demoGli).
    + apply (reachable_start 10 "1.0" "01234567" false). reflexivity.
    + apply Permutation_refl.
    + reflexivity.
  - reflexivity.
  - reflexivity.
  - reflexivity.
Defined.

(** ** The first load *)

(** X21: the first update of [Start] always issues the status fetch and
    then the scan of every key from cursor 0 with the configured limit, and
    always writes the status text returned; a failure of the status fetch
    sends an error message and does not stop the load.  If the scan fails,
    a further error message is sent, no row is added and the focus is not
    moved; if it succeeds, one row per key is added after the rows present,
    the summary counts the keys and the key list gets the focus. *)
Theorem initialLoad_outcome (rc : Redis.Client) (gli : RedisGli) :
  let gli' := initialLoad rc gli in
  let statusErrors :=
    match snd (Redis.ServerInfo rc) with
    | Some e => [errorMessage e]
    | None => []
    end in
  redisCalls gli'
  = redisCalls gli
    ++ [Redis.CallServerInfo; Redis.CallScan 0 "*" (maxKeyLimit gli)]
  /\ tview.Text (helpServerInfoPanel gli') = fst (Redis.ServerInfo rc)
  /\ (forall err,
        Redis.Scan rc 0 "*" (maxKeyLimit gli) = Err err ->
        outputChan gli'
        = outputChan gli ++ statusErrors ++ [errorMessage err]
        /\ keyItemsPanel gli' = keyItemsPanel gli
        /\ summaryPanel gli' = summaryPanel gli
        /\ focus gli' = focus gli)
  /\ (forall keys cursor,
        Redis.Scan rc 0 "*" (maxKeyLimit gli) = Ok (keys, cursor) ->
        outputChan gli' = outputChan gli ++ statusErrors
        /\ tview.Items (keyItemsPanel gli')
           = tview.Items (keyItemsPanel gli) ++ map keyRow (enumerate keys)
        /\ tview.Text (summaryPanel gli')
           = " Total matched: " +++ fmt_d (len keys)
        /\ focus gli' = Some KeyItemsPanel).
Proof.
  intros gli' statusErrors. subst gli' statusErrors. unfold initialLoad.
  destruct (Redis.ServerInfo rc) as [info [e|]]; simpl;
    destruct (Redis.Scan rc 0 "*" (maxKeyLimit gli)) as [[keys c]|err];
    rewrite ?addKeyItems_eq; simpl; rewrite <- ?app_assoc, ?app_nil_r;
    (split; [reflexivity|]); (split; [reflexivity|]);
    split; intros; try discriminate;
    repeat match goal with
           | H : Ok _ = Ok _ |- _ => injection H as <- <-
           | H : Err _ = Err _ |- _ => injection H as <-
           end;
    repeat split; reflexivity.
Qed.

(** ** The width of the index column *)

Lemma append_length (a b : string) :
  String.length (a +++ b) = (String.length a + String.length b)%nat.
Proof. induction a as [|c a IH]; simpl; [reflexivity|now rewrite IH]. Qed.

Lemma fmt_3d_below_1000 :
  forallb (fun i => Nat.eqb (String.length (fmt_3d (Z.of_nat i))) 3)
    (seq 0 1000) = true.
Proof. vm_compute. reflexivity. Qed.

(** X22: the index column is three characters wide for the first 999 rows:
    up to 999 the index is padded on the left to that width, so the row of
    the key list is 6 characters longer than the key and the row of a
    detail view 7 characters longer than the element; from 1000 on the
    index takes its own four digits or more and the column is wider. *)
Theorem row_width (i : Z) (text : string) :
  0 <= i < 999 ->
  String.length (fmt_3d (i + 1)) = 3%nat
  /\ String.length (keyItemsFormat i text) = (6 + String.length text)%nat
  /\ String.length (viewRowFormat i text) = (7 + String.length text)%nat
  /\ String.length (fmt_3d 1000) = 4%nat.
Proof.
  intro Hi.
  assert (H3 : String.length (fmt_3d (i + 1)) = 3%nat).
  { pose proof fmt_3d_below_1000 as Hall.
    rewrite forallb_forall in Hall.
    specialize (Hall (Z.to_nat (i + 1))).
    rewrite Z2Nat.id in Hall by lia.
    apply Nat.eqb_eq, Hall, in_seq. lia. }
  split; [exact H3|].
  unfold keyItemsFormat, viewRowFormat.
  rewrite !append_length, H3. simpl. repeat split; reflexivity.
Qed.

Lemma row_width_witness :
  String.length (viewRowFormat 41 "value") = 12%nat.
Proof.
  apply (row_width 41 "value"). lia.
Defined.

Lemma initialLoad_outcome_witness :
  tview.Items (keyItemsPanel (initialLoad (Store.client Store.demo) demoGli))
  = map keyRow (enumerate ["a"; "b"; "h"]).
Proof.
  apply (proj2 (proj2 (proj2
           (initialLoad_outcome (Store.client Store.demo) demoGli)))
           ["a"; "b"; "h"] 0 eq_refl).
Defined.

Lemma dropped_submission_never_runs_witness :
  let gli := submit "GET a" demoGli in
  redisCalls (runQueued (Store.client Store.demo) (submit "DEL a" gli))
  = [Redis.CallExecute "GET a"].
Proof.
  intro gli.
  apply (dropped_submission_never_runs (Store.client Store.demo)
           "GET a" "DEL a" gli eq_refl eq_refl).
Defined.

(** ** The state the constructor builds *)

(** X24: with a [gitCommit] of 8 bytes or more the constructor returns; the
    application keeps the first 8 bytes of it and the key limit given,
    starts out of command mode with the main panel, holding the welcome
    screen, in the centre of the right panel, with the lock free, and with
    the ring output, command input, command result, search, key list, the
    index on the first of them. *)
Theorem NewRedisGli_initial_state (limit : Z) (ver commit : string)
    (debug : bool) :
  (8 <= String.length commit)%nat ->
  exists gli,
    NewRedisGli limit ver commit debug = Some gli
    /\ gitCommit gli = substring 0 8 commit
    /\ maxKeyLimit gli = limit
    /\ commandMode gli = false
    /\ rightPanel gli = rightLayout MainPanel
    /\ map tview.Item (mainPanel gli) = [WelcomeScreen]
    /\ locked gli = false
    /\ focusPrimitives gli = baseRing
    /\ currentFocusIndex gli = 0.
Proof.
  intro H. unfold NewRedisGli, slice_0_8.
  destruct (Z.ltb_spec (Z.of_nat (String.length commit)) 8) as [Hlt|_].
  - lia.
  - eexists. split; [reflexivity|]. repeat split.
Qed.

Lemma NewRedisGli_initial_state_witness :
  exists gli,
    NewRedisGli 10 "1.0" "0123456789abcdef" false = Some gli
    /\ gitCommit gli = "01234567"
    /\ maxKeyLimit gli = 10
    /\ commandMode gli = false
    /\ rightPanel gli = rightLayout MainPanel
    /\ map tview.Item (mainPanel gli) = [WelcomeScreen]
    /\ locked gli = false
    /\ focusPrimitives gli = baseRing
    /\ currentFocusIndex gli = 0.
Proof.
  apply (NewRedisGli_initial_state 10 "1.0" "0123456789abcdef" false).
  simpl. lia.
Defined.

Lemma initialLoad_focus (rc : Redis.Client) (gli : RedisGli)
    (keys : list string) (cursor : Z) :
  Redis.Scan rc 0 "*" (maxKeyLimit gli) = Ok (keys, cursor) ->
  focus (initialLoad rc gli) = Some KeyItemsPanel.
Proof.
  intro Hscan. unfold initialLoad.
  destruct (Redis.ServerInfo rc) as [info [e|]]; simpl;
    rewrite Hscan, addKeyItems_eq; reflexivity.
Qed.

(** X25: the first load gives the focus to the key list without moving the
    index, which stays on entry 0 (the output panel): after a load whose
    scan succeeds, the first [switch_focus] goes to entry 1, the command
    input, not to the entry after the key list. *)
Theorem first_switch_after_load (rc : Redis.Client) (limit : Z)
    (ver commit : string) (debug : bool) (gli : RedisGli)
    (keys : list string) (cursor : Z) :
  NewRedisGli limit ver commit debug = Some gli ->
  Redis.Scan rc 0 "*" limit = Ok (keys, cursor) ->
  let gli1 := initialLoad rc (Start gli) in
  focus gli1 = Some KeyItemsPanel
  /\ currentFocusIndex gli1 = 0
  /\ index_at (focusPrimitives gli1) 4
     = Some {| Primitive_ := KeyItemsPanel; Key_ := "keys" |}
  /\ exists gli2,
       switchFocus gli1 = Some gli2
       /\ focus gli2 = Some CommandFormPanel
       /\ currentFocusIndex gli2 = 1.
Proof.
  intros Hnew Hscan gli1.
  unfold NewRedisGli in Hnew.
  destruct (slice_0_8 commit) as [c|]; [|discriminate].
  injection Hnew as <-.
  assert (Hfocus : focus gli1 = Some KeyItemsPanel).
  { apply (initialLoad_focus rc _ keys cursor). exact Hscan. }
  pose proof (initialLoad_core rc
                (Start (construct (literal limit ver c debug)))) as Hcore.
  fold gli1 in Hcore. unfold core, rest in Hcore.
  injection Hcore as Hr Hi _ _ _ _.
  change (focusPrimitives gli1 = baseRing) in Hr.
  change (currentFocusIndex gli1 = 0) in Hi.
  clearbody gli1.
  split; [exact Hfocus|]. split; [exact Hi|].
  split; [rewrite Hr; reflexivity|].
  unfold switchFocus. rewrite Hi, Hr. simpl.
  eexists. split; [reflexivity|]. split; reflexivity.
Qed.

Lemma first_switch_after_load_witness :
  currentFocusIndex (initialLoad (Store.client Store.demo) demoGli) = 0.
Proof.
  apply (first_switch_after_load (Store.client Store.demo) 10 "1.0"
           "01234567" false (construct (literal 10 "1.0" "01234567" false))
           ["a"; "b"; "h"] 0 eq_refl eq_refl).
Defined.

